(** * SPL image loading from SPI NOR / SPI NAND flash on Allwinner SoCs

    A shallow embedding of [arch/arm/mach-sunxi/spl_spi_sunxi.c]: the SPI0
    controller lifecycle, the byte transfer engine, the NOR and NAND read
    functions and the image dispatch, followed by the properties the
    specification states about them.

    The program talks to the hardware through memory-mapped registers.  Every
    register access, delay, pin configuration and byte stored into RAM is
    recorded, in program order, in a trace; the value of a register read is
    given by an oracle that sees the whole history of accesses.  A function of
    the driver is a function from the trace so far to an outcome. *)

From Stdlib Require Import ZArith List Bool Lia.
Import ListNotations.
Open Scope Z_scope.

(** ** Machine integers *)

Definition u8 (x : Z) : Z := x mod 2 ^ 8.
Definition u32 (x : Z) : Z := x mod 2 ^ 32.
Definition BIT (n : Z) : Z := Z.shiftl 1 n.

(** errno values of the negative status codes *)
Definition EINVAL : Z := 22.
Definition ETIMEDOUT : Z := 110.

(** ** Build-time configuration (Kconfig) *)

Record config := {
  CONFIG_MACH_SUN4I : bool;
  CONFIG_MACH_SUN7I : bool;
  CONFIG_MACH_SUN8I_R40 : bool;
  CONFIG_MACH_SUN8I_R528 : bool;
  CONFIG_MACH_SUN8I_V3S : bool;
  CONFIG_MACH_SUN50I : bool;
  CONFIG_MACH_SUN50I_H6 : bool;
  CONFIG_MACH_SUN50I_H616 : bool;
  CONFIG_MACH_SUNIV : bool;
  CONFIG_SUNXI_GEN_SUN6I : bool;
  CONFIG_SUN50I_GEN_H6 : bool;
  CONFIG_SUNXI_GEN_NCAT2 : bool;
  CONFIG_SPL_LOAD_FIT : bool;
  CONFIG_SPL_SPINAND_SUPPORT : bool;
  CONFIG_ARM64 : bool;
  CONFIG_SPL_SPINAND_PAGE_SIZE : Z;
  CONFIG_SYS_SPI_U_BOOT_OFFS : Z;
  CONFIG_TEXT_BASE : Z
}.

(** [ulong] is 64 bits wide on the 64-bit SoCs and 32 bits wide otherwise. *)
Definition BITS_PER_LONG (cfg : config) : Z :=
  if CONFIG_ARM64 cfg then 64 else 32.
Definition ulong (cfg : config) (x : Z) : Z := x mod 2 ^ BITS_PER_LONG cfg.

(** ** The trace of hardware accesses *)

Inductive pin_function :=
| SUNXI_GPC_SPI0
| SUN50I_GPC_SPI0
| SUNIV_GPC_SPI0
| SUNXI_GPIO_INPUT
| SUNXI_GPIO_DISABLE.

Inductive event :=
| EvWritel (val addr : Z)             (* writel(val, addr) *)
| EvWriteb (val addr : Z)             (* writeb(val, addr) *)
| EvSetbits (addr set : Z)            (* setbits_le32(addr, set) *)
| EvClrbits (addr clr : Z)            (* clrbits_le32(addr, clr) *)
| EvReadl (addr val : Z)              (* readl(addr), with the value read *)
| EvReadb (addr val : Z)              (* readb(addr), with the value read *)
| EvUdelay (usec : Z)                 (* udelay(usec) *)
| EvCfgpin (gpc : Z) (f : pin_function) (* sunxi_gpio_set_cfgpin(SUNXI_GPC(gpc), f) *)
| EvStore (addr val : Z).             (* one byte stored into RAM *)

(** Oldest event first. *)
Definition trace := list event.

(** The hardware: the value the next read of a register returns, given the
    history of accesses. *)
Definition oracle := trace -> Z -> Z.

(** RAM contents after the stores of a trace, over initial contents [ram0]. *)
Fixpoint ram (ram0 : Z -> Z) (t : trace) (a : Z) : Z :=
  match t with
  | [] => ram0 a
  | EvStore a' v :: t' => ram (fun x => if x =? a' then v else ram0 x) t' a
  | _ :: t' => ram ram0 t' a
  end.

(** ** Outcomes and the driver monad *)

Inductive outcome (A : Type) :=
| Ret (a : A) (t : trace)   (* returned [a], the trace is now [t] *)
| Hang                      (* an unbounded busy-wait was never satisfied *)
| Undef.                    (* no defined behaviour *)
Arguments Ret {A} a t.
Arguments Hang {A}.
Arguments Undef {A}.

Definition M (A : Type) := trace -> outcome A.

Definition ret {A} (a : A) : M A := fun t => Ret a t.

Definition bind {A B} (m : M A) (k : A -> M B) : M B :=
  fun t => match m t with
           | Ret a t' => k a t'
           | Hang => Hang
           | Undef => Undef
           end.

Notation "x <- m ;; k" := (bind m (fun x => k))
  (at level 61, m at next level, right associativity).
Notation "m ;;; k" := (bind m (fun _ => k))
  (at level 61, right associativity).

Definition emit (e : event) : M unit := fun t => Ret tt (t ++ [e]).
Definition undefined {A} : M A := fun _ => Undef.

Fixpoint for_each {A} (l : list A) (body : A -> M unit) : M unit :=
  match l with
  | [] => ret tt
  | a :: l' => body a ;;; for_each l' body
  end.

(** Destination of received bytes: the NULL pointer, a local array of the
    caller (the bytes are handed back to it), or an address in RAM. *)
Inductive rxdest :=
| RxNull
| RxLocal
| RxRam (addr : Z).

Definition rx_next (d : rxdest) : rxdest :=
  match d with
  | RxRam a => RxRam (a + 1)
  | _ => d
  end.

(** A local byte array with one element replaced. *)
Fixpoint upd (i : nat) (v : Z) (l : list Z) : list Z :=
  match l, i with
  | [], _ => []
  | _ :: l', O => v :: l'
  | x :: l', S i' => x :: upd i' v l'
  end.

(** ** Register map *)

Definition SUN4I_SPI0_CCTL : Z := 0x1C.
Definition SUN4I_SPI0_CTL : Z := 0x08.
Definition SUN4I_SPI0_RX : Z := 0x00.
Definition SUN4I_SPI0_TX : Z := 0x04.
Definition SUN4I_SPI0_FIFO_STA : Z := 0x28.
Definition SUN4I_SPI0_BC : Z := 0x20.
Definition SUN4I_SPI0_TC : Z := 0x24.

Definition SUN4I_CTL_ENABLE : Z := BIT 0.
Definition SUN4I_CTL_MASTER : Z := BIT 1.
Definition SUN4I_CTL_TF_RST : Z := BIT 8.
Definition SUN4I_CTL_RF_RST : Z := BIT 9.
Definition SUN4I_CTL_XCH : Z := BIT 10.

Definition SUN6I_SPI0_CCTL : Z := 0x24.
Definition SUN6I_SPI0_GCR : Z := 0x04.
Definition SUN6I_SPI0_TCR : Z := 0x08.
Definition SUN6I_SPI0_FIFO_STA : Z := 0x1C.
Definition SUN6I_SPI0_MBC : Z := 0x30.
Definition SUN6I_SPI0_MTC : Z := 0x34.
Definition SUN6I_SPI0_BCC : Z := 0x38.
Definition SUN6I_SPI0_TXD : Z := 0x200.
Definition SUN6I_SPI0_RXD : Z := 0x300.

Definition SUN6I_CTL_ENABLE : Z := BIT 0.
Definition SUN6I_CTL_MASTER : Z := BIT 1.
Definition SUN6I_CTL_SRST : Z := BIT 31.
Definition SUN6I_TCR_SDM : Z := BIT 13.
Definition SUN6I_TCR_XCH : Z := BIT 31.

Definition CCM_BASE (cfg : config) : Z :=
  if CONFIG_SUN50I_GEN_H6 cfg then 0x03001000
  else if CONFIG_SUNXI_GEN_NCAT2 cfg then 0x02001000
  else 0x01C20000.

Definition CCM_AHB_GATING0 (cfg : config) : Z := CCM_BASE cfg + 0x60.
Definition CCM_H6_SPI_BGR_REG (cfg : config) : Z := CCM_BASE cfg + 0x96c.
Definition CCM_SPI0_CLK (cfg : config) : Z :=
  if CONFIG_SUN50I_GEN_H6 cfg || CONFIG_SUNXI_GEN_NCAT2 cfg
  then CCM_BASE cfg + 0x940
  else CCM_BASE cfg + 0xA0.
Definition SUN6I_BUS_SOFT_RST_REG0 (cfg : config) : Z := CCM_BASE cfg + 0x2C0.

Definition AHB_RESET_SPI0_SHIFT : Z := 20.
Definition AHB_GATE_OFFSET_SPI0 : Z := 20.

Definition SPI0_CLK_DIV_BY_2 : Z := 0x1000.
Definition SPI0_CLK_DIV_BY_4 : Z := 0x1001.
Definition SPI0_CLK_DIV_BY_32 : Z := 0x100f.

(** FIFO size, minus 4 bytes of the header *)
Definition SPI_READ_MAX_SIZE : Z := 60.

Definition is_sun6i_gen_spi (cfg : config) : bool :=
  CONFIG_SUNXI_GEN_SUN6I cfg || CONFIG_SUN50I_GEN_H6 cfg ||
  CONFIG_SUNXI_GEN_NCAT2 cfg || CONFIG_MACH_SUN8I_V3S cfg.

Definition spi0_base_address (cfg : config) : Z :=
  if CONFIG_MACH_SUN8I_R40 cfg then 0x01C05000
  else if CONFIG_SUN50I_GEN_H6 cfg then 0x05010000
  else if CONFIG_SUNXI_GEN_NCAT2 cfg then 0x04025000
  else if negb (is_sun6i_gen_spi cfg) || CONFIG_MACH_SUNIV cfg then 0x01C05000
  else 0x01C68000.

(** ** External collaborators *)

Record spl_image_info := {
  size : Z;
  load_addr : Z
}.

Inductive boot_device :=
| BOOT_DEVICE_SPI
| BOOT_DEVICE_SPINAND
| BOOT_DEVICE_OTHER.

(** The structured-image (FIT) loader is opaque.  It reaches the flash only
    through the read function it is handed: it either returns a status, or
    asks for a read and goes on from the count returned and the RAM contents
    it then finds. *)
Inductive ext_prog :=
| ExtRet (status : Z)
| ExtRead (sector count buf : Z) (k : Z -> (Z -> Z) -> ext_prog).

Record collaborators := {
  (* sunxi_get_spl_size() *)
  sunxi_get_spl_size : Z;
  (* spl_parse_image_header(spl_image, bootdev, header): the status and the
     image information it fills in, from the RAM contents and the header
     address *)
  spl_parse_image_header : boot_device -> (Z -> Z) -> Z -> Z * spl_image_info;
  (* spl_load_simple_fit(spl_image, load, offset, header), from the RAM
     contents, the offset and the header address *)
  spl_load_simple_fit : (Z -> Z) -> Z -> Z -> ext_prog;
  (* magic numbers of include/image.h and include/linux/libfdt.h *)
  FDT_MAGIC : Z;
  IH_MAGIC : Z;
  (* RAM contents when the loader is entered *)
  ram0 : Z -> Z
}.

Section Driver.

Variable cfg : config.
Variable hw : oracle.
(** Number of polls after which an unbounded busy-wait counts as hung. *)
Variable fuel : nat.

(** *** Register access primitives *)

Definition writel (val addr : Z) : M unit := emit (EvWritel val addr).
Definition writeb (val addr : Z) : M unit := emit (EvWriteb val addr).
Definition setbits_le32 (addr set : Z) : M unit := emit (EvSetbits addr set).
Definition clrbits_le32 (addr clr : Z) : M unit := emit (EvClrbits addr clr).
Definition udelay (usec : Z) : M unit := emit (EvUdelay usec).
Definition sunxi_gpio_set_cfgpin (gpc : Z) (f : pin_function) : M unit :=
  emit (EvCfgpin gpc f).
Definition store (addr val : Z) : M unit := emit (EvStore addr val).

Definition readl (addr : Z) : M Z :=
  fun t => let v := u32 (hw t addr) in Ret v (t ++ [EvReadl addr v]).
Definition readb (addr : Z) : M Z :=
  fun t => let v := u8 (hw t addr) in Ret v (t ++ [EvReadb addr v]).

(** [while (busy(readl(reg))) ;] *)
Fixpoint busy_wait (n : nat) (reg : Z) (busy : Z -> bool) : M unit :=
  match n with
  | O => fun _ => Hang
  | S n' => v <- readl reg ;;
            if busy v then busy_wait n' reg busy else ret tt
  end.

(** *** Controller lifecycle *)

Definition when (b : bool) (m : M unit) : M unit := if b then m else ret tt.

Definition spi0_pinmux_setup (f : pin_function) : M unit :=
  when (negb (CONFIG_MACH_SUN8I_R528 cfg)) (sunxi_gpio_set_cfgpin 0 f) ;;;
  sunxi_gpio_set_cfgpin 2 f ;;;
  when (negb (CONFIG_SUN50I_GEN_H6 cfg) && negb (CONFIG_MACH_SUN8I_R528 cfg))
       (sunxi_gpio_set_cfgpin 1 f) ;;;
  when (CONFIG_MACH_SUN50I_H6 cfg || CONFIG_MACH_SUN8I_R528 cfg)
       (sunxi_gpio_set_cfgpin 5 f) ;;;
  when (CONFIG_MACH_SUN50I_H616 cfg || CONFIG_MACH_SUN8I_R528 cfg)
       (sunxi_gpio_set_cfgpin 4 f) ;;;
  if CONFIG_MACH_SUN4I cfg || CONFIG_MACH_SUN7I cfg || CONFIG_MACH_SUN8I_R40 cfg
  then sunxi_gpio_set_cfgpin 23 f
  else sunxi_gpio_set_cfgpin 3 f.

Definition spi0_enable_clock : M unit :=
  let base := spi0_base_address cfg in
  (if CONFIG_SUN50I_GEN_H6 cfg || CONFIG_SUNXI_GEN_NCAT2 cfg
   then setbits_le32 (CCM_H6_SPI_BGR_REG cfg) (Z.lor (Z.shiftl 1 16) 0x1)
   else when (is_sun6i_gen_spi cfg)
          (setbits_le32 (SUN6I_BUS_SOFT_RST_REG0 cfg)
                        (Z.shiftl 1 AHB_RESET_SPI0_SHIFT))) ;;;
  when (negb (CONFIG_SUN50I_GEN_H6 cfg) && negb (CONFIG_SUNXI_GEN_NCAT2 cfg))
       (setbits_le32 (CCM_AHB_GATING0 cfg) (Z.shiftl 1 AHB_GATE_OFFSET_SPI0)) ;;;
  (if CONFIG_MACH_SUNIV cfg
   then writel SPI0_CLK_DIV_BY_32 (base + SUN6I_SPI0_CCTL)
   else
     when (negb (CONFIG_SUNXI_GEN_NCAT2 cfg))
          (writel SPI0_CLK_DIV_BY_4
                  (base + (if is_sun6i_gen_spi cfg then SUN6I_SPI0_CCTL
                           else SUN4I_SPI0_CCTL))) ;;;
     writel (Z.shiftl 1 31) (CCM_SPI0_CLK cfg)) ;;;
  if is_sun6i_gen_spi cfg
  then
    setbits_le32 (base + SUN6I_SPI0_GCR)
                 (Z.lor (Z.lor SUN6I_CTL_MASTER SUN6I_CTL_ENABLE) SUN6I_CTL_SRST) ;;;
    busy_wait fuel (base + SUN6I_SPI0_GCR)
              (fun v => negb (Z.land v SUN6I_CTL_SRST =? 0)) ;;;
    when (CONFIG_SUNXI_GEN_NCAT2 cfg)
         (setbits_le32 (base + SUN6I_SPI0_TCR) SUN6I_TCR_SDM)
  else
    setbits_le32 (base + SUN4I_SPI0_CTL)
                 (Z.lor (Z.lor (Z.lor SUN4I_CTL_MASTER SUN4I_CTL_ENABLE)
                               SUN4I_CTL_TF_RST) SUN4I_CTL_RF_RST).

Definition spi0_disable_clock : M unit :=
  let base := spi0_base_address cfg in
  (if is_sun6i_gen_spi cfg
   then clrbits_le32 (base + SUN6I_SPI0_GCR)
                     (Z.lor SUN6I_CTL_MASTER SUN6I_CTL_ENABLE)
   else clrbits_le32 (base + SUN4I_SPI0_CTL)
                     (Z.lor SUN4I_CTL_MASTER SUN4I_CTL_ENABLE)) ;;;
  when (negb (CONFIG_MACH_SUNIV cfg)) (writel 0 (CCM_SPI0_CLK cfg)) ;;;
  when (negb (CONFIG_SUN50I_GEN_H6 cfg) && negb (CONFIG_SUNXI_GEN_NCAT2 cfg))
       (clrbits_le32 (CCM_AHB_GATING0 cfg) (Z.shiftl 1 AHB_GATE_OFFSET_SPI0)) ;;;
  if CONFIG_SUN50I_GEN_H6 cfg || CONFIG_SUNXI_GEN_NCAT2 cfg
  then clrbits_le32 (CCM_H6_SPI_BGR_REG cfg) (Z.lor (Z.shiftl 1 16) 0x1)
  else when (is_sun6i_gen_spi cfg)
         (clrbits_le32 (SUN6I_BUS_SOFT_RST_REG0 cfg)
                       (Z.shiftl 1 AHB_RESET_SPI0_SHIFT)).

Definition spi0_init : M unit :=
  let pin_function :=
    if CONFIG_MACH_SUN50I cfg || CONFIG_SUN50I_GEN_H6 cfg then SUN50I_GPC_SPI0
    else if CONFIG_MACH_SUNIV cfg || CONFIG_MACH_SUN8I_R528 cfg then SUNIV_GPC_SPI0
    else SUNXI_GPC_SPI0 in
  spi0_pinmux_setup pin_function ;;;
  spi0_enable_clock.

Definition spi0_deinit : M unit :=
  let pin_function :=
    if is_sun6i_gen_spi cfg then SUNXI_GPIO_DISABLE else SUNXI_GPIO_INPUT in
  spi0_disable_clock ;;;
  spi0_pinmux_setup pin_function.

(** *** Byte transfer engine *)

(** [while (rxlen-- > 0) *rxbuf++ = readb(spi_rx_reg);] *)
Fixpoint rx_loop (n : nat) (rxbuf : rxdest) (spi_rx_reg : Z) : M (list Z) :=
  match n with
  | O => ret []
  | S n' =>
      b <- readb spi_rx_reg ;;
      match rxbuf with
      | RxNull => undefined
      | RxLocal => ret tt
      | RxRam a => store a b
      end ;;;
      rest <- rx_loop n' (rx_next rxbuf) spi_rx_reg ;;
      ret (b :: rest)
  end.

Definition sunxi_spi0_xfer (txbuf : list Z) (txlen : Z)
    (rxbuf : rxdest) (rxlen : Z)
    (spi_ctl_reg spi_ctl_xch_bitmask spi_fifo_reg spi_tx_reg spi_rx_reg
     spi_bc_reg spi_tc_reg spi_bcc_reg : Z) : M (list Z) :=
  writel (u32 (txlen + rxlen)) spi_bc_reg ;;;
  writel txlen spi_tc_reg ;;;
  when (negb (spi_bcc_reg =? 0)) (writel txlen spi_bcc_reg) ;;;
  for_each (seq 0 (Z.to_nat txlen))
           (fun i => writeb (nth i txbuf 0) spi_tx_reg) ;;;
  setbits_le32 spi_ctl_reg spi_ctl_xch_bitmask ;;;
  busy_wait fuel spi_fifo_reg
            (fun v => Z.land v 0x7F <? u32 (txlen + rxlen)) ;;;
  for_each (seq 0 (Z.to_nat txlen)) (fun _ => readb spi_rx_reg ;;; ret tt) ;;;
  rx_loop (Z.to_nat rxlen) rxbuf spi_rx_reg.

Definition spi0_xfer (txbuf : list Z) (txlen : Z) (rxbuf : rxdest) (rxlen : Z)
  : M (list Z) :=
  let base := spi0_base_address cfg in
  if is_sun6i_gen_spi cfg
  then sunxi_spi0_xfer txbuf txlen rxbuf rxlen
         (base + SUN6I_SPI0_TCR) SUN6I_TCR_XCH (base + SUN6I_SPI0_FIFO_STA)
         (base + SUN6I_SPI0_TXD) (base + SUN6I_SPI0_RXD)
         (base + SUN6I_SPI0_MBC) (base + SUN6I_SPI0_MTC) (base + SUN6I_SPI0_BCC)
  else sunxi_spi0_xfer txbuf txlen rxbuf rxlen
         (base + SUN4I_SPI0_CTL) SUN4I_CTL_XCH (base + SUN4I_SPI0_FIFO_STA)
         (base + SUN4I_SPI0_TX) (base + SUN4I_SPI0_RX)
         (base + SUN4I_SPI0_BC) (base + SUN4I_SPI0_TC) 0.

(** *** Flash read abstractions *)

(** One status poll of the page-switch loop: [udelay(1); spi0_xfer(buf, 2,
    buf+2, 1)], giving the new [buf[2]]. *)
Definition nand_poll_status (buf : list Z) : M Z :=
  udelay 1 ;;;
  rx <- spi0_xfer buf 2 RxLocal 1 ;;
  ret (nth 0 rx 0).

(** [for (count = 0; count < 100; count++)], with [n] iterations left *)
Fixpoint nand_wait_ready (n : nat) (buf : list Z) : M Z :=
  match n with
  | O => ret (- ETIMEDOUT)
  | S n' =>
      b <- nand_poll_status buf ;;
      if Z.land b 0x1 =? 0 then ret 0
      else nand_wait_ready n' (upd 2 b buf)
  end.

(** What the chip answers to [n] successive polls of the page-switch loop,
    whatever it reports: the status bytes, in order.  This is not a function
    of the driver; it says what the status source does. *)
Fixpoint status_polls (n : nat) : M (list Z) :=
  match n with
  | O => ret []
  | S n' =>
      b <- nand_poll_status [0x0f; 0xc0; 0; 0] ;;
      rest <- status_polls n' ;;
      ret (b :: rest)
  end.

Definition spi0_nand_switch_page (page : Z) : M Z :=
  let buf := [0x13; u8 (Z.shiftr page 16); u8 (Z.shiftr page 8); u8 page] in
  spi0_xfer buf 4 RxNull 0 ;;;
  let buf := upd 1 0xc0 (upd 0 0x0f buf) in
  nand_wait_ready 100 buf.

Definition spi0_nand_reset : M unit :=
  let buf := [0xff] in
  spi0_xfer buf 1 RxNull 0 ;;;
  udelay 10.

(** The command header of one chunk; [txbuf] is left as it was when
    [addr_len] is neither 2 nor 3. *)
Definition read_header (txbuf : list Z) (addr addr_len : Z) : list Z :=
  let txbuf := upd 0 0x03 txbuf in
  if addr_len =? 3 then
    upd 3 (u8 addr) (upd 2 (u8 (Z.shiftr addr 8)) (upd 1 (u8 (Z.shiftr addr 16)) txbuf))
  else if addr_len =? 2 then
    upd 3 0 (upd 2 (u8 addr) (upd 1 (u8 (Z.shiftr addr 8)) txbuf))
  else txbuf.

(** [while (len > 0)], with at most [n] iterations left; every iteration
    takes at least one byte off [len], so [n = len] is never used up. *)
Fixpoint spi0_read_loop (n : nat) (txbuf : list Z) (buf8 addr len addr_len : Z)
  : M unit :=
  if len >? 0 then
    match n with
    | O => undefined
    | S n' =>
        let chunk_len := len in
        let txbuf := read_header txbuf addr addr_len in
        let chunk_len :=
          if chunk_len >? SPI_READ_MAX_SIZE then SPI_READ_MAX_SIZE else chunk_len in
        spi0_xfer txbuf 4 (RxRam buf8) chunk_len ;;;
        udelay 1 ;;;
        spi0_read_loop n' txbuf (buf8 + chunk_len) (u32 (addr + chunk_len))
                       (u32 (len - chunk_len)) addr_len
    end
  else ret tt.

(** [addr] and [len] are [u32] parameters. *)
Definition spi0_read_data (buf addr len addr_len : Z) : M unit :=
  spi0_read_loop (Z.to_nat (u32 len)) [0; 0; 0; 0] buf (u32 addr) (u32 len) addr_len.

Definition spi_load_read_nor (sector count buf : Z) : M Z :=
  spi0_read_data buf sector count 3 ;;;
  ret count.

(** [while (remain)], with at most [n] iterations left; [pagesize] is a
    [const ulong] initialised from [CONFIG_SPL_SPINAND_PAGE_SIZE]. *)
Fixpoint spi_load_read_nand_loop (n : nat) (count sector remain buf : Z) : M Z :=
  if remain =? 0 then ret count
  else
    match n with
    | O => undefined
    | S n' =>
        let pagesize := ulong cfg (CONFIG_SPL_SPINAND_PAGE_SIZE cfg) in
        let count_in_page := Z.min remain (pagesize - sector mod pagesize) in
        let current_page := sector / pagesize in
        r <- spi0_nand_switch_page (u32 current_page) ;;
        if negb (r =? 0) then ret 0
        else
          spi0_read_data buf (sector mod pagesize) count_in_page 2 ;;;
          spi_load_read_nand_loop n' count
            (ulong cfg (sector + count_in_page))
            (remain - count_in_page)
            (buf + count_in_page)
    end.

Definition spi_load_read_nand (sector count buf : Z) : M Z :=
  spi_load_read_nand_loop (Z.to_nat count) count sector count buf.

Definition spinand_init : M unit := spi0_init ;;; spi0_nand_reset.
Definition spinand_deselect : M unit := spi0_deinit.

(** The values of [int]; arithmetic on [int] that leaves them has no defined
    behaviour. *)
Definition int_range (x : Z) : bool := (- 2 ^ 31 <=? x) && (x <? 2 ^ 31).

(** [block], [offset] and [len] are [int] parameters; [block_size] stands
    for the build-time constant [CONFIG_SPL_SPINAND_BLOCK_SIZE].  The product
    and the sum are computed in [int] and converted to [ulong], as is [len]
    when it is passed on as the count. *)
Definition spinand_spl_read_block (block_size block offset len dst : Z) : M Z :=
  if int_range (block * block_size) && int_range (block * block_size + offset)
  then
    let byte_offset := ulong cfg (block * block_size + offset) in
    spi_load_read_nand byte_offset (ulong cfg len) dst ;;;
    ret 0
  else undefined.

(** *** Image dispatch *)

Variable ext : collaborators.

(** The read function of a [struct spl_load_info]: sector, count, buffer. *)
Definition read_fn := Z -> Z -> Z -> M Z.

(** Modelled from the spec: [image_get_magic] (include/image.h is not among
    the sources), the first 4 bytes of the header, most significant first. *)
Definition image_get_magic (header : Z) : M Z :=
  fun t =>
    let m := ram (ram0 ext) t in
    Ret (Z.lor (Z.shiftl (u8 (m header)) 24)
        (Z.lor (Z.shiftl (u8 (m (header + 1))) 16)
        (Z.lor (Z.shiftl (u8 (m (header + 2))) 8)
               (u8 (m (header + 3)))))) t.

(** Running the structured-image loader against a read function, whose
    sector and count parameters are [ulong]. *)
Fixpoint run_ext (load : read_fn) (p : ext_prog) : M Z :=
  match p with
  | ExtRet status => ret status
  | ExtRead sector count buf k =>
      fun t => match load (ulong cfg sector) (ulong cfg count) buf t with
               | Ret n t' => run_ext load (k n (ram (ram0 ext) t')) t'
               | Hang => Hang
               | Undef => Undef
               end
  end.

Definition spl_spi_try_load (bootdev : boot_device) (load : read_fn)
    (offset : Z) (allow_raw : bool) : M Z :=
  let header := CONFIG_TEXT_BASE cfg in
  n <- load offset 0x40 header ;;
  if n =? 0 then ret (- EINVAL)
  else
    magic <- image_get_magic header ;;
    if CONFIG_SPL_LOAD_FIT cfg && (magic =? FDT_MAGIC ext) then
      fun t => run_ext load (spl_load_simple_fit ext (ram (ram0 ext) t) offset header) t
    else if negb allow_raw && negb (magic =? IH_MAGIC ext) then ret (- EINVAL)
    else
      fun t =>
        let (r, spl_image) := spl_parse_image_header ext bootdev (ram (ram0 ext) t) header in
        if negb (r =? 0) then Ret r t
        else
          (n <- load offset (ulong cfg (size spl_image)) (load_addr spl_image) ;;
           if n =? 0 then ret (- EINVAL) else ret r) t.

(** The read function and [allow_raw] chosen by the [switch]; no case
    matches another device (or SPI NAND when its support is not built in)
    and [load] stays uninitialised. *)
Definition select_load (bootdev : boot_device)
  : M (option read_fn * bool) :=
  match bootdev with
  | BOOT_DEVICE_SPINAND =>
      if CONFIG_SPL_SPINAND_SUPPORT cfg
      then spi0_nand_reset ;;; ret (Some spi_load_read_nand, false)
      else ret (None, false)
  | BOOT_DEVICE_SPI => ret (Some spi_load_read_nor, true)
  | BOOT_DEVICE_OTHER => ret (None, false)
  end.

Definition spl_spi_load_image (bootdev : boot_device) : M Z :=
  let load_offset := u32 (sunxi_get_spl_size ext) in
  let load_offset := Z.max load_offset (u32 (CONFIG_SYS_SPI_U_BOOT_OFFS cfg)) in
  spi0_init ;;;
  sel <- select_load bootdev ;;
  match sel with
  | (Some load, allow_raw) =>
      r <- spl_spi_try_load bootdev load load_offset allow_raw ;;
      spi0_deinit ;;;
      ret r
  | (None, _) => undefined
  end.

End Driver.

(** ** Observing a trace *)

(** The registers of the byte transfer engine for the configured
    generation of the controller. *)
Definition spi_ctl_reg (cfg : config) : Z :=
  spi0_base_address cfg +
  (if is_sun6i_gen_spi cfg then SUN6I_SPI0_TCR else SUN4I_SPI0_CTL).
Definition spi_ctl_xch_bitmask (cfg : config) : Z :=
  if is_sun6i_gen_spi cfg then SUN6I_TCR_XCH else SUN4I_CTL_XCH.
Definition spi_fifo_reg (cfg : config) : Z :=
  spi0_base_address cfg +
  (if is_sun6i_gen_spi cfg then SUN6I_SPI0_FIFO_STA else SUN4I_SPI0_FIFO_STA).
Definition spi_tx_reg (cfg : config) : Z :=
  spi0_base_address cfg +
  (if is_sun6i_gen_spi cfg then SUN6I_SPI0_TXD else SUN4I_SPI0_TX).
Definition spi_rx_reg (cfg : config) : Z :=
  spi0_base_address cfg +
  (if is_sun6i_gen_spi cfg then SUN6I_SPI0_RXD else SUN4I_SPI0_RX).
Definition spi_bc_reg (cfg : config) : Z :=
  spi0_base_address cfg +
  (if is_sun6i_gen_spi cfg then SUN6I_SPI0_MBC else SUN4I_SPI0_BC).
Definition spi_tc_reg (cfg : config) : Z :=
  spi0_base_address cfg +
  (if is_sun6i_gen_spi cfg then SUN6I_SPI0_MTC else SUN4I_SPI0_TC).

(** The events of one transfer, in program order: [polls] are the values read
    from the FIFO status register, [echo] the bytes read and dropped, [data]
    the bytes received. *)
Fixpoint rx_events (cfg : config) (rxbuf : rxdest) (data : list Z) : trace :=
  match data with
  | [] => []
  | b :: data' =>
      EvReadb (spi_rx_reg cfg) b ::
      match rxbuf with
      | RxRam a => [EvStore a b]
      | _ => []
      end ++ rx_events cfg (rx_next rxbuf) data'
  end.

Definition xfer_events (cfg : config) (txbuf : list Z) (txlen : Z)
    (rxbuf : rxdest) (rxlen : Z) (polls echo data : list Z) : trace :=
  [EvWritel (u32 (txlen + rxlen)) (spi_bc_reg cfg);
   EvWritel txlen (spi_tc_reg cfg)] ++
  (if is_sun6i_gen_spi cfg
   then [EvWritel txlen (spi0_base_address cfg + SUN6I_SPI0_BCC)] else []) ++
  map (fun i => EvWriteb (nth i txbuf 0) (spi_tx_reg cfg)) (seq 0 (Z.to_nat txlen)) ++
  [EvSetbits (spi_ctl_reg cfg) (spi_ctl_xch_bitmask cfg)] ++
  map (EvReadl (spi_fifo_reg cfg)) polls ++
  map (EvReadb (spi_rx_reg cfg)) echo ++
  rx_events cfg rxbuf data.

(** The polls of a busy-wait that ended: all but the last found the
    condition still busy. *)
Definition polls_until (busy : Z -> bool) (polls : list Z) : Prop :=
  exists (waiting : list Z) (final : Z),
    polls = waiting ++ [final] /\
    Forall (fun v => busy v = true) waiting /\ busy final = false.

(** A bus frame: the bytes clocked out and the number of bytes clocked in
    after them. *)
Record frame := {
  f_tx : list Z;
  f_rxlen : Z
}.

(** State of the bus analyser between two start-transfer events: the last
    burst counter programmed and the bytes put into the TX FIFO since. *)
Record analyser := {
  d_total : Z;
  d_tx : list Z
}.

Definition frame_step (cfg : config) (st : analyser) (e : event)
  : analyser * list frame :=
  match e with
  | EvWritel v a =>
      if a =? spi_bc_reg cfg then ({| d_total := v; d_tx := [] |}, [])
      else (st, [])
  | EvWriteb v a =>
      if a =? spi_tx_reg cfg
      then ({| d_total := d_total st; d_tx := d_tx st ++ [v] |}, [])
      else (st, [])
  | EvSetbits a m =>
      if (a =? spi_ctl_reg cfg) && (m =? spi_ctl_xch_bitmask cfg)
      then (st, [{| f_tx := d_tx st;
                    f_rxlen := d_total st - Z.of_nat (length (d_tx st)) |}])
      else (st, [])
  | _ => (st, [])
  end.

Fixpoint frames_from (cfg : config) (st : analyser) (evs : trace) : list frame :=
  match evs with
  | [] => []
  | e :: evs' =>
      let (st', out) := frame_step cfg st e in
      out ++ frames_from cfg st' evs'
  end.

(** The bus frames started by a run of events. *)
Definition frames (cfg : config) (evs : trace) : list frame :=
  frames_from cfg {| d_total := 0; d_tx := [] |} evs.

(** The RAM bytes stored by a run of events: address and value. *)
Definition stores (evs : trace) : list (Z * Z) :=
  flat_map (fun e => match e with EvStore a v => [(a, v)] | _ => [] end) evs.

(** The events that disable the controller: the first step of
    [spi0_disable_clock]. *)
Definition is_disable (cfg : config) (e : event) : bool :=
  match e with
  | EvClrbits a m =>
      (a =? spi0_base_address cfg +
            (if is_sun6i_gen_spi cfg then SUN6I_SPI0_GCR else SUN4I_SPI0_CTL)) &&
      (m =? Z.lor (BIT 1) (BIT 0))
  | _ => false
  end.

Definition is_clrbits (e : event) : bool :=
  match e with
  | EvClrbits _ _ => true
  | _ => false
  end.

(** Consecutive addresses [a, a+1, ..., a+n-1]. *)
Definition Zseq (a : Z) (n : nat) : list Z :=
  map (fun i => a + Z.of_nat i) (seq 0 n).

(** Decoding of command headers. *)
Definition opcode (f : frame) : Z := nth 0 (f_tx f) 0.
Definition be24 (f : frame) : Z :=
  nth 1 (f_tx f) 0 * 65536 + nth 2 (f_tx f) 0 * 256 + nth 3 (f_tx f) 0.
Definition be16 (f : frame) : Z :=
  nth 1 (f_tx f) 0 * 256 + nth 2 (f_tx f) 0.

(** ** Responsive hardware and the program logic *)

Section Logic.

Variable cfg : config.
Variable hw : oracle.
Variable fuel : nat.

(** The hardware is responsive when neither busy-wait of the driver runs
    out of polls: the FIFO fills to any level up to its depth of 64 bytes,
    and the soft reset completes. *)
Definition responsive : Prop :=
  (forall t reg need, need <= 64 ->
     busy_wait hw fuel reg (fun v => Z.land v 0x7F <? need) t <> Hang) /\
  (forall t reg,
     busy_wait hw fuel reg (fun v => negb (Z.land v SUN6I_CTL_SRST =? 0)) t <> Hang).

(** [wp m t Q]: from trace [t], [m] has defined behaviour, it hangs only on
    hardware that is not responsive, and when it returns [Q] holds of the
    result and the events it added. *)
Definition wp {A} (m : M A) (t : trace) (Q : A -> trace -> Prop) : Prop :=
  match m t with
  | Ret a t' => exists d, t' = t ++ d /\ Q a d
  | Hang => ~ responsive
  | Undef => False
  end.

End Logic.

(** ** Command framing and read plans, in the words of the specification *)

(** Opcode 0x03 and a 3-byte address, most significant byte first. *)
Definition nor_header (addr : Z) : list Z :=
  [0x03; (addr / 65536) mod 256; (addr / 256) mod 256; addr mod 256].

(** Opcode 0x03, a 2-byte column address, most significant byte first, and
    a zero dummy byte. *)
Definition nand_read_header (col : Z) : list Z :=
  [0x03; (col / 256) mod 256; col mod 256; 0].

(** Opcode 0x13 and a 3-byte page address, most significant byte first. *)
Definition page_switch_header (page : Z) : list Z :=
  [0x13; (page / 65536) mod 256; (page / 256) mod 256; page mod 256].

Definition page_switch_frame (page : Z) : frame :=
  {| f_tx := page_switch_header page; f_rxlen := 0 |}.

(** Opcode 0x0f with parameter 0xc0, answered by one status byte. *)
Definition status_frame : frame :=
  {| f_tx := [0x0f; 0xc0]; f_rxlen := 1 |}.

(** A read of [len] bytes at [addr] goes in chunks of at most 60 bytes:
    chunk [i] starts at [addr + 60 i]. *)
Definition chunk_count (len : Z) : nat := Z.to_nat ((len + 59) / 60).

Definition chunks (addr len : Z) : list (Z * Z) :=
  map (fun i => (addr + 60 * Z.of_nat i, Z.min 60 (len - 60 * Z.of_nat i)))
      (seq 0 (chunk_count len)).

Definition read_frames (header : Z -> list Z) (addr len : Z) : list frame :=
  map (fun c => {| f_tx := header (fst c); f_rxlen := snd c |}) (chunks addr len).

(** One page of a NAND read: the page, the offset in it and the number of
    bytes taken from it. *)
Record cycle := {
  c_page : Z;
  c_col : Z;
  c_len : Z
}.

(** The pages of a NAND read as the specification describes them: the page
    is [addr / page_size], up to [page_size - addr % page_size] bytes are
    read from it, clamped to the remaining length, and [addr] advances by
    the bytes read.  [n] bounds the number of pages. *)
Fixpoint nand_plan (n : nat) (pagesize addr len : Z) : list cycle :=
  match n with
  | O => []
  | S n' =>
      if len <=? 0 then []
      else
        let c := Z.min len (pagesize - addr mod pagesize) in
        {| c_page := addr / pagesize; c_col := addr mod pagesize; c_len := c |}
          :: nand_plan n' pagesize (addr + c) (len - c)
  end.

(** The same pages in the machine arithmetic of the loop. *)
Fixpoint nand_cycles (cfg : config) (n : nat) (sector remain : Z) : list cycle :=
  match n with
  | O => []
  | S n' =>
      if remain =? 0 then []
      else
        let pagesize := CONFIG_SPL_SPINAND_PAGE_SIZE cfg in
        let c := Z.min remain (pagesize - sector mod pagesize) in
        {| c_page := u32 (sector / pagesize);
           c_col := sector mod pagesize;
           c_len := c |}
          :: nand_cycles cfg n' (ulong cfg (sector + c)) (remain - c)
  end.

(** The frames of one page whose switch needed [k] status polls, and of a
    page whose switch timed out. *)
Definition cycle_frames (c : cycle) (k : nat) : list frame :=
  page_switch_frame (c_page c) :: repeat status_frame k ++
  read_frames nand_read_header (c_col c) (c_len c).

Definition timeout_frames (c : cycle) : list frame :=
  page_switch_frame (c_page c) :: repeat status_frame 100.

Fixpoint nand_render (plan : list cycle) (ks : list nat) : list frame :=
  match plan, ks with
  | c :: plan', k :: ks' => cycle_frames c k ++ nand_render plan' ks'
  | _, _ => []
  end.

(** The number of bytes the pages of a plan deliver. *)
Definition plan_bytes (plan : list cycle) : Z :=
  fold_right (fun c n => c_len c + n) 0 plan.

(** The bytes [data] stored at consecutive addresses from [a]. *)
Definition stored_at (a : Z) (data : list Z) : list (Z * Z) :=
  combine (Zseq a (length data)) data.

(** What a run of events shows on the bus and in RAM: it starts the frames
    [F], whatever the bus analyser saw before, it stores [S], and it
    clears no register bit. *)
Definition observed (cfg : config) (d : trace) (F : list frame)
    (S : list (Z * Z)) : Prop :=
  (forall st rest, exists st',
      frames_from cfg st (d ++ rest) = F ++ frames_from cfg st' rest) /\
  stores d = S /\
  filter is_clrbits d = [].

(** ** Postconditions *)

Definition bytes (data : list Z) : Prop := Forall (fun b => 0 <= b < 256) data.

(** The bytes a transfer clocks out: the first [txlen] bytes of [txbuf]. *)
Definition sent (txbuf : list Z) (txlen : Z) : list Z :=
  map (fun i => nth i txbuf 0) (seq 0 (Z.to_nat txlen)).

(** A transfer returns the bytes received and adds the events of one
    transfer whose polls ended when the FIFO held all the bytes. *)
Definition xfer_post (cfg : config) (txbuf : list Z) (txlen : Z) (rxbuf : rxdest) (rxlen : Z)
    (rx : list Z) (d : trace) : Prop :=
  exists polls echo,
    d = xfer_events cfg txbuf txlen rxbuf rxlen polls echo rx /\
    polls_until (fun v => Z.land v 0x7F <? u32 (txlen + rxlen)) polls /\
    length echo = Z.to_nat txlen /\
    length rx = Z.to_nat rxlen /\
    Forall (fun b => 0 <= b < 256) rx.

(** A header that does not depend on the wrap-around of the 32-bit
    address. *)
Definition wrap_free (header : Z -> list Z) : Prop :=
  forall a k, header (u32 a + k) = header (a + k).

(** A data read of [len] bytes from [addr] into [buf8]. *)
Definition read_post (cfg : config) (header : Z -> list Z) (buf8 addr len : Z)
    (_ : unit) (d : trace) : Prop :=
  exists data,
    length data = Z.to_nat len /\ bytes data /\
    observed cfg d (read_frames header addr len) (stored_at buf8 data).

(** A page switch: the page-read command and [k] status polls; it fails
    only after 100 of them. *)
Definition switch_post (cfg : config) (page : Z) (r : Z) (d : trace) : Prop :=
  exists k,
    (1 <= k <= 100)%nat /\
    observed cfg d (page_switch_frame page :: repeat status_frame k) [] /\
    (r = 0 \/ r = - ETIMEDOUT /\ k = 100%nat).

(** A NAND read over the pages [plan]: [ks] are the numbers of status polls
    of the pages whose switch succeeded.  When they are all of [plan] the
    read returns [count]; otherwise the switch to the next page timed out
    and the read returns 0.  [data] are the bytes stored until then. *)
Definition nand_post (cfg : config) (plan : list cycle) (count buf : Z)
    (r : Z) (d : trace) : Prop :=
  exists ks data,
    Forall (fun k => (1 <= k <= 100)%nat) ks /\
    bytes data /\
    (length ks <= length plan)%nat /\
    Z.of_nat (length data) = plan_bytes (firstn (length ks) plan) /\
    observed cfg d
      (nand_render plan ks ++
       if (length ks <? length plan)%nat
       then timeout_frames (nth (length ks) plan {| c_page := 0; c_col := 0; c_len := 0 |})
       else [])
      (stored_at buf data) /\
    r = if (length ks <? length plan)%nat then 0 else count.

(** A run of events that clears no register bit. *)
Definition quiet (d : trace) : Prop := filter is_clrbits d = [].

(** A read function that returns on responsive hardware and clears no
    register bit, for every [ulong] count. *)
Definition quiet_read (cfg : config) (hw : oracle) (fuel : nat)
    (load : Z -> Z -> Z -> M Z) : Prop :=
  forall sector count buf t,
    0 <= count < 2 ^ BITS_PER_LONG cfg ->
    wp hw fuel (load sector count buf) t (fun _ d => quiet d).

(** A program that only adds the events [d]. *)
Definition emits (m : M unit) (d : trace) : Prop :=
  forall t, m t = Ret tt (t ++ d).

(** The events of [spi0_pinmux_setup]. *)
Definition pinmux_events (cfg : config) (f : pin_function) : trace :=
  (if negb (CONFIG_MACH_SUN8I_R528 cfg) then [EvCfgpin 0 f] else []) ++
  [EvCfgpin 2 f] ++
  (if negb (CONFIG_SUN50I_GEN_H6 cfg) && negb (CONFIG_MACH_SUN8I_R528 cfg)
   then [EvCfgpin 1 f] else []) ++
  (if CONFIG_MACH_SUN50I_H6 cfg || CONFIG_MACH_SUN8I_R528 cfg
   then [EvCfgpin 5 f] else []) ++
  (if CONFIG_MACH_SUN50I_H616 cfg || CONFIG_MACH_SUN8I_R528 cfg
   then [EvCfgpin 4 f] else []) ++
  (if CONFIG_MACH_SUN4I cfg || CONFIG_MACH_SUN7I cfg || CONFIG_MACH_SUN8I_R40 cfg
   then [EvCfgpin 23 f] else [EvCfgpin 3 f]).

(** The controller-disable sequence: the enable and master bits are
    cleared, then the clock, the gate and the reset, then the pins are
    released. *)
Definition deinit_events (cfg : config) : trace :=
  [EvClrbits (spi0_base_address cfg +
              (if is_sun6i_gen_spi cfg then SUN6I_SPI0_GCR else SUN4I_SPI0_CTL))
             (Z.lor (BIT 1) (BIT 0))] ++
  (if negb (CONFIG_MACH_SUNIV cfg) then [EvWritel 0 (CCM_SPI0_CLK cfg)] else []) ++
  (if negb (CONFIG_SUN50I_GEN_H6 cfg) && negb (CONFIG_SUNXI_GEN_NCAT2 cfg)
   then [EvClrbits (CCM_AHB_GATING0 cfg) (Z.shiftl 1 AHB_GATE_OFFSET_SPI0)]
   else []) ++
  (if CONFIG_SUN50I_GEN_H6 cfg || CONFIG_SUNXI_GEN_NCAT2 cfg
   then [EvClrbits (CCM_H6_SPI_BGR_REG cfg) (Z.lor (Z.shiftl 1 16) 0x1)]
   else if is_sun6i_gen_spi cfg
        then [EvClrbits (SUN6I_BUS_SOFT_RST_REG0 cfg)
                        (Z.shiftl 1 AHB_RESET_SPI0_SHIFT)]
        else []) ++
  pinmux_events cfg
    (if is_sun6i_gen_spi cfg then SUNXI_GPIO_DISABLE else SUNXI_GPIO_INPUT).

(** The boot sources the loader is registered for. *)
Definition supported (cfg : config) (bootdev : boot_device) : Prop :=
  match bootdev with
  | BOOT_DEVICE_SPI => True
  | BOOT_DEVICE_SPINAND =>
      CONFIG_SPL_SPINAND_SUPPORT cfg = true /\
      0 < CONFIG_SPL_SPINAND_PAGE_SIZE cfg < 2 ^ 32
  | BOOT_DEVICE_OTHER => False
  end.

(** A data read that does not go beyond the end of the page: the column
    address in its header plus its length is at most the page size. *)
Definition in_page (cfg : config) (f : frame) : Prop :=
  opcode f = 0x03 -> be16 f + f_rxlen f <= CONFIG_SPL_SPINAND_PAGE_SIZE cfg.

(** The trace a run ends with; the trace is empty when the run does not
    return. *)
Definition trace_of {A} (o : outcome A) : trace :=
  match o with
  | Ret _ t => t
  | _ => []
  end.

(** ** Boards and test hardware *)

(** An H3 board: sun6i generation of the controller, 32-bit, SPI NAND with
    2048-byte pages. *)
Definition h3_config : config := {|
  CONFIG_MACH_SUN4I := false;
  CONFIG_MACH_SUN7I := false;
  CONFIG_MACH_SUN8I_R40 := false;
  CONFIG_MACH_SUN8I_R528 := false;
  CONFIG_MACH_SUN8I_V3S := false;
  CONFIG_MACH_SUN50I := false;
  CONFIG_MACH_SUN50I_H6 := false;
  CONFIG_MACH_SUN50I_H616 := false;
  CONFIG_MACH_SUNIV := false;
  CONFIG_SUNXI_GEN_SUN6I := true;
  CONFIG_SUN50I_GEN_H6 := false;
  CONFIG_SUNXI_GEN_NCAT2 := false;
  CONFIG_SPL_LOAD_FIT := true;
  CONFIG_SPL_SPINAND_SUPPORT := true;
  CONFIG_ARM64 := false;
  CONFIG_SPL_SPINAND_PAGE_SIZE := 2048;
  CONFIG_SYS_SPI_U_BOOT_OFFS := 0x8000;
  CONFIG_TEXT_BASE := 0x4a000000
|}.

(** An A10 board: sun4i generation of the controller. *)
Definition a10_config : config := {|
  CONFIG_MACH_SUN4I := true;
  CONFIG_MACH_SUN7I := false;
  CONFIG_MACH_SUN8I_R40 := false;
  CONFIG_MACH_SUN8I_R528 := false;
  CONFIG_MACH_SUN8I_V3S := false;
  CONFIG_MACH_SUN50I := false;
  CONFIG_MACH_SUN50I_H6 := false;
  CONFIG_MACH_SUN50I_H616 := false;
  CONFIG_MACH_SUNIV := false;
  CONFIG_SUNXI_GEN_SUN6I := false;
  CONFIG_SUN50I_GEN_H6 := false;
  CONFIG_SUNXI_GEN_NCAT2 := false;
  CONFIG_SPL_LOAD_FIT := false;
  CONFIG_SPL_SPINAND_SUPPORT := false;
  CONFIG_ARM64 := false;
  CONFIG_SPL_SPINAND_PAGE_SIZE := 2048;
  CONFIG_SYS_SPI_U_BOOT_OFFS := 0x8000;
  CONFIG_TEXT_BASE := 0x4a000000
|}.

(** Hardware on which every register reads 0x40: the FIFO holds 64 bytes,
    the soft reset is over, the NAND status is ready and every data byte is
    0x40. *)
Definition ready_hw : oracle := fun _ _ => 0x40.

(** Hardware on which every register reads 0x41: as [ready_hw], but the
    NAND status is busy for ever and every data byte is 0x41. *)
Definition busy_hw : oracle := fun _ _ => 0x41.

(** The number of times the byte [op] was put into the TX FIFO. *)
Definition count_sent (op : Z) (t : trace) : nat :=
  length (filter (fun e => match e with
                           | EvWriteb v _ => v =? op
                           | _ => false
                           end) t).

(** A NAND chip that reports busy on its first [n] status polls and ready
    afterwards. *)
Definition busy_polls_hw (n : nat) : oracle :=
  fun t _ => if (count_sent 0x0f t <=? n)%nat then 0x41 else 0x40.

(** A NAND chip that loads its first page at once and never finishes
    loading a second one. *)
Definition second_page_stuck_hw : oracle :=
  fun t _ => if (2 <=? count_sent 0x13 t)%nat then 0x41 else 0x40.

(** The number of bytes taken out of the RX FIFO since the transfer in
    progress was started. *)
Definition drained (t : trace) : nat :=
  fold_left (fun k e => match e with
                        | EvReadb _ _ => S k
                        | EvStore _ _ => k
                        | _ => O
                        end) t O.

(** A NAND chip that is always ready and whose pages all start with the
    magic number of a legacy image, 27 05 19 56, followed by zeros, behind
    the controller of [h3_config]. *)
Definition legacy_nand_hw : oracle :=
  fun t reg =>
    if reg =? spi_rx_reg h3_config then
      let f := last (frames h3_config t) status_frame in
      if opcode f =? 0x03
      then nth (Z.to_nat (be16 f) + (drained t - 4)) [0x27; 0x05; 0x19; 0x56] 0
      else 0x40
    else 0x40.

(** Collaborators for tests: the loader occupies 0x6000 bytes of flash; the
    header parser accepts a header that starts with the legacy magic number,
    for a payload of 64 bytes loaded at 0x42000000, and rejects any other
    header; the structured-image loader returns at once. *)
Definition test_ext : collaborators := {|
  sunxi_get_spl_size := 0x6000;
  spl_parse_image_header := fun _ m header =>
    if (m header =? 0x27) && (m (header + 1) =? 0x05) &&
       (m (header + 2) =? 0x19) && (m (header + 3) =? 0x56)
    then (0, {| size := 64; load_addr := 0x42000000 |})
    else (-1, {| size := 0; load_addr := 0 |});
  spl_load_simple_fit := fun _ _ _ => ExtRet 0;
  FDT_MAGIC := 0xd00dfeed;
  IH_MAGIC := 0x27051956;
  ram0 := fun _ => 0
|}.

(** ** Controller bring-up, pins and delays *)

(** The pins [spi0_pinmux_setup] configures, in program order. *)
Definition spi0_pins (cfg : config) : list Z :=
  (if negb (CONFIG_MACH_SUN8I_R528 cfg) then [0] else []) ++
  [2] ++
  (if negb (CONFIG_SUN50I_GEN_H6 cfg) && negb (CONFIG_MACH_SUN8I_R528 cfg)
   then [1] else []) ++
  (if CONFIG_MACH_SUN50I_H6 cfg || CONFIG_MACH_SUN8I_R528 cfg then [5] else []) ++
  (if CONFIG_MACH_SUN50I_H616 cfg || CONFIG_MACH_SUN8I_R528 cfg then [4] else []) ++
  (if CONFIG_MACH_SUN4I cfg || CONFIG_MACH_SUN7I cfg || CONFIG_MACH_SUN8I_R40 cfg
   then [23] else [3]).

(** The pins configured by a run of events. *)
Definition pins (d : trace) : list Z :=
  flat_map (fun e => match e with EvCfgpin p _ => [p] | _ => [] end) d.

(** The pin function [spi0_init] selects. *)
Definition init_pin_function (cfg : config) : pin_function :=
  if CONFIG_MACH_SUN50I cfg || CONFIG_SUN50I_GEN_H6 cfg then SUN50I_GPC_SPI0
  else if CONFIG_MACH_SUNIV cfg || CONFIG_MACH_SUN8I_R528 cfg then SUNIV_GPC_SPI0
  else SUNXI_GPC_SPI0.

(** The soft reset of the sun6i generation is still in progress. *)
Definition srst_busy (v : Z) : bool := negb (Z.land v SUN6I_CTL_SRST =? 0).

(** The events of [spi0_enable_clock]: the reset is released, the gate is
    opened, the clock is set up, and the controller is enabled; [polls] are
    the values read while the soft reset of the sun6i generation was awaited. *)
Definition enable_clock_events (cfg : config) (polls : list Z) : trace :=
  (if CONFIG_SUN50I_GEN_H6 cfg || CONFIG_SUNXI_GEN_NCAT2 cfg
   then [EvSetbits (CCM_H6_SPI_BGR_REG cfg) (Z.lor (Z.shiftl 1 16) 0x1)]
   else if is_sun6i_gen_spi cfg
        then [EvSetbits (SUN6I_BUS_SOFT_RST_REG0 cfg)
                        (Z.shiftl 1 AHB_RESET_SPI0_SHIFT)]
        else []) ++
  (if negb (CONFIG_SUN50I_GEN_H6 cfg) && negb (CONFIG_SUNXI_GEN_NCAT2 cfg)
   then [EvSetbits (CCM_AHB_GATING0 cfg) (Z.shiftl 1 AHB_GATE_OFFSET_SPI0)]
   else []) ++
  (if CONFIG_MACH_SUNIV cfg
   then [EvWritel SPI0_CLK_DIV_BY_32 (spi0_base_address cfg + SUN6I_SPI0_CCTL)]
   else (if negb (CONFIG_SUNXI_GEN_NCAT2 cfg)
         then [EvWritel SPI0_CLK_DIV_BY_4
                        (spi0_base_address cfg +
                         (if is_sun6i_gen_spi cfg then SUN6I_SPI0_CCTL
                          else SUN4I_SPI0_CCTL))]
         else []) ++
        [EvWritel (Z.shiftl 1 31) (CCM_SPI0_CLK cfg)]) ++
  (if is_sun6i_gen_spi cfg
   then [EvSetbits (spi0_base_address cfg + SUN6I_SPI0_GCR)
                   (Z.lor (Z.lor SUN6I_CTL_MASTER SUN6I_CTL_ENABLE) SUN6I_CTL_SRST)] ++
        map (EvReadl (spi0_base_address cfg + SUN6I_SPI0_GCR)) polls ++
        (if CONFIG_SUNXI_GEN_NCAT2 cfg
         then [EvSetbits (spi0_base_address cfg + SUN6I_SPI0_TCR) SUN6I_TCR_SDM]
         else [])
   else [EvSetbits (spi0_base_address cfg + SUN4I_SPI0_CTL)
                   (Z.lor (Z.lor (Z.lor SUN4I_CTL_MASTER SUN4I_CTL_ENABLE)
                                 SUN4I_CTL_TF_RST) SUN4I_CTL_RF_RST)]).

(** The events of [spi0_init]. *)
Definition init_events (cfg : config) (polls : list Z) : trace :=
  pinmux_events cfg (init_pin_function cfg) ++ enable_clock_events cfg polls.

(** The polls of the soft-reset wait: none on the sun4i generation, which
    has no such wait. *)
Definition reset_polls (cfg : config) (polls : list Z) : Prop :=
  if is_sun6i_gen_spi cfg then polls_until srst_busy polls else polls = [].

(** The Device RESET command of SPI NAND. *)
Definition reset_frame : frame := {| f_tx := [0xff]; f_rxlen := 0 |}.

(** The time a run of events spends in [udelay], in microseconds. *)
Definition delay_total (d : trace) : Z :=
  fold_right (fun e n => match e with EvUdelay us => us + n | _ => n end) 0 d.


(** * Properties *)

Section Proofs.

Variable cfg : config.
Variable hw : oracle.
Variable fuel : nat.
Variable ext : collaborators.

Local Notation "'WP'" := (wp hw fuel).

(** ** Rules of the program logic *)

Lemma wp_ret {A} (a : A) t (Q : A -> trace -> Prop) :
  Q a [] -> WP (ret a) t Q.
Proof.
  intros H. unfold wp, ret. exists []. now rewrite app_nil_r.
Qed.

Lemma wp_bind {A B} (m : M A) (k : A -> M B) t (Q : B -> trace -> Prop) :
  WP m t (fun a d1 => WP (k a) (t ++ d1) (fun b d2 => Q b (d1 ++ d2))) ->
  WP (bind m k) t Q.
Proof.
  unfold wp, bind. destruct (m t) as [a t'| |]; auto.
  intros (d1 & -> & H). destruct (k a (t ++ d1)) as [b t''| |]; auto.
  destruct H as (d2 & -> & H). exists (d1 ++ d2). now rewrite app_assoc.
Qed.

Lemma wp_mono {A} (m : M A) t (Q Q' : A -> trace -> Prop) :
  WP m t Q -> (forall a d, Q a d -> Q' a d) -> WP m t Q'.
Proof.
  unfold wp. destruct (m t); auto. intros (d & -> & H) HQ. eauto.
Qed.

Lemma wp_emit e t (Q : unit -> trace -> Prop) :
  Q tt [e] -> WP (emit e) t Q.
Proof. intros H. unfold wp, emit. eauto. Qed.

Lemma wp_when b (m : M unit) t (Q : unit -> trace -> Prop) :
  (b = true -> WP m t Q) -> (b = false -> Q tt []) -> WP (when b m) t Q.
Proof. destruct b; simpl; intros H1 H2; [auto | apply wp_ret; auto]. Qed.

(** What a returning run gives, and that a run on responsive hardware
    returns. *)
Lemma wp_returns {A} (m : M A) t (Q : A -> trace -> Prop) :
  WP m t Q -> forall a t', m t = Ret a t' -> exists d, t' = t ++ d /\ Q a d.
Proof. unfold wp. intros H a t' E. now rewrite E in H. Qed.

Lemma wp_progress {A} (m : M A) t (Q : A -> trace -> Prop) :
  WP m t Q -> responsive hw fuel ->
  exists a d, m t = Ret a (t ++ d) /\ Q a d.
Proof.
  unfold wp. destruct (m t) as [a t'| |]; try tauto.
  intros (d & -> & H) _. eauto.
Qed.

(** ** Busy-waits *)

Lemma busy_wait_run reg busy n : forall t,
  busy_wait hw n reg busy t = Hang \/
  exists polls,
    busy_wait hw n reg busy t = Ret tt (t ++ map (EvReadl reg) polls) /\
    polls_until busy polls.
Proof.
  induction n as [|n IH]; intros t; simpl; [now left|].
  unfold bind, readl. destruct (busy (u32 (hw t reg))) eqn:Eb.
  - destruct (IH (t ++ [EvReadl reg (u32 (hw t reg))])) as [E | (polls & E & w & l & -> & Hw & Hl)].
    + now left.
    + right. exists (u32 (hw t reg) :: w ++ [l]). split.
      * rewrite E. simpl. now rewrite <- app_assoc.
      * exists (u32 (hw t reg) :: w), l. repeat split; auto.
  - right. exists [u32 (hw t reg)]. split; [reflexivity|].
    exists [], (u32 (hw t reg)). repeat split; auto.
Qed.

Lemma wp_wait_fifo reg need t :
  need <= 64 ->
  WP (busy_wait hw fuel reg (fun v => Z.land v 0x7F <? need)) t
     (fun _ d => exists polls,
          d = map (EvReadl reg) polls /\
          polls_until (fun v => Z.land v 0x7F <? need) polls).
Proof.
  intros Hn. unfold wp.
  destruct (busy_wait_run reg (fun v => Z.land v 0x7F <? need) fuel t)
    as [E | (polls & E & H)]; rewrite E.
  - intros [R _]. now apply (R t reg need).
  - eauto.
Qed.

Lemma wp_wait_srst reg t :
  WP (busy_wait hw fuel reg (fun v => negb (Z.land v SUN6I_CTL_SRST =? 0))) t
     (fun _ d => exists polls, d = map (EvReadl reg) polls).
Proof.
  unfold wp.
  destruct (busy_wait_run reg (fun v => negb (Z.land v SUN6I_CTL_SRST =? 0)) fuel t)
    as [E | (polls & E & H)]; rewrite E.
  - intros [_ R]. now apply (R t reg).
  - eauto.
Qed.

(** ** Loops of the transfer engine *)

Lemma for_each_emit {A} (f : A -> event) l : forall t,
  for_each l (fun a => emit (f a)) t = Ret tt (t ++ map f l).
Proof.
  induction l as [|a l IH]; intros t; simpl.
  - unfold ret. now rewrite app_nil_r.
  - unfold bind, emit at 1. rewrite IH. now rewrite <- app_assoc.
Qed.

Lemma bind_Ret {A B} (m : M A) (k : A -> M B) t a t' :
  m t = Ret a t' -> bind m k t = k a t'.
Proof. intros E. unfold bind. now rewrite E. Qed.

Lemma skip_echo_run {A} reg (l : list A) : forall t,
  exists echo,
    length echo = length l /\
    for_each l (fun _ => readb hw reg ;;; ret tt) t =
      Ret tt (t ++ map (EvReadb reg) echo).
Proof.
  induction l as [|a l IH]; intros t; simpl.
  - exists []. unfold ret. now rewrite app_nil_r.
  - destruct (IH (t ++ [EvReadb reg (u8 (hw t reg))])) as (echo & Hl & E).
    exists (u8 (hw t reg) :: echo). split; [simpl; now rewrite Hl|].
    erewrite bind_Ret by reflexivity. rewrite E. simpl. now rewrite <- app_assoc.
Qed.

Lemma rx_loop_run n : forall rxbuf t,
  (rxbuf = RxNull -> n = O) ->
  exists data,
    length data = n /\
    Forall (fun b => 0 <= b < 256) data /\
    rx_loop hw n rxbuf (spi_rx_reg cfg) t = Ret data (t ++ rx_events cfg rxbuf data).
Proof.
  induction n as [|n IH]; intros rxbuf t Hnull; simpl.
  - exists []. unfold ret. rewrite app_nil_r. auto.
  - set (b := u8 (hw t (spi_rx_reg cfg))).
    assert (Hb : 0 <= b < 256) by (apply Z.mod_pos_bound; reflexivity).
    destruct rxbuf as [| |a]; [now specialize (Hnull eq_refl) | |].
    + destruct (IH RxLocal (t ++ [EvReadb (spi_rx_reg cfg) b])) as (data & Hl & Hr & E);
        [discriminate|].
      exists (b :: data). simpl. unfold bind, readb, ret. fold b. simpl.
      unfold bind, ret in E. rewrite E, <- app_assoc. auto.
    + destruct (IH (RxRam (a + 1))
                   ((t ++ [EvReadb (spi_rx_reg cfg) b]) ++ [EvStore a b]))
        as (data & Hl & Hr & E); [discriminate|].
      exists (b :: data). simpl. unfold bind, readb, store, emit, ret. fold b. simpl.
      rewrite E, <- !app_assoc. auto.
Qed.

Lemma wp_for_each_emit {A} (f : A -> event) l t (Q : unit -> trace -> Prop) :
  Q tt (map f l) -> WP (for_each l (fun a => emit (f a))) t Q.
Proof. intros H. unfold wp. rewrite for_each_emit. eauto. Qed.

Lemma wp_skip_echo {A} reg (l : list A) t (Q : unit -> trace -> Prop) :
  (forall echo, length echo = length l -> Q tt (map (EvReadb reg) echo)) ->
  WP (for_each l (fun _ => readb hw reg ;;; ret tt)) t Q.
Proof.
  intros H. unfold wp. destruct (skip_echo_run reg l t) as (echo & Hl & ->). eauto.
Qed.

Lemma wp_rx_loop n rxbuf t (Q : list Z -> trace -> Prop) :
  (rxbuf = RxNull -> n = O) ->
  (forall data, length data = n -> Forall (fun b => 0 <= b < 256) data ->
                Q data (rx_events cfg rxbuf data)) ->
  WP (rx_loop hw n rxbuf (spi_rx_reg cfg)) t Q.
Proof.
  intros Hn H. unfold wp.
  destruct (rx_loop_run n rxbuf t Hn) as (data & Hl & Hb & ->). eauto.
Qed.

Lemma spi0_base_address_pos : 0 < spi0_base_address cfg.
Proof.
  unfold spi0_base_address.
  repeat match goal with |- context [if ?b then _ else _] => destruct b end; lia.
Qed.

(** ** The byte transfer engine *)

Lemma wp_spi0_xfer txbuf txlen rxbuf rxlen t :
  0 <= txlen -> 0 <= rxlen -> txlen + rxlen <= 64 ->
  (rxbuf = RxNull -> rxlen = 0) ->
  WP (spi0_xfer cfg hw fuel txbuf txlen rxbuf rxlen) t
     (xfer_post cfg txbuf txlen rxbuf rxlen).
Proof.
  intros Htx Hrx Hsum Hnull.
  assert (Hu : u32 (txlen + rxlen) <= 64).
  { unfold u32. rewrite Z.mod_small; lia. }
  pose proof spi0_base_address_pos as Hbase.
  unfold spi0_xfer, sunxi_spi0_xfer, writel, writeb, setbits_le32.
  assert (Erx : spi_rx_reg cfg =
                spi0_base_address cfg +
                (if is_sun6i_gen_spi cfg then SUN6I_SPI0_RXD else SUN4I_SPI0_RX))
    by reflexivity.
  unfold xfer_post, xfer_events, spi_bc_reg, spi_tc_reg, spi_tx_reg, spi_ctl_reg,
    spi_fifo_reg, spi_ctl_xch_bitmask.
  destruct (is_sun6i_gen_spi cfg) eqn:Egen; rewrite <- Erx.
  - apply wp_bind, wp_emit. apply wp_bind, wp_emit.
    apply wp_bind, wp_when; [intros _; apply wp_emit | intros E; exfalso;
      apply negb_false_iff, Z.eqb_eq in E; unfold SUN6I_SPI0_BCC in E; lia].
    apply wp_bind.
    apply (wp_for_each_emit (fun i => EvWriteb (nth i txbuf 0) _)).
    apply wp_bind, wp_emit.
    apply wp_bind. eapply wp_mono; [apply wp_wait_fifo, Hu|].
    intros _ d (polls & -> & Hp).
    apply wp_bind, wp_skip_echo. intros echo He.
    apply wp_rx_loop; [intros E; rewrite (Hnull E); reflexivity|].
    intros data Hd Hb. exists polls, echo. rewrite length_seq in He.
    repeat split; auto.
  - apply wp_bind, wp_emit. apply wp_bind, wp_emit.
    apply wp_bind, wp_when; [discriminate | intros _].
    apply wp_bind.
    apply (wp_for_each_emit (fun i => EvWriteb (nth i txbuf 0) _)).
    apply wp_bind, wp_emit.
    apply wp_bind. eapply wp_mono; [apply wp_wait_fifo, Hu|].
    intros _ d (polls & -> & Hp).
    apply wp_bind, wp_skip_echo. intros echo He.
    apply wp_rx_loop; [intros E; rewrite (Hnull E); reflexivity|].
    intros data Hd Hb. exists polls, echo. rewrite length_seq in He.
    repeat split; auto.
Qed.


(** ** What the events of a transfer show *)

Lemma frames_from_app_skip d : forall st rest,
  Forall (fun e => match e with
                   | EvWritel _ _ | EvWriteb _ _ | EvSetbits _ _ => False
                   | _ => True
                   end) d ->
  frames_from cfg st (d ++ rest) = frames_from cfg st rest.
Proof.
  induction d as [|e d IH]; intros st rest H; [reflexivity|].
  inversion H as [|? ? He Hd]; subst. simpl.
  destruct e; try contradiction; simpl; auto.
Qed.

Lemma observed_nil : observed cfg [] [] [].
Proof. repeat split. intros st rest. now exists st. Qed.

Lemma observed_app d1 d2 F1 F2 S1 S2 :
  observed cfg d1 F1 S1 -> observed cfg d2 F2 S2 ->
  observed cfg (d1 ++ d2) (F1 ++ F2) (S1 ++ S2).
Proof.
  intros (Hf1 & Hs1 & Hc1) (Hf2 & Hs2 & Hc2). repeat split.
  - intros st rest. rewrite <- app_assoc.
    destruct (Hf1 st (d2 ++ rest)) as (st1 & ->).
    destruct (Hf2 st1 rest) as (st2 & ->).
    exists st2. now rewrite app_assoc.
  - unfold stores in *. now rewrite flat_map_app, Hs1, Hs2.
  - now rewrite filter_app, Hc1, Hc2.
Qed.

Lemma observed_frames d F S : observed cfg d F S -> frames cfg d = F.
Proof.
  intros (Hf & _). unfold frames.
  destruct (Hf {| d_total := 0; d_tx := [] |} []) as (st' & H).
  rewrite app_nil_r in H. rewrite H. simpl. now rewrite app_nil_r.
Qed.

Lemma observed_udelay n : observed cfg [EvUdelay n] [] [].
Proof. repeat split. intros st rest. now exists st. Qed.

Lemma frames_from_writeb l : forall st rest,
  frames_from cfg st (map (fun b => EvWriteb b (spi_tx_reg cfg)) l ++ rest) =
  frames_from cfg {| d_total := d_total st; d_tx := d_tx st ++ l |} rest.
Proof.
  induction l as [|b l IH]; intros st rest; simpl.
  - rewrite app_nil_r. now destruct st.
  - rewrite Z.eqb_refl. simpl. rewrite IH. simpl. now rewrite <- app_assoc.
Qed.

Lemma stores_app d1 d2 : stores (d1 ++ d2) = stores d1 ++ stores d2.
Proof. unfold stores. apply flat_map_app. Qed.

Lemma stores_map_none {A} (f : A -> event) l :
  (forall a, match f a with EvStore _ _ => False | _ => True end) ->
  stores (map f l) = [].
Proof.
  intros H. induction l as [|a l IH]; [reflexivity|]. simpl.
  specialize (H a). unfold stores in IH. destruct (f a); try contradiction; auto.
Qed.

Lemma clr_map_none {A} (f : A -> event) l :
  (forall a, is_clrbits (f a) = false) -> filter is_clrbits (map f l) = [].
Proof.
  intros H. induction l as [|a l IH]; [reflexivity|]. simpl. now rewrite H.
Qed.

Lemma Zseq_S a n : Zseq a (S n) = a :: Zseq (a + 1) n.
Proof.
  unfold Zseq. simpl. rewrite Z.add_0_r. f_equal.
  rewrite <- seq_shift, map_map. apply map_ext. intros i. lia.
Qed.

Lemma stored_at_cons a b data :
  stored_at a (b :: data) = (a, b) :: stored_at (a + 1) data.
Proof. unfold stored_at. simpl length. now rewrite Zseq_S. Qed.

Lemma stored_at_app d1 : forall a d2,
  stored_at a (d1 ++ d2) = stored_at a d1 ++ stored_at (a + Z.of_nat (length d1)) d2.
Proof.
  induction d1 as [|b d1 IH]; intros a d2.
  - simpl. now rewrite Z.add_0_r.
  - cbn [app length]. rewrite !stored_at_cons, IH. cbn [app].
    f_equal. f_equal. f_equal. lia.
Qed.

Lemma map_fst_stored_at data : forall a,
  map fst (stored_at a data) = Zseq a (length data).
Proof.
  induction data as [|b data IH]; intros a; [reflexivity|].
  rewrite stored_at_cons. simpl. now rewrite IH, Zseq_S.
Qed.

Lemma rx_events_obs data : forall rxbuf,
  (forall st rest,
      frames_from cfg st (rx_events cfg rxbuf data ++ rest) = frames_from cfg st rest) /\
  stores (rx_events cfg rxbuf data) =
    match rxbuf with RxRam a => stored_at a data | _ => [] end /\
  filter is_clrbits (rx_events cfg rxbuf data) = [].
Proof.
  induction data as [|b data IH]; intros rxbuf.
  - simpl. repeat split; auto. now destruct rxbuf.
  - destruct (IH (rx_next rxbuf)) as (Hf & Hs & Hc).
    destruct rxbuf as [| |a]; simpl in *; repeat split; auto.
    rewrite stored_at_cons. unfold stores in *. simpl in Hs. now rewrite Hs.
Qed.

Ltac unfold_regs :=
  unfold spi_ctl_reg, spi_ctl_xch_bitmask, spi_fifo_reg, spi_tx_reg, spi_rx_reg,
    spi_bc_reg, spi_tc_reg,
    SUN4I_SPI0_CTL, SUN4I_SPI0_RX, SUN4I_SPI0_TX, SUN4I_SPI0_FIFO_STA,
    SUN4I_SPI0_BC, SUN4I_SPI0_TC, SUN6I_SPI0_GCR, SUN6I_SPI0_TCR,
    SUN6I_SPI0_FIFO_STA, SUN6I_SPI0_MBC, SUN6I_SPI0_MTC, SUN6I_SPI0_BCC,
    SUN6I_SPI0_TXD, SUN6I_SPI0_RXD in *.

Ltac regs_differ :=
  symmetry; apply Z.eqb_neq; unfold_regs;
  destruct (is_sun6i_gen_spi cfg); lia.

Lemma xfer_observed txbuf txlen rxbuf rxlen rx d :
  0 <= txlen -> 0 <= rxlen -> txlen + rxlen <= 64 ->
  xfer_post cfg txbuf txlen rxbuf rxlen rx d ->
  observed cfg d [{| f_tx := sent txbuf txlen; f_rxlen := rxlen |}]
           match rxbuf with RxRam a => stored_at a rx | _ => [] end.
Proof.
  intros Htx Hrx Hsum (polls & echo & -> & _ & He & Hd & _).
  destruct (rx_events_obs rx rxbuf) as (Hf & Hs & Hc).
  assert (Hu : u32 (txlen + rxlen) = txlen + rxlen)
    by (unfold u32; rewrite Z.mod_small; lia).
  unfold xfer_events. repeat split.
  - intros st rest. eexists.
    rewrite <- !app_assoc.
    change ([EvWritel (u32 (txlen + rxlen)) (spi_bc_reg cfg);
             EvWritel txlen (spi_tc_reg cfg)] ++ ?x)
      with (EvWritel (u32 (txlen + rxlen)) (spi_bc_reg cfg) ::
            EvWritel txlen (spi_tc_reg cfg) :: x).
    cbn [frames_from frame_step]. rewrite Z.eqb_refl.
    replace (spi_tc_reg cfg =? spi_bc_reg cfg) with false by regs_differ.
    cbn [app].
    assert (Hbcc : forall st0 X,
      frames_from cfg st0
        ((if is_sun6i_gen_spi cfg
          then [EvWritel txlen (spi0_base_address cfg + SUN6I_SPI0_BCC)]
          else []) ++ X) = frames_from cfg st0 X).
    { intros st0 X. unfold spi_bc_reg.
      destruct (is_sun6i_gen_spi cfg) eqn:E; [|reflexivity].
      cbn [app frames_from frame_step]. unfold spi_bc_reg. rewrite E.
      replace (_ =? _) with false
        by (symmetry; apply Z.eqb_neq; unfold_regs; lia).
      reflexivity. }
    rewrite Hbcc.
    rewrite <- (map_map (fun i => nth i txbuf 0)
                        (fun b => EvWriteb b (spi_tx_reg cfg))).
    rewrite frames_from_writeb. cbn [d_total d_tx app frames_from frame_step].
    rewrite !Z.eqb_refl. cbn [andb app].
    rewrite (frames_from_app_skip (map (EvReadl (spi_fifo_reg cfg)) polls))
      by (apply Forall_forall; intros e He'; apply in_map_iff in He';
          destruct He' as (? & <- & _); exact I).
    rewrite (frames_from_app_skip (map (EvReadb (spi_rx_reg cfg)) echo))
      by (apply Forall_forall; intros e He'; apply in_map_iff in He';
          destruct He' as (? & <- & _); exact I).
    rewrite Hf. f_equal. fold (sent txbuf txlen). f_equal.
    unfold sent. rewrite length_map, length_seq, Hu. lia.
  - rewrite !stores_app, Hs.
    rewrite !stores_map_none by (intros; exact I).
    now destruct (is_sun6i_gen_spi cfg).
  - rewrite !filter_app, Hc.
    rewrite !clr_map_none by reflexivity.
    now destruct (is_sun6i_gen_spi cfg).
Qed.


Lemma wp_xfer_obs txbuf txlen rxbuf rxlen t (Q : list Z -> trace -> Prop) :
  0 <= txlen -> 0 <= rxlen -> txlen + rxlen <= 64 ->
  (rxbuf = RxNull -> rxlen = 0) ->
  (forall rx d,
      length rx = Z.to_nat rxlen ->
      Forall (fun b => 0 <= b < 256) rx ->
      observed cfg d [{| f_tx := sent txbuf txlen; f_rxlen := rxlen |}]
               match rxbuf with RxRam a => stored_at a rx | _ => [] end ->
      Q rx d) ->
  WP (spi0_xfer cfg hw fuel txbuf txlen rxbuf rxlen) t Q.
Proof.
  intros Htx Hrx Hsum Hnull HQ.
  eapply wp_mono; [apply wp_spi0_xfer; assumption|].
  intros rx d Hpost. pose proof Hpost as (polls & echo & _ & _ & _ & Hl & Hb).
  apply HQ; auto. now apply xfer_observed.
Qed.

(** ** Command headers *)

Lemma u8_shiftr a n :
  0 <= n -> u8 (Z.shiftr a n) = (a / 2 ^ n) mod 256.
Proof. intros Hn. unfold u8. now rewrite Z.shiftr_div_pow2. Qed.

Lemma read_header_nor txbuf addr :
  length txbuf = 4%nat -> sent (read_header txbuf addr 3) 4 = nor_header addr.
Proof.
  intros H. destruct txbuf as [|b0 [|b1 [|b2 [|b3 [|]]]]]; try discriminate.
  unfold read_header, sent, nor_header. rewrite !u8_shiftr by lia.
  change (Z.to_nat 4) with 4%nat. change (3 =? 3) with true.
  cbn [upd map seq nth]. reflexivity.
Qed.

Lemma read_header_nand txbuf addr :
  length txbuf = 4%nat -> sent (read_header txbuf addr 2) 4 = nand_read_header addr.
Proof.
  intros H. destruct txbuf as [|b0 [|b1 [|b2 [|b3 [|]]]]]; try discriminate.
  unfold read_header, sent, nand_read_header. rewrite !u8_shiftr by lia.
  change (Z.to_nat 4) with 4%nat. change (2 =? 3) with false.
  change (2 =? 2) with true.
  cbn [upd map seq nth]. reflexivity.
Qed.

Lemma length_upd i v l : length (upd i v l) = length l.
Proof.
  revert i. induction l as [|x l IH]; intros [|i]; simpl; auto.
Qed.

Lemma length_read_header txbuf addr al :
  length (read_header txbuf addr al) = length txbuf.
Proof.
  unfold read_header.
  destruct (al =? 3); [|destruct (al =? 2)]; now rewrite !length_upd.
Qed.

(** A header only carries the low bytes of the address: the wrap-around of
    the 32-bit address does not show in it. *)
Lemma byte_of_wrap a k j :
  j = 1 \/ j = 256 \/ j = 65536 ->
  ((u32 a + k) / j) mod 256 = ((a + k) / j) mod 256.
Proof.
  intros Hj. unfold u32. change (2 ^ 32) with 4294967296.
  rewrite (Z.mod_eq a 4294967296) by lia.
  set (q := a / 4294967296).
  destruct Hj as [-> | [-> | ->]].
  - replace (a - 4294967296 * q + k) with ((a + k) + (- q * 4294967296) * 1) by lia.
    rewrite Z.div_add by lia.
    replace ((a + k) / 1 + - q * 4294967296)
      with ((a + k) / 1 + (- q * 16777216) * 256) by lia.
    apply Z_mod_plus_full.
  - replace (a - 4294967296 * q + k) with ((a + k) + (- q * 16777216) * 256) by lia.
    rewrite Z.div_add by lia.
    replace ((a + k) / 256 + - q * 16777216)
      with ((a + k) / 256 + (- q * 65536) * 256) by lia.
    apply Z_mod_plus_full.
  - replace (a - 4294967296 * q + k) with ((a + k) + (- q * 65536) * 65536) by lia.
    rewrite Z.div_add by lia.
    replace ((a + k) / 65536 + - q * 65536)
      with ((a + k) / 65536 + (- q * 256) * 256) by lia.
    apply Z_mod_plus_full.
Qed.

Lemma nor_header_wrap : wrap_free nor_header.
Proof.
  intros a k. unfold nor_header.
  rewrite (byte_of_wrap a k 65536), (byte_of_wrap a k 256) by auto.
  pose proof (byte_of_wrap a k 1) as H. rewrite !Z.div_1_r in H.
  now rewrite H by auto.
Qed.

Lemma nand_read_header_wrap : wrap_free nand_read_header.
Proof.
  intros a k. unfold nand_read_header.
  rewrite (byte_of_wrap a k 256) by auto.
  pose proof (byte_of_wrap a k 1) as H. rewrite !Z.div_1_r in H.
  now rewrite H by auto.
Qed.

(** ** Chunks of a data read *)

Lemma chunk_count_pos len :
  0 < len -> chunk_count len = S (Z.to_nat ((len - 1) / 60)).
Proof.
  intros H. unfold chunk_count.
  replace (len + 59) with ((len - 1) + 1 * 60) by lia.
  rewrite Z.div_add by lia.
  rewrite Z2Nat.inj_add by (try apply Z.div_pos; lia).
  rewrite Nat.add_comm. reflexivity.
Qed.

Lemma chunk_count_nonpos len : len <= 0 -> chunk_count len = O.
Proof.
  intros H. unfold chunk_count.
  destruct (Z.eq_dec len 0) as [-> | Hn]; [reflexivity|].
  assert ((len + 59) / 60 <= 0).
  { apply Z.lt_succ_r. apply Z.div_lt_upper_bound; lia. }
  lia.
Qed.

Lemma chunk_count_rest len :
  0 < len -> chunk_count (len - Z.min 60 len) = Z.to_nat ((len - 1) / 60).
Proof.
  intros H. destruct (Z.le_gt_cases len 60) as [Hle | Hgt].
  - rewrite Z.min_r by lia. rewrite Z.sub_diag.
    rewrite Z.div_small by lia. reflexivity.
  - rewrite Z.min_l by lia.
    rewrite chunk_count_pos by lia.
    replace (len - 1) with ((len - 60 - 1) + 1 * 60) by lia.
    rewrite Z.div_add by lia.
    rewrite Z2Nat.inj_add by (try apply Z.div_pos; lia).
    rewrite Nat.add_comm. reflexivity.
Qed.

Lemma read_frames_nil header addr len : len <= 0 -> read_frames header addr len = [].
Proof.
  intros H. unfold read_frames, chunks. now rewrite chunk_count_nonpos.
Qed.

Lemma read_frames_step header addr len :
  wrap_free header -> 0 < len ->
  read_frames header addr len =
  {| f_tx := header addr; f_rxlen := Z.min 60 len |} ::
  read_frames header (u32 (addr + Z.min 60 len)) (len - Z.min 60 len).
Proof.
  intros Hw Hlen. unfold read_frames, chunks.
  rewrite chunk_count_rest, chunk_count_pos by lia.
  cbn [seq map fst snd]. rewrite Z.mul_0_r, Z.add_0_r, Z.sub_0_r.
  f_equal.
  rewrite <- seq_shift, !map_map. apply map_ext_in.
  intros i Hi. apply in_seq in Hi. cbn [fst snd].
  assert (Hk : 0 < (len - 1) / 60).
  { destruct (Z.le_gt_cases ((len - 1) / 60) 0); [|assumption].
    assert (Z.to_nat ((len - 1) / 60) = O) by lia. lia. }
  assert (60 < len).
  { destruct (Z.le_gt_cases len 60); [|lia].
    rewrite Z.div_small in Hk; lia. }
  rewrite (Z.min_l 60 len) by lia. rewrite Hw. f_equal; [f_equal|]; lia.
Qed.

(** ** The data read loop *)

Lemma wp_read_loop header al :
  al = 3 /\ header = nor_header \/ al = 2 /\ header = nand_read_header ->
  forall n txbuf buf8 addr len t,
    length txbuf = 4%nat -> 0 <= len < 2 ^ 32 -> (Z.to_nat len <= n)%nat ->
    WP (spi0_read_loop cfg hw fuel n txbuf buf8 addr len al) t
       (read_post cfg header buf8 addr len).
Proof.
  intros Hal.
  assert (Hw : wrap_free header)
    by (destruct Hal as [[_ ->] | [_ ->]];
        [apply nor_header_wrap | apply nand_read_header_wrap]).
  assert (Hh : forall txbuf addr, length txbuf = 4%nat ->
                 sent (read_header txbuf addr al) 4 = header addr)
    by (destruct Hal as [[-> ->] | [-> ->]]; intros;
        [apply read_header_nor | apply read_header_nand]; assumption).
  assert (Hdone : forall n txbuf buf8 addr len t, len = 0 ->
            WP (spi0_read_loop cfg hw fuel n txbuf buf8 addr len al) t
               (read_post cfg header buf8 addr len)).
  { intros n txbuf buf8 addr len t ->. destruct n; simpl;
      (apply wp_ret; exists []; split; [|split];
       [reflexivity | constructor |
        rewrite read_frames_nil by lia; apply observed_nil]). }
  induction n as [|n IH]; intros txbuf buf8 addr len t Htx Hlen Hn.
  - apply Hdone. lia.
  - destruct (Z.eq_dec len 0) as [E | Hpos]; [now apply Hdone|].
    cbn [spi0_read_loop].
    replace (len >? 0) with true by (symmetry; apply Z.gtb_lt; lia).
    unfold SPI_READ_MAX_SIZE.
    replace (if len >? 60 then 60 else len) with (Z.min 60 len)
      by (destruct (Z.gtb_spec len 60); lia).
    set (c := Z.min 60 len). assert (Hc : 0 < c <= 60) by lia.
    apply wp_bind, wp_xfer_obs; try lia; [discriminate|].
    intros rx d1 Hrx Hb Ho1. rewrite Hh in Ho1 by assumption.
    apply wp_bind, wp_emit.
    assert (Hu : u32 (len - c) = len - c)
      by (unfold u32; apply Z.mod_small; lia).
    rewrite Hu.
    eapply wp_mono;
      [apply IH; [now rewrite length_read_header | lia | lia]|].
    intros u d2 (data & Hd & Hbd & Ho2).
    exists (rx ++ data). split; [|split].
    + rewrite length_app, Hrx, Hd. lia.
    + apply Forall_app. split; assumption.
    + rewrite read_frames_step by (auto; lia). fold c.
      rewrite stored_at_app, Hrx, Z2Nat.id by lia.
      change (?x :: ?l) with ([x] ++ l).
      apply observed_app; [assumption|].
      change (read_frames header (u32 (addr + c)) (len - c))
        with ([] ++ read_frames header (u32 (addr + c)) (len - c)).
      change (stored_at (buf8 + c) data) with ([] ++ stored_at (buf8 + c) data).
      apply observed_app; [apply observed_udelay | assumption].
Qed.

Lemma wp_spi0_read_data header al buf addr len t :
  al = 3 /\ header = nor_header \/ al = 2 /\ header = nand_read_header ->
  WP (spi0_read_data cfg hw fuel buf addr len al) t
     (read_post cfg header buf (u32 addr) (u32 len)).
Proof.
  intros Hal. unfold spi0_read_data.
  apply wp_read_loop; auto.
  - apply Z.mod_pos_bound. reflexivity.
Qed.

(** ** NAND page switch *)

Lemma page_switch_sent page :
  sent [0x13; u8 (Z.shiftr page 16); u8 (Z.shiftr page 8); u8 page] 4 =
  page_switch_header page.
Proof.
  unfold sent, page_switch_header. rewrite !u8_shiftr by lia. reflexivity.
Qed.

Lemma wp_nand_poll_status b2 b3 t (Q : Z -> trace -> Prop) :
  (forall b d, 0 <= b < 256 -> observed cfg d [status_frame] [] -> Q b d) ->
  WP (nand_poll_status cfg hw fuel [0x0f; 0xc0; b2; b3]) t Q.
Proof.
  intros HQ. unfold nand_poll_status.
  apply wp_bind, wp_emit.
  apply wp_bind, wp_xfer_obs; try lia; [discriminate|].
  intros rx d Hl Hb Ho. apply wp_ret. rewrite app_nil_r.
  destruct rx as [|b [|]]; try discriminate.
  apply HQ; [now inversion Hb|].
  change [status_frame] with ([] ++ [status_frame]).
  change (@nil (Z * Z)) with (@nil (Z * Z) ++ []).
  apply observed_app; [apply observed_udelay | exact Ho].
Qed.

Lemma wp_nand_wait_ready n : forall b2 b3 t,
  WP (nand_wait_ready cfg hw fuel n [0x0f; 0xc0; b2; b3]) t
     (fun r d => exists k,
          (k <= n)%nat /\
          observed cfg d (repeat status_frame k) [] /\
          (r = 0 /\ (1 <= k)%nat \/ r = - ETIMEDOUT /\ k = n)).
Proof.
  induction n as [|n IH]; intros b2 b3 t.
  - apply wp_ret. exists O. repeat split; auto using observed_nil.
    { intros st rest. now exists st. }
  - cbn [nand_wait_ready]. apply wp_bind, wp_nand_poll_status.
    intros b d1 Hb Ho1.
    destruct (Z.land b 1 =? 0).
    + apply wp_ret. rewrite app_nil_r. exists 1%nat.
      split; [lia|]. split; [exact Ho1|]. left. split; [reflexivity | lia].
    + cbn [upd]. eapply wp_mono; [apply IH|].
      intros r d2 (k & Hk & Ho2 & Hr). exists (S k).
      split; [lia|]. split.
      * change (repeat status_frame (S k))
          with ([status_frame] ++ repeat status_frame k).
        change (@nil (Z * Z)) with (@nil (Z * Z) ++ []).
        now apply observed_app.
      * destruct Hr as [[-> Hk1] | [-> ->]]; [left | right]; split; auto; lia.
Qed.

Lemma wp_spi0_nand_switch_page page t :
  WP (spi0_nand_switch_page cfg hw fuel page) t (switch_post cfg page).
Proof.
  unfold spi0_nand_switch_page.
  apply wp_bind, wp_xfer_obs; try lia.
  intros rx d1 _ _ Ho1. rewrite page_switch_sent in Ho1.
  cbn [upd]. eapply wp_mono; [apply wp_nand_wait_ready|].
  intros r d2 (k & Hk & Ho2 & Hr).
  assert (Hk1 : (1 <= k)%nat) by (destruct Hr as [[_ H] | [_ ->]]; lia).
  exists k. split; [lia|]. split.
  - change (page_switch_frame page :: repeat status_frame k)
      with ([page_switch_frame page] ++ repeat status_frame k).
    change (@nil (Z * Z)) with (@nil (Z * Z) ++ []).
    now apply observed_app.
  - destruct Hr as [[-> _] | [-> ->]]; auto.
Qed.

(** ** The NAND read loop *)

Lemma ulong_pagesize :
  0 < CONFIG_SPL_SPINAND_PAGE_SIZE cfg < 2 ^ 32 ->
  ulong cfg (CONFIG_SPL_SPINAND_PAGE_SIZE cfg) = CONFIG_SPL_SPINAND_PAGE_SIZE cfg.
Proof.
  intros H. unfold ulong, BITS_PER_LONG. apply Z.mod_small.
  destruct (CONFIG_ARM64 cfg); lia.
Qed.

Lemma wp_nand_loop :
  0 < CONFIG_SPL_SPINAND_PAGE_SIZE cfg < 2 ^ 32 ->
  forall n count sector remain buf t,
    0 <= remain -> (Z.to_nat remain <= n)%nat ->
    WP (spi_load_read_nand_loop cfg hw fuel n count sector remain buf) t
       (nand_post cfg (nand_cycles cfg n sector remain) count buf).
Proof.
  intros Hps.
  assert (Hdone : forall n count sector remain buf t, remain = 0 ->
            WP (spi_load_read_nand_loop cfg hw fuel n count sector remain buf) t
               (nand_post cfg (nand_cycles cfg n sector remain) count buf)).
  { intros n count sector remain buf t ->.
    destruct n; cbn [spi_load_read_nand_loop nand_cycles Z.eqb];
      apply wp_ret; exists [], [];
      (split; [constructor|]); (split; [constructor|]);
      (split; [reflexivity|]); (split; [reflexivity|]);
      (split; [apply observed_nil | reflexivity]). }
  induction n as [|n IH]; intros count sector remain buf t Hr Hn.
  - apply Hdone. lia.
  - destruct (Z.eq_dec remain 0) as [E | Hpos]; [now apply Hdone|].
    cbn [spi_load_read_nand_loop nand_cycles].
    replace (remain =? 0) with false by (symmetry; apply Z.eqb_neq; lia).
    rewrite !(ulong_pagesize Hps).
    set (ps := CONFIG_SPL_SPINAND_PAGE_SIZE cfg) in *.
    pose proof (Z.mod_pos_bound sector ps ltac:(lia)) as Hmod.
    set (cip := Z.min remain (ps - sector mod ps)).
    assert (Hcip : 0 < cip <= remain /\ cip <= ps) by lia.
    set (c := {| c_page := u32 (sector / ps); c_col := sector mod ps; c_len := cip |}).
    set (plan := nand_cycles cfg n (ulong cfg (sector + cip)) (remain - cip)).
    apply wp_bind. eapply wp_mono; [apply wp_spi0_nand_switch_page|].
    intros r d1 (k & Hk & Ho1 & Hres).
    destruct Hres as [-> | [-> ->]].
    + (* the page is ready *)
      cbn [Z.eqb negb].
      apply wp_bind. eapply wp_mono;
        [apply (wp_spi0_read_data nand_read_header 2); auto|].
      intros u d2 (rx & Hrx & Hbrx & Ho2).
      assert (Hu1 : u32 (sector mod ps) = sector mod ps)
        by (unfold u32; apply Z.mod_small; lia).
      assert (Hu2 : u32 cip = cip) by (unfold u32; apply Z.mod_small; lia).
      rewrite Hu1, Hu2 in *.
      eapply wp_mono; [apply IH; lia|].
      intros r d3 (ks & data & Hks & Hbd & Hlen & Hbytes & Ho3 & Hret).
      fold plan in Hlen, Hbytes, Ho3, Hret.
      exists (k :: ks), (rx ++ data).
      split; [constructor; [lia | assumption]|].
      split; [apply Forall_app; split; assumption|].
      split; [cbn [length]; lia|].
      split; [|split].
      * cbn [length firstn plan_bytes fold_right c_len c].
        fold (plan_bytes (firstn (length ks) plan)).
        rewrite length_app, Nat2Z.inj_add, Hbytes, Hrx, Z2Nat.id; lia.
      * cbn [length nth nand_render].
        change (S (length ks) <? S (length plan))%nat
          with (length ks <? length plan)%nat.
        rewrite <- app_assoc. unfold cycle_frames at 1.
        cbn [c_page c_col c_len c].
        rewrite stored_at_app, Hrx, Z2Nat.id by lia.
        change (page_switch_frame (u32 (sector / ps)) ::
                repeat status_frame k ++
                read_frames nand_read_header (sector mod ps) cip)
          with ((page_switch_frame (u32 (sector / ps)) :: repeat status_frame k) ++
                read_frames nand_read_header (sector mod ps) cip).
        rewrite <- app_assoc.
        change (stored_at buf rx ++ stored_at (buf + cip) data)
          with ([] ++ stored_at buf rx ++ stored_at (buf + cip) data).
        apply observed_app; [exact Ho1|].
        apply observed_app; [exact Ho2 | exact Ho3].
      * cbn [length].
        change (S (length ks) <? S (length plan))%nat
          with (length ks <? length plan)%nat.
        exact Hret.
    + (* the page switch timed out *)
      change (negb (- ETIMEDOUT =? 0)) with true. cbv iota.
      apply wp_ret. rewrite app_nil_r. exists [], [].
      split; [constructor|]. split; [constructor|].
      split; [cbn [length]; lia|]. split; [reflexivity|].
      split; [|reflexivity].
      cbn [length nth nand_render Nat.ltb Nat.leb app timeout_frames c_page c].
      exact Ho1.
Qed.

(** ** Runs that clear no register bit *)

Lemma quiet_app d1 d2 : quiet d1 -> quiet d2 -> quiet (d1 ++ d2).
Proof. unfold quiet. intros H1 H2. now rewrite filter_app, H1, H2. Qed.

Lemma observed_quiet d F S : observed cfg d F S -> quiet d.
Proof. now intros (_ & _ & H). Qed.

Lemma wpq_ret {A} (a : A) t : WP (ret a) t (fun _ d => quiet d).
Proof. now apply wp_ret. Qed.

Lemma wpq_emit e t : is_clrbits e = false -> WP (emit e) t (fun _ d => quiet d).
Proof. intros H. apply wp_emit. unfold quiet. simpl. now rewrite H. Qed.

Lemma wpq_bind {A B} (m : M A) (k : A -> M B) t :
  WP m t (fun _ d => quiet d) ->
  (forall a t', WP (k a) t' (fun _ d => quiet d)) ->
  WP (bind m k) t (fun _ d => quiet d).
Proof.
  intros Hm Hk. apply wp_bind. eapply wp_mono; [exact Hm|].
  intros a d1 Hq. eapply wp_mono; [apply Hk|].
  intros b d2 Hq2. now apply quiet_app.
Qed.

Lemma wpq_if {A} (b : bool) (m1 m2 : M A) t (Q : A -> trace -> Prop) :
  WP m1 t Q -> WP m2 t Q -> WP (if b then m1 else m2) t Q.
Proof. now destruct b. Qed.

Lemma wpq_when b (m : M unit) t :
  WP m t (fun _ d => quiet d) -> WP (when b m) t (fun _ d => quiet d).
Proof. intros H. apply wp_when; [auto | reflexivity]. Qed.

Lemma wpq_wait_srst reg t :
  WP (busy_wait hw fuel reg (fun v => negb (Z.land v SUN6I_CTL_SRST =? 0))) t
     (fun _ d => quiet d).
Proof.
  eapply wp_mono; [apply wp_wait_srst|].
  intros _ d (polls & ->). apply clr_map_none. reflexivity.
Qed.

Lemma wpq_xfer txbuf txlen rxbuf rxlen t :
  0 <= txlen -> 0 <= rxlen -> txlen + rxlen <= 64 ->
  (rxbuf = RxNull -> rxlen = 0) ->
  WP (spi0_xfer cfg hw fuel txbuf txlen rxbuf rxlen) t (fun _ d => quiet d).
Proof.
  intros. apply wp_xfer_obs; auto. intros rx d _ _ Ho.
  eapply observed_quiet, Ho.
Qed.

Ltac quiet_steps :=
  repeat first
    [ apply wpq_ret
    | apply wpq_emit; reflexivity
    | apply wpq_wait_srst
    | apply wpq_when
    | apply wpq_if
    | apply wpq_bind; [|intros ? ?] ].

Lemma wpq_spi0_init t : WP (spi0_init cfg hw fuel) t (fun _ d => quiet d).
Proof.
  unfold spi0_init, spi0_pinmux_setup, spi0_enable_clock,
    sunxi_gpio_set_cfgpin, setbits_le32, writel.
  quiet_steps.
Qed.

Lemma wpq_spi0_nand_reset t :
  WP (spi0_nand_reset cfg hw fuel) t (fun _ d => quiet d).
Proof.
  unfold spi0_nand_reset, udelay.
  apply wpq_bind; [apply wpq_xfer; try lia | intros; apply wpq_emit; reflexivity].
Qed.

(** ** The read functions *)

Lemma wp_spi_load_read_nor sector count buf t :
  WP (spi_load_read_nor cfg hw fuel sector count buf) t
     (fun r d => r = count /\
                 read_post cfg nor_header buf (u32 sector) (u32 count) tt d).
Proof.
  unfold spi_load_read_nor. apply wp_bind.
  eapply wp_mono; [apply (wp_spi0_read_data nor_header 3); auto|].
  intros [] d H. apply wp_ret. rewrite app_nil_r. auto.
Qed.

Lemma wp_spi_load_read_nand sector count buf t :
  0 < CONFIG_SPL_SPINAND_PAGE_SIZE cfg < 2 ^ 32 -> 0 <= count ->
  WP (spi_load_read_nand cfg hw fuel sector count buf) t
     (nand_post cfg (nand_cycles cfg (Z.to_nat count) sector count) count buf).
Proof.
  intros Hps Hc. unfold spi_load_read_nand. apply wp_nand_loop; auto.
Qed.

Lemma quiet_read_nor : quiet_read cfg hw fuel (spi_load_read_nor cfg hw fuel).
Proof.
  intros sector count buf t _.
  eapply wp_mono; [apply wp_spi_load_read_nor|].
  intros r d (_ & data & _ & _ & Ho). eapply observed_quiet, Ho.
Qed.

Lemma quiet_read_nand :
  0 < CONFIG_SPL_SPINAND_PAGE_SIZE cfg < 2 ^ 32 ->
  quiet_read cfg hw fuel (spi_load_read_nand cfg hw fuel).
Proof.
  intros Hps sector count buf t Hc.
  eapply wp_mono; [apply wp_spi_load_read_nand; [assumption | lia]|].
  intros r d (ks & data & _ & _ & _ & _ & Ho & _). eapply observed_quiet, Ho.
Qed.

(** ** Controller teardown *)

Lemma emits_emit e : emits (emit e) [e].
Proof. intros t. reflexivity. Qed.

Lemma emits_bind m1 m2 d1 d2 :
  emits m1 d1 -> emits m2 d2 -> emits (m1 ;;; m2) (d1 ++ d2).
Proof.
  intros H1 H2 t. unfold bind. rewrite H1, H2. now rewrite app_assoc.
Qed.

Lemma emits_when b m d : emits m d -> emits (when b m) (if b then d else []).
Proof.
  intros H t. destruct b; simpl; [apply H|]. unfold ret. now rewrite app_nil_r.
Qed.

Lemma emits_if (b : bool) m1 m2 d1 d2 :
  emits m1 d1 -> emits m2 d2 -> emits (if b then m1 else m2) (if b then d1 else d2).
Proof. now destruct b. Qed.

Lemma spi0_pinmux_setup_emits f :
  emits (spi0_pinmux_setup cfg f) (pinmux_events cfg f).
Proof.
  unfold spi0_pinmux_setup, pinmux_events, sunxi_gpio_set_cfgpin.
  repeat first [ apply emits_bind | apply emits_when | apply emits_if
               | apply emits_emit ].
Qed.

Lemma spi0_deinit_emits : emits (spi0_deinit cfg) (deinit_events cfg).
Proof.
  unfold spi0_deinit, deinit_events, spi0_disable_clock, clrbits_le32, writel.
  rewrite !app_assoc. apply emits_bind; [|apply spi0_pinmux_setup_emits].
  rewrite <- !app_assoc. repeat apply emits_bind.
  - destruct (is_sun6i_gen_spi cfg); apply emits_emit.
  - apply emits_when, emits_emit.
  - apply emits_when, emits_emit.
  - apply emits_if; [|apply emits_when]; apply emits_emit.
Qed.

Lemma filter_disable_pinmux f : filter (is_disable cfg) (pinmux_events cfg f) = [].
Proof.
  unfold pinmux_events. rewrite !filter_app.
  repeat match goal with |- context [if ?b then _ else _] => destruct b end;
    reflexivity.
Qed.

Lemma deinit_disables_once :
  length (filter (is_disable cfg) (deinit_events cfg)) = 1%nat.
Proof.
  unfold deinit_events. rewrite !filter_app, filter_disable_pinmux.
  cbn [filter is_disable]. rewrite !Z.eqb_refl. cbn [andb].
  repeat match goal with
         | |- context [filter _ (if ?b then _ else _)] => destruct b
         end; cbn [filter is_disable]; rewrite ?andb_false_r; reflexivity.
Qed.

Lemma disable_is_clrbits d : quiet d -> filter (is_disable cfg) d = [].
Proof.
  unfold quiet. induction d as [|e d IH]; [reflexivity|].
  simpl. destruct e; simpl; auto; discriminate.
Qed.

(** ** The image dispatch *)

Lemma ulong_range x : 0 <= ulong cfg x < 2 ^ BITS_PER_LONG cfg.
Proof.
  unfold ulong, BITS_PER_LONG. apply Z.mod_pos_bound.
  destruct (CONFIG_ARM64 cfg); reflexivity.
Qed.

Lemma wpq_run_ext load :
  quiet_read cfg hw fuel load ->
  forall p t, WP (run_ext cfg ext load p) t (fun _ d => quiet d).
Proof.
  intros Hq. induction p as [status | sector count buf k IH]; intros t.
  - apply wpq_ret.
  - apply (wpq_bind (load (ulong cfg sector) (ulong cfg count) buf)
                    (fun n t' => run_ext cfg ext load (k n (ram (ram0 ext) t')) t')).
    + apply Hq, ulong_range.
    + intros n t'. apply IH.
Qed.

Lemma wpq_try_load bootdev load offset allow_raw t :
  quiet_read cfg hw fuel load ->
  WP (spl_spi_try_load cfg ext bootdev load offset allow_raw) t
     (fun _ d => quiet d).
Proof.
  intros Hq. unfold spl_spi_try_load.
  apply wpq_bind.
  { apply Hq. unfold BITS_PER_LONG. destruct (CONFIG_ARM64 cfg); lia. }
  intros n t1. apply wpq_if; [apply wpq_ret|].
  apply wpq_bind; [unfold image_get_magic; now apply wp_ret|].
  intros magic t2. apply wpq_if; [|apply wpq_if].
  - apply (wpq_run_ext load Hq).
  - apply wpq_ret.
  - unfold wp at 1. cbv beta.
    destruct (spl_parse_image_header ext bootdev (ram (ram0 ext) t2)
                (CONFIG_TEXT_BASE cfg)) as [r spl_image].
    destruct (negb (r =? 0)).
    + exists []. now rewrite app_nil_r.
    + apply wpq_bind; [apply Hq, ulong_range|].
      intros n' t3. apply wpq_if; apply wpq_ret.
Qed.

(** ** Claims *)

(** C4: the byte transfer engine programs the burst counter to
    [txlen + rxlen], then the transfer counter to [txlen], then, on the sun6i
    generation only, the secondary counter to [txlen]; it writes the [txlen]
    transmit bytes to the TX data register, sets the start-transfer bit,
    polls the low 7 bits of the FIFO status register until they reach
    [txlen + rxlen], reads and drops exactly [txlen] echoed bytes and then
    reads exactly [rxlen] bytes into the receive buffer.  On responsive
    hardware it returns. *)
Theorem xfer_step_order txbuf txlen rxbuf rxlen t :
  0 <= txlen -> 0 <= rxlen -> txlen + rxlen <= 64 ->
  (rxbuf = RxNull -> rxlen = 0) ->
  (responsive hw fuel ->
   exists rx t', spi0_xfer cfg hw fuel txbuf txlen rxbuf rxlen t = Ret rx t') /\
  (forall rx t',
      spi0_xfer cfg hw fuel txbuf txlen rxbuf rxlen t = Ret rx t' ->
      exists polls echo,
        t' = t ++
             [EvWritel (txlen + rxlen) (spi_bc_reg cfg);
              EvWritel txlen (spi_tc_reg cfg)] ++
             (if is_sun6i_gen_spi cfg
              then [EvWritel txlen (spi0_base_address cfg + SUN6I_SPI0_BCC)]
              else []) ++
             map (fun i => EvWriteb (nth i txbuf 0) (spi_tx_reg cfg))
                 (seq 0 (Z.to_nat txlen)) ++
             [EvSetbits (spi_ctl_reg cfg) (spi_ctl_xch_bitmask cfg)] ++
             map (EvReadl (spi_fifo_reg cfg)) polls ++
             map (EvReadb (spi_rx_reg cfg)) echo ++
             rx_events cfg rxbuf rx /\
        polls_until (fun v => Z.land v 0x7F <? txlen + rxlen) polls /\
        length echo = Z.to_nat txlen /\
        length rx = Z.to_nat rxlen).
Proof.
  intros Htx Hrx Hsum Hnull.
  pose proof (wp_spi0_xfer txbuf txlen rxbuf rxlen t Htx Hrx Hsum Hnull) as H.
  assert (Hu : u32 (txlen + rxlen) = txlen + rxlen)
    by (unfold u32; apply Z.mod_small; lia).
  split.
  - intros R. destruct (wp_progress _ _ _ H R) as (rx & d & E & _). eauto.
  - intros rx t' E.
    destruct (wp_returns _ _ _ H rx t' E)
      as (d & -> & polls & echo & -> & Hp & He & Hl & _).
    exists polls, echo. unfold xfer_events. rewrite Hu in *. auto.
Qed.

Lemma read_frames_u32 header addr len :
  wrap_free header ->
  read_frames header (u32 addr) len = read_frames header addr len.
Proof.
  intros Hw. unfold read_frames, chunks. rewrite !map_map.
  apply map_ext. intros i. cbn [fst snd]. now rewrite Hw.
Qed.

Lemma chunk_count_lt i len :
  (i < chunk_count len)%nat -> 60 * Z.of_nat i < len.
Proof.
  unfold chunk_count. intros H.
  assert (Hq : Z.of_nat i + 1 <= (len + 59) / 60) by lia.
  pose proof (Z.mul_div_le (len + 59) 60 ltac:(lia)). lia.
Qed.

Lemma nth_map_seq {A} (f : nat -> A) n i d :
  (i < n)%nat -> nth i (map f (seq 0 n)) d = f i.
Proof.
  intros H.
  rewrite (nth_indep _ d (f O)) by (now rewrite length_map, length_seq).
  rewrite (map_nth f), seq_nth by assumption. reflexivity.
Qed.

Lemma nth_chunks i addr len :
  (i < chunk_count len)%nat ->
  nth i (chunks addr len) (0, 0) =
  (addr + 60 * Z.of_nat i, Z.min 60 (len - 60 * Z.of_nat i)).
Proof. intros H. unfold chunks. now rewrite nth_map_seq. Qed.

Lemma length_chunks addr len : length (chunks addr len) = chunk_count len.
Proof. unfold chunks. now rewrite length_map, length_seq. Qed.

(** C5: a NOR read of [count] bytes returns [count]; it stores exactly
    [count] bytes, at the consecutive addresses of the destination buffer;
    it goes in chunks whose flash address advances by exactly the size of
    the chunk before, every chunk but the last is 60 bytes long and the
    last is at most 60 bytes long.  [count] is a length that the [u32]
    parameter of [spi0_read_data] holds. *)
Theorem nor_read_chunking sector count buf t :
  0 <= count < 2 ^ 32 ->
  (responsive hw fuel ->
   exists t', spi_load_read_nor cfg hw fuel sector count buf t = Ret count t') /\
  (forall r t',
      spi_load_read_nor cfg hw fuel sector count buf t = Ret r t' ->
      r = count /\
      exists d,
        t' = t ++ d /\
        map fst (stores d) = Zseq buf (Z.to_nat count) /\
        frames cfg d =
          map (fun c => {| f_tx := nor_header (fst c); f_rxlen := snd c |})
              (chunks sector count)) /\
  (forall i,
      (S i < length (chunks sector count))%nat ->
      snd (nth i (chunks sector count) (0, 0)) = 60 /\
      fst (nth (S i) (chunks sector count) (0, 0)) =
        fst (nth i (chunks sector count) (0, 0)) +
        snd (nth i (chunks sector count) (0, 0))) /\
  (forall i,
      (i < length (chunks sector count))%nat ->
      0 < snd (nth i (chunks sector count) (0, 0)) <= 60) /\
  (0 < count -> fst (nth 0 (chunks sector count) (0, 0)) = sector).
Proof.
  intros Hc.
  pose proof (wp_spi_load_read_nor sector count buf t) as H.
  assert (Hu : u32 count = count) by (unfold u32; apply Z.mod_small; lia).
  split; [|split; [|split; [|split]]].
  - intros R. destruct (wp_progress _ _ _ H R) as (r & d & E & -> & _). eauto.
  - intros r t' E.
    destruct (wp_returns _ _ _ H r t' E) as (d & -> & -> & data & Hl & _ & Ho).
    split; [reflexivity|]. exists d. split; [reflexivity|].
    rewrite Hu in *. split.
    + destruct Ho as (_ & -> & _). now rewrite map_fst_stored_at, Hl.
    + rewrite (observed_frames _ _ _ Ho).
      now rewrite read_frames_u32 by apply nor_header_wrap.
  - intros i Hi. rewrite length_chunks in Hi.
    rewrite !nth_chunks by lia. cbn [fst snd].
    pose proof (chunk_count_lt (S i) count Hi). split; lia.
  - intros i Hi. rewrite length_chunks in Hi.
    rewrite nth_chunks by lia. cbn [snd].
    pose proof (chunk_count_lt i count Hi). lia.
  - intros Hpos. rewrite nth_chunks by (rewrite chunk_count_pos; lia).
    cbn [fst]. lia.
Qed.

(** ** Pages of a NAND read *)

Lemma nand_cycles_shape n : forall sector remain,
  0 < CONFIG_SPL_SPINAND_PAGE_SIZE cfg -> 0 <= remain ->
  Forall (fun c => 0 <= c_col c /\ 0 < c_len c /\
                   c_col c + c_len c <= CONFIG_SPL_SPINAND_PAGE_SIZE cfg)
         (nand_cycles cfg n sector remain).
Proof.
  induction n as [|n IH]; intros sector remain Hps Hr; [constructor|].
  cbn [nand_cycles]. destruct (Z.eqb_spec remain 0); [constructor|].
  pose proof (Z.mod_pos_bound sector _ Hps).
  constructor; [cbn [c_col c_len]; lia | apply IH; lia].
Qed.

Lemma nand_cycles_plan n : forall sector remain,
  0 < CONFIG_SPL_SPINAND_PAGE_SIZE cfg ->
  0 <= sector -> 0 <= remain -> sector + remain < 2 ^ 32 ->
  nand_cycles cfg n sector remain =
  nand_plan n (CONFIG_SPL_SPINAND_PAGE_SIZE cfg) sector remain.
Proof.
  induction n as [|n IH]; intros sector remain Hps Hs Hr Hsum; [reflexivity|].
  cbn [nand_cycles nand_plan].
  destruct (Z.eqb_spec remain 0) as [-> | Hne]; [reflexivity|].
  replace (remain <=? 0) with false by (symmetry; apply Z.leb_gt; lia).
  pose proof (Z.mod_pos_bound sector _ Hps).
  set (c := Z.min remain (CONFIG_SPL_SPINAND_PAGE_SIZE cfg -
                          sector mod CONFIG_SPL_SPINAND_PAGE_SIZE cfg)).
  assert (0 < c <= remain) by lia.
  assert (Hpage : u32 (sector / CONFIG_SPL_SPINAND_PAGE_SIZE cfg) =
                  sector / CONFIG_SPL_SPINAND_PAGE_SIZE cfg).
  { unfold u32. apply Z.mod_small. split; [apply Z.div_pos; lia|].
    apply Z.le_lt_trans with sector; [|lia].
    apply Z.div_le_upper_bound; nia. }
  assert (Hnext : ulong cfg (sector + c) = sector + c).
  { unfold ulong, BITS_PER_LONG. apply Z.mod_small.
    destruct (CONFIG_ARM64 cfg); change (2 ^ 32) with 4294967296 in *;
      [change (2 ^ 64) with 18446744073709551616|]; lia. }
  rewrite Hpage, Hnext. f_equal. apply IH; lia.
Qed.

Lemma be16_nand_read a n :
  0 <= a -> be16 {| f_tx := nand_read_header a; f_rxlen := n |} <= a.
Proof.
  intros Ha. unfold be16, nand_read_header. cbn [f_tx nth].
  pose proof (Z.div_mod a 256 ltac:(lia)).
  pose proof (Z.mod_le (a / 256) 256 ltac:(apply Z.div_pos; lia) ltac:(lia)).
  lia.
Qed.

Lemma read_frames_in_page col len :
  0 <= col -> col + len <= CONFIG_SPL_SPINAND_PAGE_SIZE cfg ->
  Forall (in_page cfg) (read_frames nand_read_header col len).
Proof.
  intros Hc Hl. unfold read_frames, chunks. rewrite map_map.
  apply Forall_forall. intros f Hf. apply in_map_iff in Hf.
  destruct Hf as (i & <- & Hi). apply in_seq in Hi. cbn [fst snd].
  pose proof (chunk_count_lt i len ltac:(lia)).
  intros _. cbn [f_rxlen].
  pose proof (be16_nand_read (col + 60 * Z.of_nat i)
                (Z.min 60 (len - 60 * Z.of_nat i)) ltac:(lia)).
  lia.
Qed.

Lemma repeat_status_in_page k : Forall (in_page cfg) (repeat status_frame k).
Proof.
  apply Forall_forall. intros f Hf. apply repeat_spec in Hf. subst f.
  intros H. discriminate H.
Qed.

Lemma nand_render_in_page plan : forall ks,
  Forall (fun c => 0 <= c_col c /\ 0 < c_len c /\
                   c_col c + c_len c <= CONFIG_SPL_SPINAND_PAGE_SIZE cfg) plan ->
  Forall (in_page cfg) (nand_render plan ks).
Proof.
  induction plan as [|c plan IH]; intros [|k ks] H;
    try (cbn [nand_render]; constructor; fail).
  - inversion H as [|? ? (Hc & Hl & Hs) Hrest]; subst.
    cbn [nand_render]. unfold cycle_frames. cbn [app].
    constructor; [intros E; discriminate E|].
    rewrite <- app_assoc. apply Forall_app. split; [apply repeat_status_in_page|].
    apply Forall_app. split; [now apply read_frames_in_page | now apply IH].
Qed.

Lemma nand_post_in_page plan count buf r d :
  Forall (fun c => 0 <= c_col c /\ 0 < c_len c /\
                   c_col c + c_len c <= CONFIG_SPL_SPINAND_PAGE_SIZE cfg) plan ->
  nand_post cfg plan count buf r d -> Forall (in_page cfg) (frames cfg d).
Proof.
  intros Hplan (ks & data & _ & _ & _ & _ & Ho & _).
  rewrite (observed_frames _ _ _ Ho). apply Forall_app. split.
  - now apply nand_render_in_page.
  - destruct (_ <? _)%nat; [|constructor].
    unfold timeout_frames. constructor; [intros E; discriminate E|].
    apply repeat_status_in_page.
Qed.

Lemma Forall_take {A} (P : A -> Prop) n : forall l,
  Forall P l -> Forall P (firstn n l).
Proof.
  induction n as [|n IH]; intros l H; [constructor|].
  destruct H; [constructor|]. cbn [firstn]. constructor; auto.
Qed.

Lemma plan_bytes_pos plan :
  Forall (fun c => 0 < c_len c) plan -> plan <> [] -> 0 < plan_bytes plan.
Proof.
  induction 1 as [|c plan Hc Hp IH]; intros Hne; [now elim Hne|].
  cbn [plan_bytes fold_right]. fold (plan_bytes plan).
  destruct plan as [|c' plan']; [cbn; lia|].
  assert (0 < plan_bytes (c' :: plan')) by (apply IH; discriminate). lia.
Qed.

(** C3: no data-read transfer of a NAND read goes beyond the end of its
    page: the column address plus the length of every transfer with opcode
    0x03 is at most the page size.  With 2048-byte pages, a read of 200
    bytes at offset 2000 that succeeds goes in exactly two page switches:
    page 0, with 48 bytes read at column 2000, then page 1, with the other
    152 bytes read from column 0 on (in transfers of at most 60 bytes). *)
Theorem nand_read_splits_at_page_end sector count buf t :
  0 < CONFIG_SPL_SPINAND_PAGE_SIZE cfg < 2 ^ 32 -> 0 <= count ->
  (responsive hw fuel ->
   exists r t', spi_load_read_nand cfg hw fuel sector count buf t = Ret r t') /\
  (forall r t',
      spi_load_read_nand cfg hw fuel sector count buf t = Ret r t' ->
      exists d,
        t' = t ++ d /\
        Forall (fun f => opcode f = 0x03 ->
                         be16 f + f_rxlen f <= CONFIG_SPL_SPINAND_PAGE_SIZE cfg)
               (frames cfg d)) /\
  (CONFIG_SPL_SPINAND_PAGE_SIZE cfg = 2048 -> sector = 2000 -> count = 200 ->
   forall t',
     spi_load_read_nand cfg hw fuel sector count buf t = Ret 200 t' ->
     exists d k1 k2,
       t' = t ++ d /\
       (1 <= k1 <= 100)%nat /\ (1 <= k2 <= 100)%nat /\
       frames cfg d =
         page_switch_frame 0 :: repeat status_frame k1 ++
         {| f_tx := nand_read_header 2000; f_rxlen := 48 |} ::
         page_switch_frame 1 :: repeat status_frame k2 ++
         [{| f_tx := nand_read_header 0; f_rxlen := 60 |};
          {| f_tx := nand_read_header 60; f_rxlen := 60 |};
          {| f_tx := nand_read_header 120; f_rxlen := 32 |}]).
Proof.
  intros Hps Hc.
  pose proof (wp_spi_load_read_nand sector count buf t Hps Hc) as H.
  split; [|split].
  - intros R. destruct (wp_progress _ _ _ H R) as (r & d & E & _). eauto.
  - intros r t' E. destruct (wp_returns _ _ _ H r t' E) as (d & -> & Hpost).
    exists d. split; [reflexivity|].
    eapply (nand_post_in_page _ _ _ _ _ _ Hpost).
    Unshelve. apply nand_cycles_shape; lia.
  - intros Eps -> -> t' E.
    destruct (wp_returns _ _ _ H 200 t' E)
      as (d & -> & ks & data & Hks & _ & Hlen & _ & Ho & Hret).
    rewrite nand_cycles_plan in Hlen, Ho, Hret by lia.
    rewrite Eps in Hlen, Ho, Hret.
    set (plan := nand_plan (Z.to_nat 200) 2048 2000 200) in *.
    vm_compute in plan. subst plan.
    destruct ks as [|k1 [|k2 [|k3 ks]]]; cbn [length Nat.ltb Nat.leb] in *;
      try discriminate Hret; try lia.
    exists d, k1, k2. split; [reflexivity|].
    inversion Hks as [|? ? Hk1 Hks']; subst.
    inversion Hks' as [|? ? Hk2 _]; subst.
    split; [exact Hk1|]. split; [exact Hk2|].
    rewrite (observed_frames _ _ _ Ho).
    cbn [nand_render]. unfold cycle_frames. cbn [c_page c_col c_len].
    rewrite !app_nil_r. cbn [app]. rewrite <- app_assoc.
    change (read_frames nand_read_header 2000 48)
      with [{| f_tx := nand_read_header 2000; f_rxlen := 48 |}].
    change (read_frames nand_read_header 0 152)
      with [{| f_tx := nand_read_header 0; f_rxlen := 60 |};
            {| f_tx := nand_read_header 60; f_rxlen := 60 |};
            {| f_tx := nand_read_header 120; f_rxlen := 32 |}].
    reflexivity.
Qed.

(** C10: the NAND read returns 0 or the requested count, never a count in
    between.  When the switch to a page times out after some pages were
    read, it returns 0 and the bytes of these pages stay stored in the
    destination buffer.  A request for no bytes returns 0, too. *)
Theorem nand_read_all_or_nothing sector count buf t :
  0 < CONFIG_SPL_SPINAND_PAGE_SIZE cfg < 2 ^ 32 -> 0 <= count ->
  (responsive hw fuel ->
   exists r t', spi_load_read_nand cfg hw fuel sector count buf t = Ret r t') /\
  (forall r t',
      spi_load_read_nand cfg hw fuel sector count buf t = Ret r t' ->
      (r = 0 \/ r = count) /\
      exists d ks data,
        t' = t ++ d /\
        (length ks <= length (nand_cycles cfg (Z.to_nat count) sector count))%nat /\
        frames cfg d =
          nand_render (nand_cycles cfg (Z.to_nat count) sector count) ks ++
          (if (length ks <? length (nand_cycles cfg (Z.to_nat count) sector count))%nat
           then timeout_frames
                  (nth (length ks) (nand_cycles cfg (Z.to_nat count) sector count)
                       {| c_page := 0; c_col := 0; c_len := 0 |})
           else []) /\
        stores d = stored_at buf data /\
        Z.of_nat (length data) =
          plan_bytes (firstn (length ks)
                             (nand_cycles cfg (Z.to_nat count) sector count)) /\
        ((length ks < length (nand_cycles cfg (Z.to_nat count) sector count))%nat ->
         r = 0 /\ (ks <> [] -> data <> []))) /\
  spi_load_read_nand cfg hw fuel sector 0 buf t = Ret 0 t.
Proof.
  intros Hps Hc.
  pose proof (wp_spi_load_read_nand sector count buf t Hps Hc) as H.
  split; [|split; [|reflexivity]].
  - intros R. destruct (wp_progress _ _ _ H R) as (r & d & E & _). eauto.
  - intros r t' E.
    destruct (wp_returns _ _ _ H r t' E)
      as (d & -> & ks & data & _ & _ & Hlen & Hbytes & Ho & Hret).
    set (plan := nand_cycles cfg (Z.to_nat count) sector count) in *.
    split; [destruct (_ <? _)%nat; auto|].
    exists d, ks, data. split; [reflexivity|]. split; [exact Hlen|].
    split; [exact (observed_frames _ _ _ Ho)|].
    split; [now destruct Ho as (_ & Hs & _)|]. split; [exact Hbytes|].
    intros Hlt. split.
    + apply Nat.ltb_lt in Hlt. now rewrite Hlt in Hret.
    + intros Hks Hdata. subst data. cbn [length Z.of_nat] in Hbytes.
      assert (0 < plan_bytes (firstn (length ks) plan)); [|lia].
      apply plan_bytes_pos.
      * apply Forall_take.
        eapply Forall_impl; [|apply (nand_cycles_shape (Z.to_nat count) sector count); lia].
        intros c (_ & Hl & _). exact Hl.
      * destruct ks as [|k ks]; [now elim Hks|].
        destruct plan as [|c plan]; [cbn in Hlt; lia | discriminate].
Qed.

Lemma be24_decode b0 a :
  0 <= a < 2 ^ 24 ->
  nth 1 [b0; (a / 65536) mod 256; (a / 256) mod 256; a mod 256] 0 * 65536 +
  nth 2 [b0; (a / 65536) mod 256; (a / 256) mod 256; a mod 256] 0 * 256 +
  nth 3 [b0; (a / 65536) mod 256; (a / 256) mod 256; a mod 256] 0 = a.
Proof.
  intros Ha. cbn [nth]. change (2 ^ 24) with 16777216 in Ha.
  pose proof (Z.div_mod a 256 ltac:(lia)).
  pose proof (Z.div_mod (a / 256) 256 ltac:(lia)).
  assert (Hq : a / 256 / 256 = a / 65536) by (rewrite Z.div_div by lia; reflexivity).
  assert (0 <= a / 65536 < 256).
  { split; [apply Z.div_pos; lia | apply Z.div_lt_upper_bound; lia]. }
  rewrite (Z.mod_small (a / 65536)) by lia. lia.
Qed.

(** C8: every NOR data-read command is opcode 0x03 followed by the 3-byte
    big-endian flash address of its chunk; a NAND read sends, for every
    page, a page-switch command of opcode 0x13 followed by the 3-byte
    big-endian page index [addr / page_size], and data-read commands of
    opcode 0x03 followed by the 2-byte big-endian column address and a zero
    byte. *)
Theorem command_framing sector count buf t :
  (forall r t',
      spi_load_read_nor cfg hw fuel sector count buf t = Ret r t' ->
      exists d,
        t' = t ++ d /\
        frames cfg d =
          map (fun c => {| f_tx := nor_header (fst c); f_rxlen := snd c |})
              (chunks sector (u32 count))) /\
  (0 < CONFIG_SPL_SPINAND_PAGE_SIZE cfg < 2 ^ 32 ->
   0 <= sector -> 0 <= count -> sector + count < 2 ^ 32 ->
   forall r t',
     spi_load_read_nand cfg hw fuel sector count buf t = Ret r t' ->
     exists d ks,
       t' = t ++ d /\
       frames cfg d =
         nand_render
           (nand_plan (Z.to_nat count) (CONFIG_SPL_SPINAND_PAGE_SIZE cfg) sector count)
           ks ++
         (if (length ks <?
              length (nand_plan (Z.to_nat count)
                                (CONFIG_SPL_SPINAND_PAGE_SIZE cfg) sector count))%nat
          then timeout_frames
                 (nth (length ks)
                      (nand_plan (Z.to_nat count)
                                 (CONFIG_SPL_SPINAND_PAGE_SIZE cfg) sector count)
                      {| c_page := 0; c_col := 0; c_len := 0 |})
          else [])) /\
  (forall a n, 0 <= a < 2 ^ 24 ->
     opcode {| f_tx := nor_header a; f_rxlen := n |} = 0x03 /\
     be24 {| f_tx := nor_header a; f_rxlen := n |} = a) /\
  (forall page, 0 <= page < 2 ^ 24 ->
     opcode (page_switch_frame page) = 0x13 /\
     be24 (page_switch_frame page) = page) /\
  (forall col n, 0 <= col < 2 ^ 16 ->
     opcode {| f_tx := nand_read_header col; f_rxlen := n |} = 0x03 /\
     be16 {| f_tx := nand_read_header col; f_rxlen := n |} = col /\
     nth 3 (nand_read_header col) 0 = 0).
Proof.
  split; [|split; [|split; [|split]]].
  - intros r t' E.
    destruct (wp_returns _ _ _ (wp_spi_load_read_nor sector count buf t) r t' E)
      as (d & -> & _ & data & _ & _ & Ho).
    exists d. split; [reflexivity|].
    rewrite (observed_frames _ _ _ Ho).
    now rewrite read_frames_u32 by apply nor_header_wrap.
  - intros Hps Hs Hc Hsum r t' E.
    destruct (wp_returns _ _ _ (wp_spi_load_read_nand sector count buf t Hps Hc)
                         r t' E)
      as (d & -> & ks & data & _ & _ & _ & _ & Ho & _).
    rewrite nand_cycles_plan in Ho by lia.
    exists d, ks. split; [reflexivity|]. exact (observed_frames _ _ _ Ho).
  - intros a n Ha. split; [reflexivity|]. apply be24_decode, Ha.
  - intros page Hp. split; [reflexivity|]. apply be24_decode, Hp.
  - intros col n Hc. split; [reflexivity|]. split; [|reflexivity].
    unfold be16, nand_read_header. cbn [f_tx nth].
    change (2 ^ 16) with 65536 in Hc.
    pose proof (Z.div_mod col 256 ltac:(lia)).
    assert (0 <= col / 256 < 256).
    { split; [apply Z.div_pos; lia | apply Z.div_lt_upper_bound; lia]. }
    rewrite (Z.mod_small (col / 256)) by lia. lia.
Qed.

(** ** Page-switch retries *)

Lemma nand_poll_status_buf b2 b3 :
  nand_poll_status cfg hw fuel [0x0f; 0xc0; b2; b3] =
  nand_poll_status cfg hw fuel [0x0f; 0xc0; 0; 0].
Proof. reflexivity. Qed.

Lemma bind_inv {A B} (m : M A) (k : A -> M B) t b t' :
  bind m k t = Ret b t' -> exists a t1, m t = Ret a t1 /\ k a t1 = Ret b t'.
Proof.
  unfold bind. destruct (m t) as [a t1| |]; try discriminate. eauto.
Qed.

Lemma nand_wait_ready_busy N : forall n b2 b3 t bs t2,
  status_polls cfg hw fuel N t = Ret bs t2 ->
  Forall (fun b => Z.land b 1 <> 0) bs ->
  exists b2',
    nand_wait_ready cfg hw fuel (N + n) [0x0f; 0xc0; b2; b3] t =
    nand_wait_ready cfg hw fuel n [0x0f; 0xc0; b2'; b3] t2.
Proof.
  induction N as [|N IH]; intros n b2 b3 t bs t2 Hrun Hbusy.
  - inversion Hrun; subst. now exists b2.
  - cbn [status_polls] in Hrun.
    apply bind_inv in Hrun. destruct Hrun as (b & ta & Hpoll & Hrun).
    apply bind_inv in Hrun. destruct Hrun as (rest & tb & Hrest & Hret).
    inversion Hret; subst. inversion Hbusy as [|? ? Hb Hbrest]; subst.
    destruct (IH n b b3 ta rest t2 Hrest Hbrest) as (b2' & E).
    exists b2'. rewrite <- E. cbn [Nat.add nand_wait_ready].
    rewrite nand_poll_status_buf. erewrite bind_Ret by exact Hpoll.
    apply Z.eqb_neq in Hb. rewrite Hb. reflexivity.
Qed.

Lemma nand_wait_ready_ready n b2 b3 t b t' :
  nand_poll_status cfg hw fuel [0x0f; 0xc0; 0; 0] t = Ret b t' ->
  Z.land b 1 = 0 ->
  nand_wait_ready cfg hw fuel (S n) [0x0f; 0xc0; b2; b3] t = Ret 0 t'.
Proof.
  intros Hpoll Hb. cbn [nand_wait_ready].
  rewrite nand_poll_status_buf. erewrite bind_Ret by exact Hpoll.
  now rewrite Hb.
Qed.

(** ** Time spent in delays *)

Lemma delay_total_app d1 d2 :
  delay_total (d1 ++ d2) = delay_total d1 + delay_total d2.
Proof.
  induction d1 as [|e d1 IH]; [reflexivity|].
  destruct e; cbn [app delay_total fold_right] in *;
    fold (delay_total (d1 ++ d2)); fold (delay_total d1); lia.
Qed.

Lemma delay_total_map {A} (f : A -> event) l :
  (forall a, match f a with EvUdelay _ => False | _ => True end) ->
  delay_total (map f l) = 0.
Proof.
  intros H. induction l as [|a l IH]; [reflexivity|].
  cbn [map]. specialize (H a). change (f a :: map f l) with ([f a] ++ map f l).
  rewrite delay_total_app, IH. now destruct (f a).
Qed.

Lemma delay_total_rx_events data : forall rxbuf,
  delay_total (rx_events cfg rxbuf data) = 0.
Proof.
  induction data as [|b data IH]; intros rxbuf; [reflexivity|].
  cbn [rx_events].
  change (?e :: ?l ++ ?r) with ([e] ++ l ++ r).
  rewrite !delay_total_app, IH. now destruct rxbuf.
Qed.

Lemma xfer_post_delay txbuf txlen rxbuf rxlen rx d :
  xfer_post cfg txbuf txlen rxbuf rxlen rx d -> delay_total d = 0.
Proof.
  intros (polls & echo & -> & _). unfold xfer_events.
  rewrite !delay_total_app, delay_total_rx_events.
  rewrite !delay_total_map by (intros; exact I).
  now destruct (is_sun6i_gen_spi cfg).
Qed.

Lemma wp_xfer_obs_delay txbuf txlen rxbuf rxlen t (Q : list Z -> trace -> Prop) :
  0 <= txlen -> 0 <= rxlen -> txlen + rxlen <= 64 ->
  (rxbuf = RxNull -> rxlen = 0) ->
  (forall rx d,
      length rx = Z.to_nat rxlen ->
      Forall (fun b => 0 <= b < 256) rx ->
      observed cfg d [{| f_tx := sent txbuf txlen; f_rxlen := rxlen |}]
               match rxbuf with RxRam a => stored_at a rx | _ => [] end ->
      delay_total d = 0 ->
      Q rx d) ->
  WP (spi0_xfer cfg hw fuel txbuf txlen rxbuf rxlen) t Q.
Proof.
  intros Htx Hrx Hsum Hnull HQ.
  eapply wp_mono; [apply wp_spi0_xfer; assumption|].
  intros rx d Hpost. pose proof Hpost as (polls & echo & _ & _ & _ & Hl & Hb).
  apply HQ; auto; [now apply xfer_observed | now apply xfer_post_delay in Hpost].
Qed.

Lemma wp_nand_wait_ready_delay n : forall b2 b3 t,
  WP (nand_wait_ready cfg hw fuel n [0x0f; 0xc0; b2; b3]) t
     (fun r d => exists k,
          (k <= n)%nat /\
          observed cfg d (repeat status_frame k) [] /\
          delay_total d = Z.of_nat k /\
          (r = 0 /\ (1 <= k)%nat \/ r = - ETIMEDOUT /\ k = n)).
Proof.
  induction n as [|n IH]; intros b2 b3 t.
  - apply wp_ret. exists O. split; [lia|]. split; [apply observed_nil|].
    split; [reflexivity|]. now right.
  - cbn [nand_wait_ready]. unfold nand_poll_status.
    apply wp_bind, wp_bind, wp_emit.
    apply wp_bind, wp_xfer_obs_delay; try lia; [discriminate|].
    intros rx d1 Hl Hb Ho1 Hd1. apply wp_ret. rewrite app_nil_r.
    destruct rx as [|b [|]]; try discriminate. cbn [nth].
    assert (Ho : observed cfg ([EvUdelay 1] ++ d1) ([] ++ [status_frame]) ([] ++ []))
      by (apply observed_app; [apply observed_udelay | exact Ho1]).
    assert (Hd : delay_total ([EvUdelay 1] ++ d1) = 1)
      by (rewrite delay_total_app, Hd1; reflexivity).
    destruct (Z.land b 1 =? 0).
    + apply wp_ret. rewrite app_nil_r. exists 1%nat.
      split; [lia|]. split; [exact Ho|]. split; [exact Hd|].
      left. split; [reflexivity | lia].
    + cbn [upd]. eapply wp_mono; [apply IH|].
      intros r d2 (k & Hk & Ho2 & Hd2 & Hr). exists (S k).
      split; [lia|]. split; [|split].
      * change (repeat status_frame (S k))
          with (([] ++ [status_frame]) ++ repeat status_frame k).
        change (@nil (Z * Z)) with ((@nil (Z * Z) ++ []) ++ []).
        now apply observed_app.
      * rewrite delay_total_app, Hd, Hd2. lia.
      * destruct Hr as [[-> Hk1] | [-> ->]]; [left | right]; split; auto; lia.
Qed.

Lemma wp_switch_page_delay page t :
  WP (spi0_nand_switch_page cfg hw fuel page) t
     (fun r d => exists k,
          observed cfg d (page_switch_frame page :: repeat status_frame k) [] /\
          delay_total d = Z.of_nat k /\
          (1 <= k <= 100)%nat /\
          (r = 0 \/ r = - ETIMEDOUT /\ k = 100%nat)).
Proof.
  unfold spi0_nand_switch_page.
  apply wp_bind, wp_xfer_obs_delay; try lia.
  intros rx d1 _ _ Ho1 Hd1. rewrite page_switch_sent in Ho1.
  cbn [upd]. eapply wp_mono; [apply wp_nand_wait_ready_delay|].
  intros r d2 (k & Hk & Ho2 & Hd2 & Hr).
  assert (Hk1 : (1 <= k)%nat) by (destruct Hr as [[_ H] | [_ ->]]; lia).
  exists k. split; [|split; [|split]].
  - change (page_switch_frame page :: repeat status_frame k)
      with ([page_switch_frame page] ++ repeat status_frame k).
    change (@nil (Z * Z)) with (@nil (Z * Z) ++ []).
    now apply observed_app.
  - rewrite delay_total_app, Hd1, Hd2. lia.
  - lia.
  - destruct Hr as [[-> _] | [-> ->]]; auto.
Qed.

(** One status poll: a delay of 1 microsecond, then one transfer of the
    status command. *)
Lemma nand_poll_status_run b2 b3 ta b tb :
  nand_poll_status cfg hw fuel [0x0f; 0xc0; b2; b3] ta = Ret b tb ->
  exists d,
    tb = ta ++ EvUdelay 1 :: d /\
    xfer_post cfg [0x0f; 0xc0; b2; b3] 2 RxLocal 1 [b] d /\
    frames cfg d = [status_frame] /\
    delay_total d = 0.
Proof.
  unfold nand_poll_status. intros E.
  apply bind_inv in E. destruct E as ([] & t0 & E0 & E).
  inversion E0; subst t0. clear E0.
  apply bind_inv in E. destruct E as (rx & t1 & E1 & E).
  inversion E; subst. clear E.
  assert (W : WP (spi0_xfer cfg hw fuel [0x0f; 0xc0; b2; b3] 2 RxLocal 1)
                 (ta ++ [EvUdelay 1])
                 (xfer_post cfg [0x0f; 0xc0; b2; b3] 2 RxLocal 1))
    by (apply wp_spi0_xfer; try lia; discriminate).
  destruct (wp_returns _ _ _ W _ _ E1) as (d & -> & Hpost).
  pose proof Hpost as (polls & echo & _ & _ & _ & Hl & _).
  destruct rx as [|b [|]]; try discriminate. cbn [nth].
  exists d. split; [now rewrite <- app_assoc|]. split; [exact Hpost|].
  split; [|exact (xfer_post_delay _ _ _ _ _ _ Hpost)].
  assert (Ho : observed cfg d [status_frame] [])
    by (apply (xfer_observed [0x0f; 0xc0; b2; b3] 2 RxLocal 1 [b] d);
        [lia | lia | lia | exact Hpost]).
  exact (observed_frames _ _ _ Ho).
Qed.

(** C2, as the code has it: when the status polls after the page-read
    command report busy [N < 100] times and then ready, the page switch
    succeeds and the NAND read goes on with the data read of the page; when
    100 polls report busy, the page switch fails with [-ETIMEDOUT] and the
    NAND read returns 0 at once, which is short of the request.  Every poll
    is a delay of 1 microsecond followed by one transfer of the status
    command, whose one received byte is the status polled, and a page
    switch spends as many microseconds in delays as it makes polls, 100
    when it times out.  The read hands no status to its
    caller: the caller sees the count 0. *)
Theorem page_switch_retry n count sector remain buf t rx t1 :
  0 < CONFIG_SPL_SPINAND_PAGE_SIZE cfg < 2 ^ 32 ->
  0 < remain <= count ->
  spi0_xfer cfg hw fuel
    [0x13; u8 (Z.shiftr (u32 (sector / CONFIG_SPL_SPINAND_PAGE_SIZE cfg)) 16);
     u8 (Z.shiftr (u32 (sector / CONFIG_SPL_SPINAND_PAGE_SIZE cfg)) 8);
     u8 (u32 (sector / CONFIG_SPL_SPINAND_PAGE_SIZE cfg))] 4 RxNull 0 t = Ret rx t1 ->
  (forall N bs t2 b t3,
      (N < 100)%nat ->
      status_polls cfg hw fuel N t1 = Ret bs t2 ->
      Forall (fun b => Z.land b 1 <> 0) bs ->
      nand_poll_status cfg hw fuel [0x0f; 0xc0; 0; 0] t2 = Ret b t3 ->
      Z.land b 1 = 0 ->
      spi0_nand_switch_page cfg hw fuel
        (u32 (sector / CONFIG_SPL_SPINAND_PAGE_SIZE cfg)) t = Ret 0 t3 /\
      spi_load_read_nand_loop cfg hw fuel (S n) count sector remain buf t =
        (spi0_read_data cfg hw fuel buf
           (sector mod CONFIG_SPL_SPINAND_PAGE_SIZE cfg)
           (Z.min remain (CONFIG_SPL_SPINAND_PAGE_SIZE cfg -
                          sector mod CONFIG_SPL_SPINAND_PAGE_SIZE cfg)) 2 ;;;
         spi_load_read_nand_loop cfg hw fuel n count
           (ulong cfg (sector +
                       Z.min remain (CONFIG_SPL_SPINAND_PAGE_SIZE cfg -
                                     sector mod CONFIG_SPL_SPINAND_PAGE_SIZE cfg)))
           (remain - Z.min remain (CONFIG_SPL_SPINAND_PAGE_SIZE cfg -
                                   sector mod CONFIG_SPL_SPINAND_PAGE_SIZE cfg))
           (buf + Z.min remain (CONFIG_SPL_SPINAND_PAGE_SIZE cfg -
                                sector mod CONFIG_SPL_SPINAND_PAGE_SIZE cfg))) t3) /\
  (forall bs t2,
      status_polls cfg hw fuel 100 t1 = Ret bs t2 ->
      Forall (fun b => Z.land b 1 <> 0) bs ->
      spi0_nand_switch_page cfg hw fuel
        (u32 (sector / CONFIG_SPL_SPINAND_PAGE_SIZE cfg)) t = Ret (- ETIMEDOUT) t2 /\
      spi_load_read_nand_loop cfg hw fuel (S n) count sector remain buf t = Ret 0 t2 /\
      0 < count) /\
  (forall b2 b3 ta b tb,
      nand_poll_status cfg hw fuel [0x0f; 0xc0; b2; b3] ta = Ret b tb ->
      exists d,
        tb = ta ++ EvUdelay 1 :: d /\
        xfer_post cfg [0x0f; 0xc0; b2; b3] 2 RxLocal 1 [b] d /\
        frames cfg d = [status_frame] /\
        delay_total d = 0) /\
  (forall page ta r tb,
      spi0_nand_switch_page cfg hw fuel page ta = Ret r tb ->
      exists d k,
        tb = ta ++ d /\
        frames cfg d = page_switch_frame page :: repeat status_frame k /\
        delay_total d = Z.of_nat k /\
        (1 <= k <= 100)%nat /\
        (r = 0 \/ r = - ETIMEDOUT /\ k = 100%nat)).
Proof.
  intros Hps Hrem Hcmd.
  assert (Hloop : forall r t',
    spi0_nand_switch_page cfg hw fuel
      (u32 (sector / CONFIG_SPL_SPINAND_PAGE_SIZE cfg)) t = Ret r t' ->
    spi_load_read_nand_loop cfg hw fuel (S n) count sector remain buf t =
    (if negb (r =? 0) then ret 0
     else
       spi0_read_data cfg hw fuel buf
         (sector mod CONFIG_SPL_SPINAND_PAGE_SIZE cfg)
         (Z.min remain (CONFIG_SPL_SPINAND_PAGE_SIZE cfg -
                        sector mod CONFIG_SPL_SPINAND_PAGE_SIZE cfg)) 2 ;;;
       spi_load_read_nand_loop cfg hw fuel n count
         (ulong cfg (sector +
                     Z.min remain (CONFIG_SPL_SPINAND_PAGE_SIZE cfg -
                                   sector mod CONFIG_SPL_SPINAND_PAGE_SIZE cfg)))
         (remain - Z.min remain (CONFIG_SPL_SPINAND_PAGE_SIZE cfg -
                                 sector mod CONFIG_SPL_SPINAND_PAGE_SIZE cfg))
         (buf + Z.min remain (CONFIG_SPL_SPINAND_PAGE_SIZE cfg -
                              sector mod CONFIG_SPL_SPINAND_PAGE_SIZE cfg))) t').
  { intros r t' E. cbn [spi_load_read_nand_loop].
    replace (remain =? 0) with false by (symmetry; apply Z.eqb_neq; lia).
    rewrite !(ulong_pagesize Hps).
    now erewrite bind_Ret by exact E. }
  assert (Esw :
    spi0_nand_switch_page cfg hw fuel
      (u32 (sector / CONFIG_SPL_SPINAND_PAGE_SIZE cfg)) t =
    nand_wait_ready cfg hw fuel 100
      [0x0f; 0xc0;
       u8 (Z.shiftr (u32 (sector / CONFIG_SPL_SPINAND_PAGE_SIZE cfg)) 8);
       u8 (u32 (sector / CONFIG_SPL_SPINAND_PAGE_SIZE cfg))] t1).
  { unfold spi0_nand_switch_page. now erewrite bind_Ret by exact Hcmd. }
  split; [|split; [|split]].
  - intros N bs t2 b t3 HN Hpolls Hbusy Hpoll Hready.
    assert (E : spi0_nand_switch_page cfg hw fuel
                  (u32 (sector / CONFIG_SPL_SPINAND_PAGE_SIZE cfg)) t = Ret 0 t3).
    { rewrite Esw. replace 100%nat with (N + S (99 - N))%nat by lia.
      destruct (nand_wait_ready_busy N (S (99 - N))
                  (u8 (Z.shiftr (u32 (sector / CONFIG_SPL_SPINAND_PAGE_SIZE cfg)) 8))
                  (u8 (u32 (sector / CONFIG_SPL_SPINAND_PAGE_SIZE cfg)))
                  _ _ _ Hpolls Hbusy)
        as (b2' & ->).
      now apply nand_wait_ready_ready with b. }
    split; [exact E|]. now rewrite (Hloop _ _ E).
  - intros bs t2 Hpolls Hbusy.
    assert (E : spi0_nand_switch_page cfg hw fuel
                  (u32 (sector / CONFIG_SPL_SPINAND_PAGE_SIZE cfg)) t =
                Ret (- ETIMEDOUT) t2).
    { rewrite Esw. change 100%nat with (100 + 0)%nat at 1.
      destruct (nand_wait_ready_busy 100 0
                  (u8 (Z.shiftr (u32 (sector / CONFIG_SPL_SPINAND_PAGE_SIZE cfg)) 8))
                  (u8 (u32 (sector / CONFIG_SPL_SPINAND_PAGE_SIZE cfg)))
                  _ _ _ Hpolls Hbusy) as (b2' & ->).
      reflexivity. }
    split; [exact E|]. split; [now rewrite (Hloop _ _ E) | lia].
  - intros b2 b3 ta b tb. apply nand_poll_status_run.
  - intros page ta r tb E.
    destruct (wp_returns _ _ _ (wp_switch_page_delay page ta) _ _ E)
      as (d & -> & k & Ho & Hd & Hk & Hr).
    exists d, k. split; [reflexivity|].
    split; [exact (observed_frames _ _ _ Ho)|]. auto.
Qed.

(** ** Dispatch *)

Lemma bind_assoc {A B C} (m : M A) (k1 : A -> M B) (k2 : B -> M C) t :
  bind (bind m k1) k2 t = bind m (fun a => bind (k1 a) k2) t.
Proof. unfold bind. destruct (m t) as [a t1| |]; reflexivity. Qed.

(** C7: the dispatch first reads 0x40 bytes at the load offset into the
    header buffer through the read function it was given; when that read
    returns 0 the load fails with [-EINVAL] and does nothing else: no
    classification, no further read.  When it returns another count, the
    classification is made from the state the read left: the magic number
    is the first 4 bytes of the header buffer as they are in RAM after the
    read, most significant first, and the load is what the classification
    by this magic number does from there.  A load that returns has made
    this read first, and the read function not returning means the load
    does not return. *)
Theorem header_read_first bootdev load offset allow_raw t :
  (forall t1,
      load offset 0x40 (CONFIG_TEXT_BASE cfg) t = Ret 0 t1 ->
      spl_spi_try_load cfg ext bootdev load offset allow_raw t = Ret (- EINVAL) t1) /\
  (forall r t',
      spl_spi_try_load cfg ext bootdev load offset allow_raw t = Ret r t' ->
      exists n t1,
        load offset 0x40 (CONFIG_TEXT_BASE cfg) t = Ret n t1 /\
        (n = 0 -> r = - EINVAL /\ t' = t1)) /\
  (load offset 0x40 (CONFIG_TEXT_BASE cfg) t = Hang ->
   spl_spi_try_load cfg ext bootdev load offset allow_raw t = Hang) /\
  (load offset 0x40 (CONFIG_TEXT_BASE cfg) t = Undef ->
   spl_spi_try_load cfg ext bootdev load offset allow_raw t = Undef) /\
  (forall n t1,
      load offset 0x40 (CONFIG_TEXT_BASE cfg) t = Ret n t1 -> n <> 0 ->
      exists magic,
        magic =
          Z.lor (Z.shiftl (u8 (ram (ram0 ext) t1 (CONFIG_TEXT_BASE cfg))) 24)
          (Z.lor (Z.shiftl (u8 (ram (ram0 ext) t1 (CONFIG_TEXT_BASE cfg + 1))) 16)
          (Z.lor (Z.shiftl (u8 (ram (ram0 ext) t1 (CONFIG_TEXT_BASE cfg + 2))) 8)
                 (u8 (ram (ram0 ext) t1 (CONFIG_TEXT_BASE cfg + 3))))) /\
        image_get_magic ext (CONFIG_TEXT_BASE cfg) t1 = Ret magic t1 /\
        spl_spi_try_load cfg ext bootdev load offset allow_raw t =
        (if CONFIG_SPL_LOAD_FIT cfg && (magic =? FDT_MAGIC ext)
         then fun t => run_ext cfg ext load
                         (spl_load_simple_fit ext (ram (ram0 ext) t) offset
                                              (CONFIG_TEXT_BASE cfg)) t
         else if negb allow_raw && negb (magic =? IH_MAGIC ext)
              then ret (- EINVAL)
              else fun t =>
                let (r, spl_image) :=
                  spl_parse_image_header ext bootdev (ram (ram0 ext) t)
                                         (CONFIG_TEXT_BASE cfg) in
                if negb (r =? 0) then Ret r t
                else (n' <- load offset (ulong cfg (size spl_image))
                                 (load_addr spl_image) ;;
                      if n' =? 0 then ret (- EINVAL) else ret r) t) t1).
Proof.
  unfold spl_spi_try_load. split; [|split; [|split; [|split]]].
  - intros t1 E. now erewrite bind_Ret by exact E.
  - intros r t' E. apply bind_inv in E. destruct E as (n & t1 & Eh & E).
    exists n, t1. split; [exact Eh|]. intros ->.
    cbn in E. now inversion E.
  - intros E. unfold bind at 1. now rewrite E.
  - intros E. unfold bind at 1. now rewrite E.
  - intros n t1 Eh Hn. eexists. split; [reflexivity|].
    split; [reflexivity|].
    erewrite bind_Ret by exact Eh.
    replace (n =? 0) with false by (symmetry; now apply Z.eqb_neq).
    reflexivity.
Qed.

(** C1, as the code has it: after a header read that returned a count other
    than 0, a header whose first 4 bytes are the structured-image magic goes
    to the structured-image loader, when support for it is built in, and
    the status of that loader is returned.  Otherwise the load fails with
    [-EINVAL] when raw loading is not permitted and the magic is not the
    legacy one.  In every other case, that is when raw loading is permitted,
    whatever the magic, or when the magic is the legacy one, the header goes
    to the header parser; a status other than 0 of the parser is returned,
    and after status 0 the payload is read: the load fails with [-EINVAL]
    when that read returns 0 and succeeds otherwise. *)
Theorem image_classification bootdev load offset allow_raw t n t1 magic :
  load offset 0x40 (CONFIG_TEXT_BASE cfg) t = Ret n t1 ->
  n <> 0 ->
  image_get_magic ext (CONFIG_TEXT_BASE cfg) t1 = Ret magic t1 ->
  (CONFIG_SPL_LOAD_FIT cfg = true -> magic = FDT_MAGIC ext ->
   spl_spi_try_load cfg ext bootdev load offset allow_raw t =
   run_ext cfg ext load
     (spl_load_simple_fit ext (ram (ram0 ext) t1) offset (CONFIG_TEXT_BASE cfg)) t1) /\
  (CONFIG_SPL_LOAD_FIT cfg = false \/ magic <> FDT_MAGIC ext ->
   allow_raw = false -> magic <> IH_MAGIC ext ->
   spl_spi_try_load cfg ext bootdev load offset allow_raw t = Ret (- EINVAL) t1) /\
  (CONFIG_SPL_LOAD_FIT cfg = false \/ magic <> FDT_MAGIC ext ->
   allow_raw = true \/ magic = IH_MAGIC ext ->
   forall r spl_image,
     spl_parse_image_header ext bootdev (ram (ram0 ext) t1) (CONFIG_TEXT_BASE cfg) =
       (r, spl_image) ->
     (r <> 0 ->
      spl_spi_try_load cfg ext bootdev load offset allow_raw t = Ret r t1) /\
     (r = 0 ->
      spl_spi_try_load cfg ext bootdev load offset allow_raw t =
      (n' <- load offset (ulong cfg (size spl_image)) (load_addr spl_image) ;;
       if n' =? 0 then ret (- EINVAL) else ret 0) t1)).
Proof.
  intros Eh Hn Em.
  assert (E : spl_spi_try_load cfg ext bootdev load offset allow_raw t =
              (if CONFIG_SPL_LOAD_FIT cfg && (magic =? FDT_MAGIC ext)
               then fun t => run_ext cfg ext load
                               (spl_load_simple_fit ext (ram (ram0 ext) t) offset
                                                    (CONFIG_TEXT_BASE cfg)) t
               else if negb allow_raw && negb (magic =? IH_MAGIC ext)
                    then ret (- EINVAL)
                    else fun t =>
                      let (r, spl_image) :=
                        spl_parse_image_header ext bootdev (ram (ram0 ext) t)
                                               (CONFIG_TEXT_BASE cfg) in
                      if negb (r =? 0) then Ret r t
                      else (n' <- load offset (ulong cfg (size spl_image))
                                       (load_addr spl_image) ;;
                            if n' =? 0 then ret (- EINVAL) else ret r) t) t1).
  { unfold spl_spi_try_load. erewrite bind_Ret by exact Eh.
    replace (n =? 0) with false by (symmetry; now apply Z.eqb_neq).
    now erewrite bind_Ret by exact Em. }
  rewrite E. clear E. split; [|split].
  - intros -> ->. now rewrite Z.eqb_refl.
  - intros Hfit -> Hih.
    replace (CONFIG_SPL_LOAD_FIT cfg && (magic =? FDT_MAGIC ext)) with false.
    + replace (magic =? IH_MAGIC ext) with false
        by (symmetry; now apply Z.eqb_neq).
      reflexivity.
    + symmetry. destruct Hfit as [-> | Hne]; [reflexivity|].
      apply andb_false_iff. right. now apply Z.eqb_neq.
  - intros Hfit Hraw r spl_image Ep.
    replace (CONFIG_SPL_LOAD_FIT cfg && (magic =? FDT_MAGIC ext)) with false.
    + replace (negb allow_raw && negb (magic =? IH_MAGIC ext)) with false.
      * rewrite Ep. split.
        -- intros Hr. apply Z.eqb_neq in Hr. now rewrite Hr.
        -- intros ->. reflexivity.
      * symmetry. destruct Hraw as [-> | ->]; [reflexivity|].
        rewrite Z.eqb_refl. apply andb_false_r.
    + symmetry. destruct Hfit as [-> | Hne]; [reflexivity|].
      apply andb_false_iff. right. now apply Z.eqb_neq.
Qed.

(** ** The top-level load *)

Lemma load_image_inv bootdev t r t' :
  spl_spi_load_image cfg hw fuel ext bootdev t = Ret r t' ->
  exists load allow_raw t0 t1,
    (spi0_init cfg hw fuel ;;; select_load cfg hw fuel bootdev) t =
      Ret (Some load, allow_raw) t0 /\
    spl_spi_try_load cfg ext bootdev load
      (Z.max (u32 (sunxi_get_spl_size ext)) (u32 (CONFIG_SYS_SPI_U_BOOT_OFFS cfg)))
      allow_raw t0 = Ret r t1 /\
    spi0_deinit cfg t1 = Ret tt t' /\
    t' = t1 ++ deinit_events cfg.
Proof.
  unfold spl_spi_load_image. intros E.
  apply bind_inv in E. destruct E as ([] & ta & Einit & E).
  apply bind_inv in E. destruct E as ([[load|] allow_raw] & t0 & Esel & E);
    [|discriminate].
  apply bind_inv in E. destruct E as (r' & t1 & Etry & E).
  apply bind_inv in E. destruct E as ([] & t2 & Ede & E).
  inversion E; subst.
  exists load, allow_raw, t0, t1. split; [|split; [exact Etry|split]].
  - now erewrite bind_Ret by exact Einit.
  - exact Ede.
  - rewrite spi0_deinit_emits in Ede. now inversion Ede.
Qed.

Lemma wp_select bootdev t :
  supported cfg bootdev ->
  WP (spi0_init cfg hw fuel ;;; select_load cfg hw fuel bootdev) t
     (fun sel d => quiet d /\
                   exists load, fst sel = Some load /\ quiet_read cfg hw fuel load).
Proof.
  intros Hs. apply wp_bind. eapply wp_mono; [apply wpq_spi0_init|].
  intros [] d0 Hq0. destruct bootdev; cbn [supported] in Hs.
  - apply wp_ret. split; [now rewrite app_nil_r|].
    eexists. split; [reflexivity | apply quiet_read_nor].
  - destruct Hs as (Hnand & Hps). cbn [select_load]. rewrite Hnand.
    apply wp_bind. eapply wp_mono; [apply wpq_spi0_nand_reset|].
    intros [] d1 Hq1. apply wp_ret. rewrite app_nil_r.
    split; [now apply quiet_app|].
    eexists. split; [reflexivity | now apply quiet_read_nand].
  - contradiction.
Qed.

(** C6: on every path through the top-level load, whatever status the
    header read, the classification, the NAND read, the structured-image
    loader or the header parser end with, the controller-disable sequence
    runs exactly once, as the last thing before the load returns, and the
    load returns that status.  On responsive hardware the load returns. *)
Theorem teardown_once bootdev t :
  supported cfg bootdev ->
  (responsive hw fuel ->
   exists r t', spl_spi_load_image cfg hw fuel ext bootdev t = Ret r t') /\
  (forall r t',
      spl_spi_load_image cfg hw fuel ext bootdev t = Ret r t' ->
      exists load allow_raw t0 d1,
        (spi0_init cfg hw fuel ;;; select_load cfg hw fuel bootdev) t =
          Ret (Some load, allow_raw) t0 /\
        spl_spi_try_load cfg ext bootdev load
          (Z.max (u32 (sunxi_get_spl_size ext))
                 (u32 (CONFIG_SYS_SPI_U_BOOT_OFFS cfg)))
          allow_raw t0 = Ret r (t ++ d1) /\
        spi0_deinit cfg (t ++ d1) = Ret tt t' /\
        t' = t ++ d1 ++ deinit_events cfg /\
        filter (is_disable cfg) d1 = [] /\
        length (filter (is_disable cfg) (d1 ++ deinit_events cfg)) = 1%nat).
Proof.
  intros Hs. pose proof (wp_select bootdev t Hs) as Hsel. split.
  - intros R.
    destruct (wp_progress _ _ _ Hsel R)
      as ([sel allow_raw] & d0 & Esel & _ & load & Hload & Hq).
    cbn [fst] in Hload. subst sel.
    destruct (wp_progress _ _ _
                (wpq_try_load bootdev load
                   (Z.max (u32 (sunxi_get_spl_size ext))
                          (u32 (CONFIG_SYS_SPI_U_BOOT_OFFS cfg)))
                   allow_raw (t ++ d0) Hq) R) as (r & d1 & Etry & _).
    exists r, ((t ++ d0) ++ d1 ++ deinit_events cfg).
    unfold spl_spi_load_image.
    rewrite <- (bind_assoc (spi0_init cfg hw fuel)
                           (fun _ => select_load cfg hw fuel bootdev)).
    erewrite bind_Ret by exact Esel. cbv iota beta.
    erewrite bind_Ret by exact Etry.
    unfold bind. rewrite spi0_deinit_emits. now rewrite <- app_assoc.
  - intros r t' E.
    destruct (load_image_inv bootdev t r t' E)
      as (load & allow_raw & t0 & t1 & Esel & Etry & Ede & ->).
    destruct (wp_returns _ _ _ Hsel _ _ Esel) as (d0 & -> & Hq0 & load' & El & Hq).
    cbn [fst] in El. inversion El; subst load'.
    destruct (wp_returns _ _ _
                (wpq_try_load bootdev load _ allow_raw (t ++ d0) Hq) _ _ Etry)
      as (d1 & -> & Hq1).
    exists load, allow_raw, (t ++ d0), (d0 ++ d1).
    rewrite <- !app_assoc in Etry. rewrite <- !app_assoc in Ede.
    split; [exact Esel|]. split; [exact Etry|].
    split; [rewrite Ede; now rewrite <- !app_assoc|].
    split; [now rewrite <- !app_assoc|]. split.
    + apply disable_is_clrbits. now apply quiet_app.
    + rewrite !filter_app, length_app, !length_app.
      rewrite (disable_is_clrbits d0 Hq0), (disable_is_clrbits d1 Hq1).
      rewrite deinit_disables_once. reflexivity.
Qed.


(** ** Further properties: the byte transfer engine *)

Lemma busy_wait_stuck reg busy n : forall t,
  (forall v, busy v = true) -> busy_wait hw n reg busy t = Hang.
Proof.
  induction n as [|n IH]; intros t H; [reflexivity|].
  simpl. unfold bind, readl. rewrite H. now apply IH.
Qed.

Lemma emits_then {A} (m : M unit) (k : M A) d t :
  emits m d -> (m ;;; k) t = k (t ++ d).
Proof. intros H. unfold bind. now rewrite H. Qed.

Lemma fifo_level_max v : Z.land v 0x7F <= 127.
Proof.
  change (Z.land v (Z.ones 7) <= 127). rewrite Z.land_ones by lia.
  change (2 ^ 7) with 128. pose proof (Z.mod_pos_bound v 128). lia.
Qed.

(** X1: the FIFO level field read by the wait of a transfer is 7 bits wide,
    so a transfer whose total length (sent plus received bytes, as a 32-bit
    value) is above 127 never returns, whatever the hardware answers and
    however long it is polled. *)
Theorem xfer_beyond_fifo_level_hangs txbuf txlen rxbuf rxlen t :
  127 < u32 (txlen + rxlen) ->
  spi0_xfer cfg hw fuel txbuf txlen rxbuf rxlen t = Hang.
Proof.
  intros H.
  assert (Hb : forall v, (Z.land v 0x7F <? u32 (txlen + rxlen)) = true).
  { intros v. apply Z.ltb_lt. pose proof (fifo_level_max v). lia. }
  unfold spi0_xfer, sunxi_spi0_xfer, writel, writeb, setbits_le32.
  destruct (is_sun6i_gen_spi cfg).
  - rewrite (emits_then _ _ _ _ (emits_emit _)).
    rewrite (emits_then _ _ _ _ (emits_emit _)).
    rewrite (emits_then _ _ _ _ (emits_when _ _ _ (emits_emit _))).
    rewrite (emits_then _ _ _ _
               (for_each_emit (fun i => EvWriteb (nth i txbuf 0) _) _)).
    rewrite (emits_then _ _ _ _ (emits_emit _)).
    unfold bind. now rewrite busy_wait_stuck.
  - rewrite (emits_then _ _ _ _ (emits_emit _)).
    rewrite (emits_then _ _ _ _ (emits_emit _)).
    rewrite (emits_then _ _ _ _ (emits_when _ _ _ (emits_emit _))).
    rewrite (emits_then _ _ _ _
               (for_each_emit (fun i => EvWriteb (nth i txbuf 0) _) _)).
    rewrite (emits_then _ _ _ _ (emits_emit _)).
    unfold bind. now rewrite busy_wait_stuck.
Qed.

(** ** Further properties: pins and controller bring-up *)

Lemma pinmux_events_pins f :
  pinmux_events cfg f = map (fun p => EvCfgpin p f) (spi0_pins cfg).
Proof.
  unfold pinmux_events, spi0_pins.
  repeat match goal with |- context [if ?b then _ else _] => destruct b end;
    reflexivity.
Qed.

(** X4: the pin setup configures each of its pins once and all of them for
    the same function: between three and six distinct pins of port C among
    PC0..PC5 and PC23, PC2 always, and as chip select exactly one of PC3 and
    PC23.  It reads no register, so it returns on any hardware. *)
Theorem pinmux_pins_distinct f t :
  spi0_pinmux_setup cfg f t =
    Ret tt (t ++ map (fun p => EvCfgpin p f) (spi0_pins cfg)) /\
  NoDup (spi0_pins cfg) /\
  (3 <= length (spi0_pins cfg) <= 6)%nat /\
  In 2 (spi0_pins cfg) /\
  (In 3 (spi0_pins cfg) <-> ~ In 23 (spi0_pins cfg)) /\
  incl (spi0_pins cfg) [0; 1; 2; 3; 4; 5; 23].
Proof.
  split; [rewrite <- pinmux_events_pins; apply spi0_pinmux_setup_emits|].
  unfold spi0_pins, incl.
  destruct (CONFIG_MACH_SUN8I_R528 cfg), (CONFIG_SUN50I_GEN_H6 cfg),
    (CONFIG_MACH_SUN50I_H6 cfg), (CONFIG_MACH_SUN50I_H616 cfg),
    (CONFIG_MACH_SUN4I cfg || CONFIG_MACH_SUN7I cfg || CONFIG_MACH_SUN8I_R40 cfg);
    cbn [negb andb orb app length In].
  all: split; [repeat constructor; cbn [In]; intuition lia|].
  all: split; [lia|].
  all: split; [intuition lia|].
  all: split; [intuition lia|].
  all: intros a; intuition lia.
Qed.

Lemma spi0_init_run t :
  (forall t', spi0_init cfg hw fuel t = Ret tt t' ->
     exists polls, t' = t ++ init_events cfg polls /\ reset_polls cfg polls) /\
  (is_sun6i_gen_spi cfg = false ->
   spi0_init cfg hw fuel t = Ret tt (t ++ init_events cfg [])).
Proof.
  unfold spi0_init. cbv zeta. fold (init_pin_function cfg).
  rewrite (emits_then _ _ _ _ (spi0_pinmux_setup_emits _)).
  unfold spi0_enable_clock. cbv zeta. unfold setbits_le32, writel.
  rewrite (emits_then _ _ _ _
             (emits_if _ _ _ _ _ (emits_emit _) (emits_when _ _ _ (emits_emit _)))).
  rewrite (emits_then _ _ _ _ (emits_when _ _ _ (emits_emit _))).
  rewrite (emits_then _ _ _ _
             (emits_if _ _ _ _ _ (emits_emit _)
                (emits_bind _ _ _ _ (emits_when _ _ _ (emits_emit _))
                            (emits_emit _)))).
  unfold init_events, enable_clock_events, reset_polls.
  destruct (is_sun6i_gen_spi cfg) eqn:Egen.
  - split; [|discriminate]. intros t' E.
    rewrite (emits_then _ _ _ _ (emits_emit _)) in E. unfold bind in E.
    match type of E with context [busy_wait hw fuel ?reg ?busy ?t0] =>
      destruct (busy_wait_run reg busy fuel t0) as [Hh | (polls & Hr & Hp)]
    end.
    + rewrite Hh in E. discriminate.
    + rewrite Hr in E. rewrite (emits_when _ _ _ (emits_emit _)) in E.
      inversion E. exists polls. split; [|exact Hp].
      now rewrite <- !app_assoc.
  - assert (E : forall e t0, emit e t0 = Ret tt (t0 ++ [e])) by reflexivity.
    rewrite E. split.
    + intros t' Et. inversion Et. exists []. split; [|reflexivity].
      now rewrite <- !app_assoc.
    + intros _. now rewrite <- !app_assoc.
Qed.

(** X2: bringing the controller up configures the pins and then releases
    the reset, opens the gate, sets the clock and enables the controller.
    On the sun6i generation it comes back only after a read of the global
    control register found the soft-reset bit clear, every earlier read
    having found it set; on the sun4i generation it reads no register at
    all and returns on any hardware. *)
Theorem init_waits_for_soft_reset t :
  (responsive hw fuel -> exists t', spi0_init cfg hw fuel t = Ret tt t') /\
  (forall t', spi0_init cfg hw fuel t = Ret tt t' ->
     exists polls, t' = t ++ init_events cfg polls /\ reset_polls cfg polls) /\
  (is_sun6i_gen_spi cfg = false ->
   spi0_init cfg hw fuel t = Ret tt (t ++ init_events cfg [])).
Proof.
  split; [|apply spi0_init_run].
  intros R. destruct (wp_progress _ _ _ (wpq_spi0_init t) R) as ([] & d & E & _).
  now exists (t ++ d).
Qed.

Lemma pins_app d1 d2 : pins (d1 ++ d2) = pins d1 ++ pins d2.
Proof. unfold pins. apply flat_map_app. Qed.

Lemma pins_pinmux f : pins (pinmux_events cfg f) = spi0_pins cfg.
Proof.
  rewrite pinmux_events_pins. induction (spi0_pins cfg) as [|p l IH];
    [reflexivity|]. simpl. now rewrite IH.
Qed.

Lemma pins_map_readl reg polls : pins (map (EvReadl reg) polls) = [].
Proof. induction polls as [|v l IH]; [reflexivity | exact IH]. Qed.

Lemma pins_enable_clock polls : pins (enable_clock_events cfg polls) = [].
Proof.
  unfold enable_clock_events.
  repeat match goal with |- context [if ?b then _ else _] => destruct b end;
    rewrite !pins_app, ?pins_map_readl; reflexivity.
Qed.

Lemma pins_deinit : pins (deinit_events cfg) = spi0_pins cfg.
Proof.
  unfold deinit_events. rewrite !pins_app, pins_pinmux.
  repeat match goal with |- context [if ?b then _ else _] => destruct b end;
    reflexivity.
Qed.

Lemma in_pinmux_cfgpin e f :
  In e (pinmux_events cfg f) -> exists p, e = EvCfgpin p f.
Proof.
  rewrite pinmux_events_pins. intros H. apply in_map_iff in H.
  destruct H as (p & <- & _). now exists p.
Qed.

(** The events of a bring-up other than the pins and the polls. *)
Lemma in_init_events e polls :
  In e (init_events cfg polls) ->
  (exists p f, e = EvCfgpin p f) \/ (exists reg v, e = EvReadl reg v) \/
  In e (enable_clock_events cfg []).
Proof.
  unfold init_events, enable_clock_events. rewrite !in_app_iff.
  intros [H | H].
  - left. destruct (in_pinmux_cfgpin _ _ H) as (p & ->). now exists p, (init_pin_function cfg).
  - destruct (is_sun6i_gen_spi cfg).
    + rewrite !in_app_iff in H.
      destruct H as [H | [H | [H | [H | [H | H]]]]].
      1-4, 6: right; right; rewrite !in_app_iff; tauto.
      right. left. apply in_map_iff in H. destruct H as (v & <- & _). eauto.
    + right. right. exact H.
Qed.

Lemma in_enable_clock_init e polls :
  In e (enable_clock_events cfg []) -> In e (init_events cfg polls).
Proof.
  unfold init_events, enable_clock_events. rewrite !in_app_iff. intros H.
  right. destruct (is_sun6i_gen_spi cfg); [|exact H].
  rewrite !in_app_iff in H. rewrite !in_app_iff. cbn [map In] in H |- *. tauto.
Qed.

Ltac split_gen :=
  destruct (CONFIG_SUN50I_GEN_H6 cfg) eqn:Eh6,
           (CONFIG_SUNXI_GEN_NCAT2 cfg) eqn:Encat2,
           (is_sun6i_gen_spi cfg) eqn:Egen,
           (CONFIG_MACH_SUNIV cfg) eqn:Esuniv.

Lemma ccm_not_controller off1 off2 :
  0 <= off1 < 0x1000 -> 0 <= off2 < 0x1000 ->
  spi0_base_address cfg + off1 <> CCM_BASE cfg + off2.
Proof.
  unfold spi0_base_address, CCM_BASE.
  repeat match goal with |- context [if ?b then _ else _] => destruct b end; lia.
Qed.

Lemma deinit_clears_what_init_set a m polls :
  In (EvClrbits a m) (deinit_events cfg) ->
  exists m', In (EvSetbits a m') (init_events cfg polls) /\ Z.land m m' = m.
Proof.
  intros H.
  enough (exists m', In (EvSetbits a m') (enable_clock_events cfg []) /\
                     Z.land m m' = m) as (m' & Hin & Hm)
    by (exists m'; split; [now apply in_enable_clock_init | exact Hm]).
  revert H. unfold deinit_events, enable_clock_events.
  rewrite !in_app_iff.
  split_gen; cbn [negb andb orb app In map];
    intros H; repeat (destruct H as [H | H]); try contradiction;
    try discriminate;
    try (destruct (in_pinmux_cfgpin _ _ H); discriminate);
    inversion H; subst;
    eexists; (split; [cbn [In]; eauto 10 | reflexivity]).
Qed.

Lemma init_gate_bits_cleared a m polls :
  In (EvSetbits a m) (init_events cfg polls) ->
  a = CCM_AHB_GATING0 cfg \/ a = CCM_H6_SPI_BGR_REG cfg \/
  a = SUN6I_BUS_SOFT_RST_REG0 cfg ->
  In (EvClrbits a m) (deinit_events cfg).
Proof.
  intros H Ha. apply in_init_events in H.
  destruct H as [(p & f & H) | [(reg & v & H) | H]]; try discriminate.
  assert (Hc : forall off, 0 <= off < 0x1000 -> a <> spi0_base_address cfg + off).
  { intros off Hoff E. rewrite E in Ha.
    unfold CCM_AHB_GATING0, CCM_H6_SPI_BGR_REG, SUN6I_BUS_SOFT_RST_REG0 in Ha.
    destruct Ha as [Ha | [Ha | Ha]]; revert Ha; apply ccm_not_controller; lia. }
  clear Ha. revert H. unfold deinit_events, enable_clock_events.
  rewrite !in_app_iff.
  split_gen; cbn [negb andb orb app In map];
    intros H; repeat (destruct H as [H | H]); try contradiction;
    try discriminate; inversion H; subst;
    try tauto;
    exfalso; (eapply Hc; [|reflexivity]; unfold_regs; lia).
Qed.

Lemma init_clock_stopped polls :
  In (EvWritel (Z.shiftl 1 31) (CCM_SPI0_CLK cfg)) (init_events cfg polls) ->
  In (EvWritel 0 (CCM_SPI0_CLK cfg)) (deinit_events cfg).
Proof.
  intros H. apply in_init_events in H.
  destruct H as [(p & f & H) | [(reg & v & H) | H]]; try discriminate.
  revert H. unfold deinit_events, enable_clock_events.
  rewrite !in_app_iff.
  destruct (CONFIG_MACH_SUNIV cfg); cbn [negb In]; [|tauto].
  intros H. exfalso.
  repeat match type of H with
         | context [if ?b then _ else _] => destruct b
         end;
    cbn [app In map] in H;
    repeat (destruct H as [H | H]); try contradiction; try discriminate;
    injection H as Hv _; vm_compute in Hv; discriminate.
Qed.

(** X3: tearing the controller down undoes what bringing it up did.  It
    configures the same pins, in the same order; every register bit it
    clears had been set in the same register by the bring-up; every gate or
    reset bit the bring-up set in the clock module it clears again; and when
    the bring-up switched the module clock on, it switches it off.  The
    teardown reads no register, so it returns on any hardware. *)
Theorem deinit_undoes_init t t1 t2 :
  spi0_init cfg hw fuel t = Ret tt t1 ->
  exists di dd,
    t1 = t ++ di /\
    spi0_deinit cfg t2 = Ret tt (t2 ++ dd) /\
    pins dd = pins di /\
    (forall a m, In (EvClrbits a m) dd ->
       exists m', In (EvSetbits a m') di /\ Z.land m m' = m) /\
    (forall a m, In (EvSetbits a m) di ->
       a = CCM_AHB_GATING0 cfg \/ a = CCM_H6_SPI_BGR_REG cfg \/
       a = SUN6I_BUS_SOFT_RST_REG0 cfg ->
       In (EvClrbits a m) dd) /\
    (In (EvWritel (Z.shiftl 1 31) (CCM_SPI0_CLK cfg)) di ->
     In (EvWritel 0 (CCM_SPI0_CLK cfg)) dd).
Proof.
  intros E. destruct (proj1 (spi0_init_run t) t1 E) as (polls & -> & _).
  exists (init_events cfg polls), (deinit_events cfg).
  split; [reflexivity|]. split; [apply spi0_deinit_emits|].
  split; [|split; [|split]].
  - unfold init_events.
    now rewrite pins_deinit, pins_app, pins_pinmux, pins_enable_clock, app_nil_r.
  - intros a m. apply deinit_clears_what_init_set.
  - intros a m. apply init_gate_bits_cleared.
  - apply init_clock_stopped.
Qed.

(** ** Further properties: SPI NAND bring-up *)

(** Events that start no bus frame, store nothing and clear no bit. *)
Lemma observed_silent d :
  Forall (fun e => match e with
                   | EvSetbits _ m => m <> spi_ctl_xch_bitmask cfg
                   | EvWriteb _ _ | EvClrbits _ _ | EvStore _ _ => False
                   | _ => True
                   end) d ->
  observed cfg d [] [].
Proof.
  induction d as [|e d IH]; intros H; [apply observed_nil|].
  inversion H as [|? ? He Hd]; subst.
  destruct (IH Hd) as (Hf & Hs & Hc).
  split; [|split].
  - intros st rest. cbn [app frames_from].
    assert (Hstep : snd (frame_step cfg st e) = []).
    { destruct e; try contradiction; try reflexivity; cbn [frame_step].
      - now destruct (_ =? _).
      - replace (set =? spi_ctl_xch_bitmask cfg) with false
          by (symmetry; now apply Z.eqb_neq).
        now rewrite andb_false_r. }
    destruct (frame_step cfg st e) as [st1 out]. cbn [snd] in Hstep. subst out.
    apply Hf.
  - destruct e; try contradiction; exact Hs.
  - destruct e; try contradiction; exact Hc.
Qed.

Lemma init_events_observed polls : observed cfg (init_events cfg polls) [] [].
Proof.
  apply observed_silent. unfold init_events, enable_clock_events.
  rewrite pinmux_events_pins. unfold spi_ctl_xch_bitmask.
  rewrite !Forall_app. split.
  { apply Forall_forall. intros e H. apply in_map_iff in H.
    now destruct H as (p & <- & _). }
  assert (Hp : forall reg, Forall (fun e => match e with
                   | EvSetbits _ m =>
                       m <> (if is_sun6i_gen_spi cfg then SUN6I_TCR_XCH
                             else SUN4I_CTL_XCH)
                   | EvWriteb _ _ | EvClrbits _ _ | EvStore _ _ => False
                   | _ => True
                   end) (map (EvReadl reg) polls)).
  { intros reg. apply Forall_forall. intros e H. apply in_map_iff in H.
    now destruct H as (p & <- & _). }
  split_gen; cbn [negb andb orb];
    repeat match goal with
           | |- _ /\ _ => split
           | |- Forall _ (_ ++ _) => apply Forall_app
           | |- Forall _ (map _ _) => apply Hp
           | |- Forall _ (_ :: _) => constructor
           | |- Forall _ [] => constructor
           | |- True => exact I
           | |- _ <> _ => intros Hm; vm_compute in Hm; discriminate Hm
           end.
Qed.

Lemma wp_spi0_init_obs t :
  WP (spi0_init cfg hw fuel) t (fun _ d => observed cfg d [] []).
Proof.
  pose proof (wpq_spi0_init t) as H. unfold wp in *.
  destruct (spi0_init cfg hw fuel t) as [[] t'| |] eqn:E; auto.
  destruct (proj1 (spi0_init_run t) t' E) as (polls & -> & _).
  eexists. split; [reflexivity | apply init_events_observed].
Qed.

Lemma wp_spi0_nand_reset_obs t :
  WP (spi0_nand_reset cfg hw fuel) t
     (fun _ d => observed cfg d [reset_frame] [] /\
                 exists d', d = d' ++ [EvUdelay 10]).
Proof.
  unfold spi0_nand_reset. cbv zeta. apply wp_bind.
  apply wp_xfer_obs; try lia; auto.
  intros rx d Hl Hb Hobs. apply wp_emit. split.
  - change [reset_frame] with ([reset_frame] ++ []).
    change (@nil (Z * Z)) with (@nil (Z * Z) ++ []).
    apply observed_app; [exact Hobs | apply observed_udelay].
  - now exists d.
Qed.

(** X5: bringing up the SPI NAND puts exactly one command on the bus, the
    Device RESET 0xff with no reply bytes, after the controller was brought
    up, and ends with the 10 microsecond wait for the chip; it stores
    nothing and clears no register bit.  On responsive hardware it
    returns. *)
Theorem spinand_init_resets_chip t :
  (responsive hw fuel -> exists t', spinand_init cfg hw fuel t = Ret tt t') /\
  (forall t', spinand_init cfg hw fuel t = Ret tt t' ->
     exists polls d,
       t' = t ++ init_events cfg polls ++ d ++ [EvUdelay 10] /\
       reset_polls cfg polls /\
       frames cfg (init_events cfg polls ++ d ++ [EvUdelay 10]) = [reset_frame] /\
       stores (init_events cfg polls ++ d ++ [EvUdelay 10]) = [] /\
       quiet (init_events cfg polls ++ d ++ [EvUdelay 10])).
Proof.
  assert (W : WP (spinand_init cfg hw fuel) t
                 (fun _ d => observed cfg d [reset_frame] [])).
  { unfold spinand_init. apply wp_bind.
    eapply wp_mono; [apply wp_spi0_init_obs|]. intros [] d0 H0.
    eapply wp_mono; [apply wp_spi0_nand_reset_obs|]. intros [] d1 (H1 & _).
    change [reset_frame] with ([] ++ [reset_frame]).
    change (@nil (Z * Z)) with (@nil (Z * Z) ++ []).
    now apply observed_app. }
  split.
  - intros R. destruct (wp_progress _ _ _ W R) as ([] & d & E & _).
    now exists (t ++ d).
  - intros t' E. unfold spinand_init in E.
    apply bind_inv in E. destruct E as ([] & t0 & E0 & E1).
    destruct (proj1 (spi0_init_run t) t0 E0) as (polls & -> & Hp).
    destruct (wp_returns _ _ _ (wp_spi0_nand_reset_obs _) _ _ E1)
      as (d1 & -> & H1 & d & ->).
    exists polls, d. split; [now rewrite <- app_assoc|]. split; [exact Hp|].
    assert (Hobs : observed cfg (init_events cfg polls ++ d ++ [EvUdelay 10])
                            ([] ++ [reset_frame]) ([] ++ []))
      by (apply observed_app; [apply init_events_observed | exact H1]).
    split; [exact (observed_frames _ _ _ Hobs)|].
    split; [apply Hobs | exact (observed_quiet _ _ _ Hobs)].
Qed.

(** ** Further properties: what a read leaves in RAM *)

Lemma ram_app t : forall r0 d a, ram r0 (t ++ d) a = ram (ram r0 t) d a.
Proof.
  induction t as [|e t IH]; intros r0 d a; [reflexivity|].
  destruct e; cbn [app ram]; apply IH.
Qed.

Lemma ram_untouched d : forall r a,
  (forall v, ~ In (a, v) (stores d)) -> ram r d a = r a.
Proof.
  induction d as [|e d IH]; intros r a H; [reflexivity|].
  destruct e; cbn [ram]; try (apply IH; exact H).
  rewrite IH by (intros v Hv; apply (H v); right; exact Hv).
  destruct (Z.eqb_spec a addr) as [-> | Hne]; [|reflexivity].
  exfalso. apply (H val). now left.
Qed.

Lemma in_stored_at a v data : forall buf,
  In (a, v) (stored_at buf data) -> buf <= a < buf + Z.of_nat (length data).
Proof.
  induction data as [|b data IH]; intros buf H; [contradiction|].
  rewrite stored_at_cons in H. cbn [length]. destruct H as [H | H].
  - inversion H; subst. lia.
  - apply IH in H. lia.
Qed.

Lemma ram_stored_at d : forall r buf data i,
  stores d = stored_at buf data -> (i < length data)%nat ->
  ram r d (buf + Z.of_nat i) = nth i data 0.
Proof.
  induction d as [|e d IH]; intros r buf data i Hs Hi.
  - destruct data; [inversion Hi | discriminate].
  - destruct e; cbn [ram]; try (apply IH; [exact Hs | exact Hi]).
    destruct data as [|b data]; [discriminate|].
    rewrite stored_at_cons in Hs. change (stores (EvStore addr val :: d))
      with ((addr, val) :: stores d) in Hs.
    inversion Hs; subst. destruct i as [|i].
    + rewrite ram_untouched.
      * rewrite Z.add_0_r, Z.eqb_refl. reflexivity.
      * intros v Hv. rewrite H2 in Hv. apply in_stored_at in Hv. lia.
    + replace (buf + Z.of_nat (S i)) with (buf + 1 + Z.of_nat i) by lia.
      cbn [nth]. apply IH; [assumption | cbn [length] in Hi; lia].
Qed.

Lemma ram_outside_stored t d r0 buf data a :
  stores d = stored_at buf data ->
  ~ (buf <= a < buf + Z.of_nat (length data)) ->
  ram r0 (t ++ d) a = ram r0 t a.
Proof.
  intros Hs Ha. rewrite ram_app. apply ram_untouched.
  intros v Hv. rewrite Hs in Hv. apply in_stored_at in Hv. contradiction.
Qed.

Lemma ram_inside_stored t d r0 buf data i :
  stores d = stored_at buf data -> (i < length (stores d))%nat ->
  ram r0 (t ++ d) (buf + Z.of_nat i) = snd (nth i (stores d) (0, 0)).
Proof.
  intros Hs Hi. rewrite ram_app.
  assert (Hl : length (stores d) = length data).
  { rewrite Hs. unfold stored_at, Zseq.
    now rewrite length_combine, length_map, length_seq, Nat.min_id. }
  rewrite (ram_stored_at d _ buf data i Hs) by lia.
  rewrite Hs. unfold stored_at.
  now rewrite combine_nth
    by (unfold Zseq; now rewrite length_map, length_seq).
Qed.

Lemma nand_cycles_zero n sector : nand_cycles cfg n sector 0 = [].
Proof. now destruct n. Qed.

Lemma plan_bytes_cycles n : forall sector remain,
  0 < CONFIG_SPL_SPINAND_PAGE_SIZE cfg -> 0 <= remain ->
  (Z.to_nat remain <= n)%nat ->
  plan_bytes (nand_cycles cfg n sector remain) = remain.
Proof.
  induction n as [|n IH]; intros sector remain Hps Hr Hn.
  - cbn. lia.
  - cbn [nand_cycles]. destruct (Z.eqb_spec remain 0) as [-> | Hne];
      [reflexivity|].
    cbn zeta. unfold plan_bytes. cbn [fold_right c_len]. fold (plan_bytes
      (nand_cycles cfg n
         (ulong cfg (sector + Z.min remain
            (CONFIG_SPL_SPINAND_PAGE_SIZE cfg -
             sector mod CONFIG_SPL_SPINAND_PAGE_SIZE cfg)))
         (remain - Z.min remain
            (CONFIG_SPL_SPINAND_PAGE_SIZE cfg -
             sector mod CONFIG_SPL_SPINAND_PAGE_SIZE cfg)))).
    pose proof (Z.mod_pos_bound sector (CONFIG_SPL_SPINAND_PAGE_SIZE cfg) Hps).
    rewrite IH; lia.
Qed.

Lemma plan_bytes_cons c plan :
  plan_bytes (c :: plan) = c_len c + plan_bytes plan.
Proof. reflexivity. Qed.

Lemma plan_bytes_nonneg plan :
  Forall (fun c => 0 < c_len c) plan -> 0 <= plan_bytes plan.
Proof.
  induction 1 as [|c plan Hc _ IH]; [cbn; lia|].
  rewrite plan_bytes_cons. lia.
Qed.

Lemma plan_bytes_firstn plan : forall k,
  Forall (fun c => 0 < c_len c) plan ->
  plan_bytes (firstn k plan) <= plan_bytes plan /\
  ((k < length plan)%nat -> plan_bytes (firstn k plan) < plan_bytes plan).
Proof.
  induction plan as [|c plan IH]; intros k H.
  - rewrite firstn_nil. cbn. split; [lia | intros; lia].
  - inversion H as [|? ? Hc Hp]; subst.
    pose proof (plan_bytes_nonneg plan Hp) as Hn.
    destruct k as [|k]; cbn [firstn length]; rewrite !plan_bytes_cons.
    + change (plan_bytes []) with 0. split; [lia | intros; lia].
    + destruct (IH k Hp) as (H1 & H2). split; [lia | intros; lia].
Qed.

(** The bytes a NAND read has stored when it returns. *)
Lemma nand_post_data sector count buf r d :
  0 < CONFIG_SPL_SPINAND_PAGE_SIZE cfg -> 0 <= count ->
  nand_post cfg (nand_cycles cfg (Z.to_nat count) sector count) count buf r d ->
  exists data,
    stores d = stored_at buf data /\ bytes data /\
    Z.of_nat (length data) <= count /\
    (r = 0 \/ r = count) /\
    (r <> 0 -> Z.of_nat (length data) = count) /\
    (0 < count -> r = 0 -> Z.of_nat (length data) < count).
Proof.
  intros Hps Hc (ks & data & _ & Hb & Hle & Hlen & Hobs & Hr).
  pose proof (plan_bytes_cycles (Z.to_nat count) sector count Hps Hc (le_n _))
    as Hall.
  assert (Hpos : Forall (fun c => 0 < c_len c)
                        (nand_cycles cfg (Z.to_nat count) sector count)).
  { eapply Forall_impl; [|apply nand_cycles_shape; assumption].
    intros c Hcs. apply Hcs. }
  destruct (plan_bytes_firstn _ (length ks) Hpos) as (H1 & H2).
  exists data. split; [apply Hobs|]. split; [exact Hb|].
  destruct (Nat.ltb_spec (length ks)
              (length (nand_cycles cfg (Z.to_nat count) sector count)))
    as [Hlt | Hge].
  - specialize (H2 Hlt). subst r. repeat split; auto; try lia.
  - rewrite firstn_all2 in Hlen by lia. subst r.
    repeat split; auto; try lia.
Qed.

Lemma length_stored_at a data : length (stored_at a data) = length data.
Proof.
  unfold stored_at, Zseq.
  now rewrite length_combine, length_map, length_seq, Nat.min_id.
Qed.

(** X11: a read writes only into its destination buffer, and writes no
    byte of it twice.  After a NOR read every RAM byte outside the [count]
    bytes (as a 32-bit value) from [buf] is what it was before, and after a
    NAND read, timed out or not, every byte outside the [count] bytes from
    [buf]; the bytes stored are at [buf], [buf + 1], ... in the order they
    were stored, and each is still there when the read returns. *)
Theorem reads_stay_in_buffer sector count buf t r t' (r0 : Z -> Z) :
  (spi_load_read_nor cfg hw fuel sector count buf t = Ret r t' ->
   exists d,
     t' = t ++ d /\
     Z.of_nat (length (stores d)) = u32 count /\
     (forall a, ~ (buf <= a < buf + u32 count) -> ram r0 t' a = ram r0 t a) /\
     (forall i, (i < length (stores d))%nat ->
        ram r0 t' (buf + Z.of_nat i) = snd (nth i (stores d) (0, 0)))) /\
  (0 < CONFIG_SPL_SPINAND_PAGE_SIZE cfg < 2 ^ 32 -> 0 <= count ->
   spi_load_read_nand cfg hw fuel sector count buf t = Ret r t' ->
   exists d,
     t' = t ++ d /\
     Z.of_nat (length (stores d)) <= count /\
     (forall a, ~ (buf <= a < buf + count) -> ram r0 t' a = ram r0 t a) /\
     (forall i, (i < length (stores d))%nat ->
        ram r0 t' (buf + Z.of_nat i) = snd (nth i (stores d) (0, 0)))).
Proof.
  split.
  - intros E.
    destruct (wp_returns _ _ _ (wp_spi_load_read_nor sector count buf t) _ _ E)
      as (d & -> & _ & data & Hl & _ & Hobs).
    destruct Hobs as (_ & Hs & _).
    assert (Hu : 0 <= u32 count) by (apply Z.mod_pos_bound; reflexivity).
    exists d. split; [reflexivity|]. split; [|split].
    + rewrite Hs, length_stored_at, Hl. lia.
    + intros a Ha. apply (ram_outside_stored t d r0 buf data a Hs). lia.
    + intros i Hi. now apply (ram_inside_stored t d r0 buf data i).
  - intros Hps Hc E.
    destruct (wp_returns _ _ _
                (wp_spi_load_read_nand sector count buf t Hps Hc) _ _ E)
      as (d & -> & Hpost).
    destruct (nand_post_data sector count buf r d (proj1 Hps) Hc Hpost)
      as (data & Hs & _ & Hle & _).
    exists d. split; [reflexivity|]. split; [|split].
    + now rewrite Hs, length_stored_at.
    + intros a Ha. apply (ram_outside_stored t d r0 buf data a Hs). lia.
    + intros i Hi. now apply (ram_inside_stored t d r0 buf data i).
Qed.

(** X12: the value a NAND read returns tells whether the buffer was filled.
    It is 0 or [count]; when it is not 0, exactly [count] bytes were stored,
    at [buf], [buf + 1], ..., [buf + count - 1] in this order; when it is 0
    for a [count] above 0, fewer than [count] bytes were stored, at the
    start of the buffer. *)
Theorem nand_read_delivers_count sector count buf t r t' :
  0 < CONFIG_SPL_SPINAND_PAGE_SIZE cfg < 2 ^ 32 -> 0 <= count ->
  spi_load_read_nand cfg hw fuel sector count buf t = Ret r t' ->
  exists d,
    t' = t ++ d /\
    (r = 0 \/ r = count) /\
    map fst (stores d) = Zseq buf (length (stores d)) /\
    (r <> 0 -> length (stores d) = Z.to_nat count) /\
    (r = 0 -> 0 < count -> (length (stores d) < Z.to_nat count)%nat).
Proof.
  intros Hps Hc E.
  destruct (wp_returns _ _ _
              (wp_spi_load_read_nand sector count buf t Hps Hc) _ _ E)
    as (d & -> & Hpost).
  destruct (nand_post_data sector count buf r d (proj1 Hps) Hc Hpost)
    as (data & Hs & _ & Hle & Hr & Hfull & Hpart).
  exists d. split; [reflexivity|]. split; [exact Hr|].
  rewrite Hs, length_stored_at, map_fst_stored_at.
  split; [reflexivity|]. split.
  - intros Hne. specialize (Hfull Hne). lia.
  - intros H0 Hpos. specialize (Hpart Hpos H0). lia.
Qed.

Lemma ulong_small x : 0 <= x < 2 ^ 31 -> ulong cfg x = x.
Proof.
  intros H. unfold ulong, BITS_PER_LONG. apply Z.mod_small.
  destruct (CONFIG_ARM64 cfg); lia.
Qed.

(** X6: the block read of the SPI NAND interface reports no failure.  It
    reads [len] bytes at byte offset [block * block_size + offset] with the
    NAND read and returns 0 whatever that read returned: also when a page
    switch timed out and fewer than [len] bytes are in the buffer.  On
    responsive hardware it returns. *)
Theorem read_block_reports_no_failure block_size block offset len dst t :
  0 < CONFIG_SPL_SPINAND_PAGE_SIZE cfg < 2 ^ 32 -> 0 <= len < 2 ^ 31 ->
  int_range (block * block_size) = true ->
  int_range (block * block_size + offset) = true ->
  (responsive hw fuel ->
   exists t',
     spinand_spl_read_block cfg hw fuel block_size block offset len dst t =
       Ret 0 t') /\
  (forall r t',
     spinand_spl_read_block cfg hw fuel block_size block offset len dst t =
       Ret r t' ->
     r = 0 /\
     exists n d,
       spi_load_read_nand cfg hw fuel
         (ulong cfg (block * block_size + offset)) len dst t = Ret n t' /\
       t' = t ++ d /\
       Z.of_nat (length (stores d)) <= len /\
       (n = 0 -> 0 < len -> Z.of_nat (length (stores d)) < len)).
Proof.
  intros Hps Hlen Hb1 Hb2.
  assert (Hc : 0 <= len) by lia.
  pose proof (wp_spi_load_read_nand
                (ulong cfg (block * block_size + offset)) len dst t Hps Hc) as W.
  unfold spinand_spl_read_block. rewrite Hb1, Hb2. cbn [andb].
  rewrite (ulong_small len Hlen). split.
  - intros R. destruct (wp_progress _ _ _ W R) as (n & d & E & _).
    exists (t ++ d). now erewrite bind_Ret by exact E.
  - intros r t' E. apply bind_inv in E. destruct E as (n & t1 & E1 & E2).
    inversion E2; subst. split; [reflexivity|].
    destruct (wp_returns _ _ _ W _ _ E1) as (d & -> & Hpost).
    destruct (nand_post_data _ len dst n d (proj1 Hps) Hc Hpost)
      as (data & Hs & _ & Hle & _ & _ & Hpart).
    exists n, d. rewrite Hs, length_stored_at.
    split; [exact E1|]. split; [reflexivity|]. split; [exact Hle|].
    intros H0 Hpos. now apply Hpart.
Qed.

(** ** Further properties: NOR reads *)

Lemma byte_of_wrap24 a k j :
  j = 1 \/ j = 256 \/ j = 65536 ->
  ((a mod 2 ^ 24 + k) / j) mod 256 = ((a + k) / j) mod 256.
Proof.
  intros Hj. change (2 ^ 24) with 16777216.
  rewrite (Z.mod_eq a 16777216) by lia.
  set (q := a / 16777216).
  destruct Hj as [-> | [-> | ->]].
  - replace (a - 16777216 * q + k) with ((a + k) + (- q * 16777216) * 1) by lia.
    rewrite Z.div_add by lia.
    replace ((a + k) / 1 + - q * 16777216)
      with ((a + k) / 1 + (- q * 65536) * 256) by lia.
    apply Z_mod_plus_full.
  - replace (a - 16777216 * q + k) with ((a + k) + (- q * 65536) * 256) by lia.
    rewrite Z.div_add by lia.
    replace ((a + k) / 256 + - q * 65536)
      with ((a + k) / 256 + (- q * 256) * 256) by lia.
    apply Z_mod_plus_full.
  - replace (a - 16777216 * q + k) with ((a + k) + (- q * 256) * 65536) by lia.
    rewrite Z.div_add by lia.
    replace ((a + k) / 65536 + - q * 256)
      with ((a + k) / 65536 + (- q) * 256) by lia.
    apply Z_mod_plus_full.
Qed.

Lemma read_frames_mod24 addr len :
  read_frames nor_header (addr mod 2 ^ 24) len = read_frames nor_header addr len.
Proof.
  unfold read_frames, chunks. rewrite !map_map.
  apply map_ext. intros i. cbn [fst snd]. f_equal. unfold nor_header.
  rewrite (byte_of_wrap24 addr _ 65536), (byte_of_wrap24 addr _ 256) by auto.
  pose proof (byte_of_wrap24 addr (60 * Z.of_nat i) 1) as H.
  rewrite !Z.div_1_r in H. now rewrite H by auto.
Qed.

(** X8: a NOR read returns the count it was asked for, whatever it read.
    The commands it sends carry the low 24 bits of the address only, so
    they are those of a read at [sector mod 2^24], and it transfers
    [count mod 2^32] bytes: an address beyond 16 MiB reads from the start of
    the flash again, and a count that wraps to 0 reads nothing and still
    returns [count]. *)
Theorem nor_read_truncates sector count buf t r t' :
  spi_load_read_nor cfg hw fuel sector count buf t = Ret r t' ->
  r = count /\
  exists d,
    t' = t ++ d /\
    frames cfg d = read_frames nor_header (sector mod 2 ^ 24) (count mod 2 ^ 32) /\
    map fst (stores d) = Zseq buf (Z.to_nat (count mod 2 ^ 32)).
Proof.
  intros E.
  destruct (wp_returns _ _ _ (wp_spi_load_read_nor sector count buf t) _ _ E)
    as (d & -> & -> & data & Hl & _ & Hobs).
  split; [reflexivity|]. exists d. split; [reflexivity|]. split.
  - rewrite (observed_frames _ _ _ Hobs).
    rewrite read_frames_u32 by apply nor_header_wrap.
    now rewrite read_frames_mod24.
  - destruct Hobs as (_ & -> & _). now rewrite map_fst_stored_at, Hl.
Qed.







(** ** Further properties: loading from NOR *)

Lemma nor_read_nothing sector buf t :
  spi_load_read_nor cfg hw fuel sector 0 buf t = Ret 0 t.
Proof. reflexivity. Qed.

Lemma nor_magic_read t1 :
  exists magic, image_get_magic ext (CONFIG_TEXT_BASE cfg) t1 = Ret magic t1.
Proof. eexists. reflexivity. Qed.

Lemma try_load_header_inv bootdev load offset allow_raw t r t' :
  spl_spi_try_load cfg ext bootdev load offset allow_raw t = Ret r t' ->
  exists n t1, load offset 0x40 (CONFIG_TEXT_BASE cfg) t = Ret n t1.
Proof.
  unfold spl_spi_try_load. intros E. apply bind_inv in E.
  destruct E as (n & t1 & Eh & _). now exists n, t1.
Qed.

Lemma try_load_raw_parsed bootdev load offset t n t1 magic st img :
  load offset 0x40 (CONFIG_TEXT_BASE cfg) t = Ret n t1 -> n <> 0 ->
  image_get_magic ext (CONFIG_TEXT_BASE cfg) t1 = Ret magic t1 ->
  CONFIG_SPL_LOAD_FIT cfg && (magic =? FDT_MAGIC ext) = false ->
  spl_parse_image_header ext bootdev (ram (ram0 ext) t1) (CONFIG_TEXT_BASE cfg) =
    (st, img) ->
  spl_spi_try_load cfg ext bootdev load offset true t =
  if st =? 0
  then (n' <- load offset (ulong cfg (size img)) (load_addr img) ;;
        if n' =? 0 then ret (- EINVAL) else ret st) t1
  else Ret st t1.
Proof.
  intros Eh Hn Em Hfit Hp. unfold spl_spi_try_load.
  erewrite bind_Ret by exact Eh.
  replace (n =? 0) with false by (symmetry; now apply Z.eqb_neq).
  erewrite bind_Ret by exact Em. rewrite Hfit.
  replace (negb true && negb (magic =? IH_MAGIC ext)) with false by reflexivity.
  rewrite Hp. now destruct (st =? 0).
Qed.

(** X7: loading from NOR, where raw images are allowed.  The header read
    cannot fail: it returns 0x40.  When the header is not taken for a
    structured image, its magic number is not checked and the load returns
    the status of the header parser, with one exception: when the parser
    succeeds with an image size that is 0 as an [ulong], the payload read
    touches no hardware, returns 0, and the load fails with the
    invalid-argument status. *)
Theorem nor_load_fails_only_on_empty_image bootdev offset t r t' :
  spl_spi_try_load cfg ext bootdev (spi_load_read_nor cfg hw fuel) offset true t =
    Ret r t' ->
  exists t1 magic,
    spi_load_read_nor cfg hw fuel offset 0x40 (CONFIG_TEXT_BASE cfg) t = Ret 0x40 t1 /\
    image_get_magic ext (CONFIG_TEXT_BASE cfg) t1 = Ret magic t1 /\
    (CONFIG_SPL_LOAD_FIT cfg && (magic =? FDT_MAGIC ext) = false ->
     forall st img,
       spl_parse_image_header ext bootdev (ram (ram0 ext) t1) (CONFIG_TEXT_BASE cfg) =
         (st, img) ->
       (st <> 0 -> r = st /\ t' = t1) /\
       (st = 0 -> ulong cfg (size img) = 0 -> r = - EINVAL /\ t' = t1) /\
       (st = 0 -> ulong cfg (size img) <> 0 -> r = 0)).
Proof.
  intros E.
  destruct (try_load_header_inv _ _ _ _ _ _ _ E) as (n & t1 & Eh).
  destruct (wp_returns _ _ _ (wp_spi_load_read_nor _ _ _ _) _ _ Eh)
    as (_ & _ & Hn & _).
  subst n.
  destruct (nor_magic_read t1) as (magic & Em).
  exists t1, magic. split; [exact Eh|]. split; [exact Em|].
  intros Hfit st img Hp.
  rewrite (try_load_raw_parsed bootdev _ offset t 64 t1 magic st img Eh
             ltac:(discriminate) Em Hfit Hp) in E.
  destruct (Z.eqb_spec st 0) as [-> | Hst].
  - split; [intros H; now contradiction H|]. split.
    + intros _ H0. rewrite H0 in E.
      erewrite bind_Ret in E by apply nor_read_nothing. now inversion E.
    + intros _ Hne. apply bind_inv in E. destruct E as (n & t2 & El & E).
      destruct (wp_returns _ _ _ (wp_spi_load_read_nor _ _ _ _) _ _ El)
        as (_ & _ & -> & _).
      apply Z.eqb_neq in Hne. rewrite Hne in E. now inversion E.
  - split; [intros _; now inversion E|]. split; intros H; contradiction.
Qed.

(** ** Further properties: the pages of a NAND read *)







(** ** Further properties: time spent waiting *)




(** ** Further properties: boot devices *)


(** X15: what the top-level load does before the first read.  For SPI NOR
    it selects the NOR read and allows raw images, and no command has gone
    to the flash when the header is read; for SPI NAND, when built in, it
    selects the NAND read, does not allow raw images, and has sent exactly
    the Device RESET command; for any other boot device it selects no read
    function.  Nothing is stored and no register bit is cleared on the
    way. *)
Theorem boot_device_selection bootdev t sel t0 :
  (spi0_init cfg hw fuel ;;; select_load cfg hw fuel bootdev) t = Ret sel t0 ->
  exists d,
    t0 = t ++ d /\ stores d = [] /\ quiet d /\
    match bootdev with
    | BOOT_DEVICE_SPI =>
        sel = (Some (spi_load_read_nor cfg hw fuel), true) /\ frames cfg d = []
    | BOOT_DEVICE_SPINAND =>
        if CONFIG_SPL_SPINAND_SUPPORT cfg
        then sel = (Some (spi_load_read_nand cfg hw fuel), false) /\
             frames cfg d = [reset_frame]
        else sel = (None, false) /\ frames cfg d = []
    | BOOT_DEVICE_OTHER => sel = (None, false) /\ frames cfg d = []
    end.
Proof.
  intros E. apply bind_inv in E. destruct E as ([] & t1 & E0 & E1).
  destruct (proj1 (spi0_init_run t) t1 E0) as (polls & -> & _).
  pose proof (init_events_observed polls) as Ho.
  assert (Hnone : forall s, Ret s (t ++ init_events cfg polls) = Ret sel t0 ->
            exists d, t0 = t ++ d /\ stores d = [] /\ quiet d /\
                      sel = s /\ frames cfg d = []).
  { intros s Es. inversion Es; subst. exists (init_events cfg polls).
    split; [reflexivity|]. split; [apply Ho|].
    split; [exact (observed_quiet _ _ _ Ho)|].
    split; [reflexivity | exact (observed_frames _ _ _ Ho)]. }
  destruct bootdev; cbn [select_load] in E1.
  - destruct (Hnone _ E1) as (d & H1 & H2 & H3 & H4 & H5). exists d. auto.
  - destruct (CONFIG_SPL_SPINAND_SUPPORT cfg).
    + apply bind_inv in E1. destruct E1 as ([] & t2 & E1 & E2).
      destruct (wp_returns _ _ _ (wp_spi0_nand_reset_obs _) _ _ E1)
        as (d1 & -> & H1 & _).
      inversion E2; subst.
      assert (Hobs : observed cfg (init_events cfg polls ++ d1)
                              ([] ++ [reset_frame]) ([] ++ []))
        by (apply observed_app; assumption).
      exists (init_events cfg polls ++ d1).
      split; [now rewrite app_assoc|]. split; [apply Hobs|].
      split; [exact (observed_quiet _ _ _ Hobs)|].
      split; [reflexivity | exact (observed_frames _ _ _ Hobs)].
    + destruct (Hnone _ E1) as (d & H1 & H2 & H3 & H4 & H5). exists d. auto.
  - destruct (Hnone _ E1) as (d & H1 & H2 & H3 & H4 & H5). exists d. auto.
Qed.

End Proofs.

(** * Test hardware is responsive *)

Lemma responsive_levels hw :
  (forall t reg, hw t reg = 0x40 \/ hw t reg = 0x41) -> responsive hw 1.
Proof.
  intros H. split.
  - intros t reg need Hn. simpl. unfold bind, readl, ret.
    destruct (H t reg) as [-> | ->].
    + change (Z.land (u32 64) 127) with 64.
      destruct (Z.ltb_spec 64 need); [lia | discriminate].
    + change (Z.land (u32 65) 127) with 65.
      destruct (Z.ltb_spec 65 need); [lia | discriminate].
  - intros t reg. simpl. unfold bind, readl, ret.
    destruct (H t reg) as [-> | ->];
      change (Z.land (u32 64) SUN6I_CTL_SRST) with 0;
      change (Z.land (u32 65) SUN6I_CTL_SRST) with 0; discriminate.
Qed.

Lemma ready_hw_responsive : responsive ready_hw 1.
Proof. apply responsive_levels. intros; now left. Qed.

Lemma busy_hw_responsive : responsive busy_hw 1.
Proof. apply responsive_levels. intros; now right. Qed.

Lemma busy_polls_hw_responsive n : responsive (busy_polls_hw n) 1.
Proof.
  apply responsive_levels. intros t reg. unfold busy_polls_hw.
  destruct (_ <=? _)%nat; auto.
Qed.

Lemma second_page_stuck_hw_responsive : responsive second_page_stuck_hw 1.
Proof.
  apply responsive_levels. intros t reg. unfold second_page_stuck_hw.
  destruct (_ <=? _)%nat; auto.
Qed.

(** * Instances *)

Lemma xfer_step_order_witness :
  0 <= 4 /\ 0 <= 2 /\ 4 + 2 <= 64 /\ (RxRam 0x1000 = RxNull -> 2 = 0) /\
  responsive ready_hw 1 /\
  exists polls echo,
    spi0_xfer h3_config ready_hw 1 [0x03; 0; 0x80; 0] 4 (RxRam 0x1000) 2 [] =
    Ret [0x40; 0x40]
        ([EvWritel 6 (spi_bc_reg h3_config);
          EvWritel 4 (spi_tc_reg h3_config);
          EvWritel 4 (spi0_base_address h3_config + SUN6I_SPI0_BCC);
          EvWriteb 0x03 (spi_tx_reg h3_config);
          EvWriteb 0 (spi_tx_reg h3_config);
          EvWriteb 0x80 (spi_tx_reg h3_config);
          EvWriteb 0 (spi_tx_reg h3_config);
          EvSetbits (spi_ctl_reg h3_config) (spi_ctl_xch_bitmask h3_config)] ++
         map (EvReadl (spi_fifo_reg h3_config)) polls ++
         map (EvReadb (spi_rx_reg h3_config)) echo ++
         [EvReadb (spi_rx_reg h3_config) 0x40; EvStore 0x1000 0x40;
          EvReadb (spi_rx_reg h3_config) 0x40; EvStore 0x1001 0x40]) /\
    length echo = 4%nat.
Proof.
  assert (H1 : 0 <= 4) by lia. assert (H2 : 0 <= 2) by lia.
  assert (H3 : 4 + 2 <= 64) by lia.
  assert (H4 : RxRam 0x1000 = RxNull -> 2 = 0) by discriminate.
  repeat (split; [assumption|]). split; [apply ready_hw_responsive|].
  destruct (xfer_step_order h3_config ready_hw 1 [0x03; 0; 0x80; 0] 4
              (RxRam 0x1000) 2 [] H1 H2 H3 H4) as [Hprog Hret].
  destruct (Hprog ready_hw_responsive) as (rx & t' & E).
  destruct (Hret rx t' E) as (polls & echo & Et & _ & He & _).
  exists polls, echo. split; [|exact He].
  rewrite E. assert (Erx : rx = [0x40; 0x40]).
  { vm_compute in E. now inversion E. }
  subst rx. rewrite Et. reflexivity.
Defined.

Lemma nor_read_chunking_witness :
  0 <= 200 < 2 ^ 32 /\
  responsive ready_hw 1 /\
  exists t',
    spi_load_read_nor h3_config ready_hw 1 0x8000 200 0x4a000000 [] = Ret 200 t' /\
    map fst (stores t') = Zseq 0x4a000000 200 /\
    frames h3_config t' =
      [{| f_tx := nor_header 0x8000; f_rxlen := 60 |};
       {| f_tx := nor_header 0x803c; f_rxlen := 60 |};
       {| f_tx := nor_header 0x8078; f_rxlen := 60 |};
       {| f_tx := nor_header 0x80b4; f_rxlen := 20 |}].
Proof.
  assert (H : 0 <= 200 < 2 ^ 32) by (split; [lia | reflexivity]).
  split; [exact H|]. split; [apply ready_hw_responsive|].
  destruct (nor_read_chunking h3_config ready_hw 1 0x8000 200 0x4a000000 [] H)
    as (Hprog & Hret & _).
  destruct (Hprog ready_hw_responsive) as (t' & E).
  destruct (Hret 200 t' E) as (_ & d & Et & Hs & Hf).
  exists t'. split; [exact E|]. cbn [app] in Et. subst d.
  split; [exact Hs | exact Hf].
Defined.

Lemma nand_read_splits_at_page_end_witness :
  0 < CONFIG_SPL_SPINAND_PAGE_SIZE h3_config < 2 ^ 32 /\ 0 <= 200 /\
  CONFIG_SPL_SPINAND_PAGE_SIZE h3_config = 2048 /\
  exists t' k1 k2,
    spi_load_read_nand h3_config (busy_polls_hw 3) 1 2000 200 0x1000 [] = Ret 200 t' /\
    (1 <= k1 <= 100)%nat /\ (1 <= k2 <= 100)%nat /\
    frames h3_config t' =
      page_switch_frame 0 :: repeat status_frame k1 ++
      {| f_tx := nand_read_header 2000; f_rxlen := 48 |} ::
      page_switch_frame 1 :: repeat status_frame k2 ++
      [{| f_tx := nand_read_header 0; f_rxlen := 60 |};
       {| f_tx := nand_read_header 60; f_rxlen := 60 |};
       {| f_tx := nand_read_header 120; f_rxlen := 32 |}].
Proof.
  assert (H1 : 0 < CONFIG_SPL_SPINAND_PAGE_SIZE h3_config < 2 ^ 32)
    by (split; reflexivity).
  assert (H2 : 0 <= 200) by lia.
  split; [exact H1|]. split; [exact H2|]. split; [reflexivity|].
  destruct (nand_read_splits_at_page_end h3_config (busy_polls_hw 3) 1
              2000 200 0x1000 [] H1 H2) as (_ & _ & Hinst).
  assert (E : exists t',
             spi_load_read_nand h3_config (busy_polls_hw 3) 1 2000 200 0x1000 [] =
             Ret 200 t') by (vm_compute; eexists; reflexivity).
  destruct E as (t' & E).
  destruct (Hinst eq_refl eq_refl eq_refl t' E)
    as (d & k1 & k2 & Et & Hk1 & Hk2 & Hf).
  cbn [app] in Et. subst d. exists t', k1, k2.
  split; [exact E|]. split; [exact Hk1|]. split; [exact Hk2 | exact Hf].
Defined.

Lemma nand_read_all_or_nothing_witness :
  0 < CONFIG_SPL_SPINAND_PAGE_SIZE h3_config < 2 ^ 32 /\ 0 <= 200 /\
  exists t',
    spi_load_read_nand h3_config second_page_stuck_hw 1 2000 200 0x1000 [] = Ret 0 t' /\
    (0 = 0 \/ 0 = 200) /\
    map fst (stores t') = Zseq 0x1000 48.
Proof.
  assert (H1 : 0 < CONFIG_SPL_SPINAND_PAGE_SIZE h3_config < 2 ^ 32)
    by (split; reflexivity).
  assert (H2 : 0 <= 200) by lia.
  split; [exact H1|]. split; [exact H2|].
  destruct (nand_read_all_or_nothing h3_config second_page_stuck_hw 1
              2000 200 0x1000 [] H1 H2) as (_ & Hret & _).
  assert (E : exists t',
             spi_load_read_nand h3_config second_page_stuck_hw 1 2000 200 0x1000 [] =
             Ret 0 t' /\ map fst (stores t') = Zseq 0x1000 48)
    by (vm_compute; eexists; split; reflexivity).
  destruct E as (t' & E & Hs).
  destruct (Hret 0 t' E) as (Hr & _).
  exists t'. split; [exact E|]. split; [exact Hr | exact Hs].
Defined.

Lemma command_framing_witness :
  exists t',
    spi_load_read_nor a10_config ready_hw 1 0x8000 64 0x4a000000 [] = Ret 64 t' /\
    frames a10_config t' =
      [{| f_tx := [0x03; 0x00; 0x80; 0x00]; f_rxlen := 60 |};
       {| f_tx := [0x03; 0x00; 0x80; 0x3c]; f_rxlen := 4 |}].
Proof.
  destruct (command_framing a10_config ready_hw 1 0x8000 64 0x4a000000 [])
    as (Hnor & _).
  assert (E : exists t',
             spi_load_read_nor a10_config ready_hw 1 0x8000 64 0x4a000000 [] =
             Ret 64 t') by (vm_compute; eexists; reflexivity).
  destruct E as (t' & E). destruct (Hnor 64 t' E) as (d & Et & Hf).
  cbn [app] in Et. subst d. exists t'. split; [exact E | exact Hf].
Defined.

Lemma page_switch_retry_witness :
  0 < CONFIG_SPL_SPINAND_PAGE_SIZE h3_config < 2 ^ 32 /\
  0 < 200 <= 200 /\
  exists rx t1 t3,
    spi0_xfer h3_config (busy_polls_hw 3) 1
      [0x13; u8 (Z.shiftr (u32 (2000 / CONFIG_SPL_SPINAND_PAGE_SIZE h3_config)) 16);
       u8 (Z.shiftr (u32 (2000 / CONFIG_SPL_SPINAND_PAGE_SIZE h3_config)) 8);
       u8 (u32 (2000 / CONFIG_SPL_SPINAND_PAGE_SIZE h3_config))] 4 RxNull 0 [] =
      Ret rx t1 /\
    spi0_nand_switch_page h3_config (busy_polls_hw 3) 1
      (u32 (2000 / CONFIG_SPL_SPINAND_PAGE_SIZE h3_config)) [] = Ret 0 t3 /\
    (exists tp d,
       nand_poll_status h3_config (busy_polls_hw 3) 1 [0x0f; 0xc0; 0; 0] t1 =
         Ret 0x41 tp /\
       tp = t1 ++ EvUdelay 1 :: d /\
       frames h3_config d = [status_frame]) /\
    delay_total t3 = 4 /\
    frames h3_config t3 = page_switch_frame 0 :: repeat status_frame 4.
Proof.
  assert (Hps : 0 < CONFIG_SPL_SPINAND_PAGE_SIZE h3_config < 2 ^ 32)
    by (split; reflexivity).
  split; [exact Hps|].
  assert (H : 0 < 200 <= 200) by lia. split; [exact H|].
  set (cmd := [0x13;
               u8 (Z.shiftr (u32 (2000 / CONFIG_SPL_SPINAND_PAGE_SIZE h3_config)) 16);
               u8 (Z.shiftr (u32 (2000 / CONFIG_SPL_SPINAND_PAGE_SIZE h3_config)) 8);
               u8 (u32 (2000 / CONFIG_SPL_SPINAND_PAGE_SIZE h3_config))]).
  set (t1 := trace_of (spi0_xfer h3_config (busy_polls_hw 3) 1 cmd 4 RxNull 0 [])).
  set (t2 := trace_of (status_polls h3_config (busy_polls_hw 3) 1 3 t1)).
  set (t3 := trace_of (nand_poll_status h3_config (busy_polls_hw 3) 1
                         [0x0f; 0xc0; 0; 0] t2)).
  set (tp := trace_of (nand_poll_status h3_config (busy_polls_hw 3) 1
                         [0x0f; 0xc0; 0; 0] t1)).
  assert (Ecmd : spi0_xfer h3_config (busy_polls_hw 3) 1 cmd 4 RxNull 0 [] = Ret [] t1)
    by (vm_compute; reflexivity).
  assert (Epolls : status_polls h3_config (busy_polls_hw 3) 1 3 t1 =
                   Ret [0x41; 0x41; 0x41] t2) by (vm_compute; reflexivity).
  assert (Epoll : nand_poll_status h3_config (busy_polls_hw 3) 1 [0x0f; 0xc0; 0; 0] t2 =
                  Ret 0x40 t3) by (vm_compute; reflexivity).
  assert (Efirst : nand_poll_status h3_config (busy_polls_hw 3) 1 [0x0f; 0xc0; 0; 0] t1 =
                   Ret 0x41 tp) by (vm_compute; reflexivity).
  assert (Hdel : delay_total t3 = 4) by (vm_compute; reflexivity).
  exists [], t1, t3. split; [exact Ecmd|].
  destruct (page_switch_retry h3_config (busy_polls_hw 3) 1 199 200 2000 200 0x1000
              [] [] t1 Hps H Ecmd) as (Hready & _ & Hpoll & Hrun).
  assert (Esw : spi0_nand_switch_page h3_config (busy_polls_hw 3) 1
                  (u32 (2000 / CONFIG_SPL_SPINAND_PAGE_SIZE h3_config)) [] = Ret 0 t3).
  { refine (proj1 (Hready 3%nat [0x41; 0x41; 0x41] t2 0x40 t3 _ Epolls _ Epoll _)).
    - lia.
    - repeat constructor; discriminate.
    - reflexivity. }
  split; [exact Esw|]. split; [|split; [exact Hdel|]].
  - destruct (Hpoll 0 0 t1 0x41 tp Efirst) as (d & Ed & _ & Hf & _).
    exists tp, d. split; [exact Efirst|]. split; [exact Ed | exact Hf].
  - destruct (Hrun _ [] 0 t3 Esw) as (d & k & Ed & Hf & Hd & _).
    cbn [app] in Ed. rewrite <- Ed in Hf, Hd.
    assert (Hk : k = 4%nat) by lia. rewrite Hk in Hf. exact Hf.
Defined.

Lemma header_read_first_witness :
  (exists t1,
     spi_load_read_nand h3_config busy_hw 1 0x8000 0x40
       (CONFIG_TEXT_BASE h3_config) [] = Ret 0 t1 /\
     spl_spi_try_load h3_config test_ext BOOT_DEVICE_SPINAND
       (spi_load_read_nand h3_config busy_hw 1) 0x8000 false [] =
       Ret (- EINVAL) t1) /\
  (exists t1,
     spi_load_read_nand h3_config legacy_nand_hw 1 0x8000 0x40
       (CONFIG_TEXT_BASE h3_config) [] = Ret 0x40 t1 /\
     0x40 <> 0 /\
     image_get_magic test_ext (CONFIG_TEXT_BASE h3_config) [] = Ret 0 [] /\
     image_get_magic test_ext (CONFIG_TEXT_BASE h3_config) t1 = Ret 0x27051956 t1 /\
     spl_spi_try_load h3_config test_ext BOOT_DEVICE_SPINAND
       (spi_load_read_nand h3_config legacy_nand_hw 1) 0x8000 false [] =
     (n' <- spi_load_read_nand h3_config legacy_nand_hw 1 0x8000
              (ulong h3_config 64) 0x42000000 ;;
      if n' =? 0 then ret (- EINVAL) else ret 0) t1).
Proof.
  split.
  - assert (E : exists t1,
      spi_load_read_nand h3_config busy_hw 1 0x8000 0x40
        (CONFIG_TEXT_BASE h3_config) [] = Ret 0 t1)
      by (vm_compute; eexists; reflexivity).
    destruct E as (t1 & E). exists t1. split; [exact E|].
    exact (proj1 (header_read_first h3_config test_ext BOOT_DEVICE_SPINAND
                    (spi_load_read_nand h3_config busy_hw 1) 0x8000 false []) t1 E).
  - set (t1 := trace_of (spi_load_read_nand h3_config legacy_nand_hw 1 0x8000 0x40
                           (CONFIG_TEXT_BASE h3_config) [])).
    assert (Eh : spi_load_read_nand h3_config legacy_nand_hw 1 0x8000 0x40
                   (CONFIG_TEXT_BASE h3_config) [] = Ret 0x40 t1)
      by (vm_compute; reflexivity).
    assert (Em : image_get_magic test_ext (CONFIG_TEXT_BASE h3_config) t1 =
                 Ret 0x27051956 t1) by (vm_compute; reflexivity).
    assert (Ep : spl_parse_image_header test_ext BOOT_DEVICE_SPINAND
                   (ram (ram0 test_ext) t1) (CONFIG_TEXT_BASE h3_config) =
                 (0, {| size := 64; load_addr := 0x42000000 |}))
      by (vm_compute; reflexivity).
    assert (Hn : 0x40 <> 0) by discriminate.
    exists t1. split; [exact Eh|]. split; [exact Hn|].
    split; [reflexivity|]. split; [exact Em|].
    destruct (proj2 (proj2 (proj2 (proj2
                (header_read_first h3_config test_ext BOOT_DEVICE_SPINAND
                   (spi_load_read_nand h3_config legacy_nand_hw 1) 0x8000 false []))))
                0x40 t1 Eh Hn) as (magic & _ & Em' & Et).
    assert (Hm : magic = 0x27051956) by congruence.
    rewrite Hm in Et. rewrite Et.
    change (CONFIG_SPL_LOAD_FIT h3_config && (0x27051956 =? FDT_MAGIC test_ext))
      with false.
    change (negb false && negb (0x27051956 =? IH_MAGIC test_ext)) with false.
    cbv beta iota. rewrite Ep. reflexivity.
Defined.

Lemma image_classification_witness :
  exists t1,
    spi_load_read_nand h3_config legacy_nand_hw 1 0x8000 0x40
      (CONFIG_TEXT_BASE h3_config) [] = Ret 0x40 t1 /\
    0x40 <> 0 /\
    image_get_magic test_ext (CONFIG_TEXT_BASE h3_config) t1 = Ret 0x27051956 t1 /\
    spl_spi_try_load h3_config test_ext BOOT_DEVICE_SPINAND
      (spi_load_read_nand h3_config legacy_nand_hw 1) 0x8000 false [] =
    (n' <- spi_load_read_nand h3_config legacy_nand_hw 1 0x8000
             (ulong h3_config 64) 0x42000000 ;;
     if n' =? 0 then ret (- EINVAL) else ret 0) t1.
Proof.
  set (t1 := trace_of (spi_load_read_nand h3_config legacy_nand_hw 1 0x8000 0x40
                         (CONFIG_TEXT_BASE h3_config) [])).
  assert (Eh : spi_load_read_nand h3_config legacy_nand_hw 1 0x8000 0x40
                 (CONFIG_TEXT_BASE h3_config) [] = Ret 0x40 t1)
    by (vm_compute; reflexivity).
  assert (Em : image_get_magic test_ext (CONFIG_TEXT_BASE h3_config) t1 =
               Ret 0x27051956 t1) by (vm_compute; reflexivity).
  assert (Ep : spl_parse_image_header test_ext BOOT_DEVICE_SPINAND
                 (ram (ram0 test_ext) t1) (CONFIG_TEXT_BASE h3_config) =
               (0, {| size := 64; load_addr := 0x42000000 |}))
    by (vm_compute; reflexivity).
  assert (Hn : 0x40 <> 0) by discriminate.
  exists t1. split; [exact Eh|]. split; [exact Hn|]. split; [exact Em|].
  destruct (image_classification h3_config test_ext BOOT_DEVICE_SPINAND
              (spi_load_read_nand h3_config legacy_nand_hw 1) 0x8000 false []
              0x40 t1 0x27051956 Eh Hn Em) as (_ & _ & Hlegacy).
  refine (proj2 (Hlegacy _ _ 0 {| size := 64; load_addr := 0x42000000 |} Ep) eq_refl).
  - right. discriminate.
  - right. reflexivity.
Defined.

Lemma teardown_once_witness :
  supported h3_config BOOT_DEVICE_SPINAND /\
  responsive busy_hw 1 /\
  exists t' d1,
    spl_spi_load_image h3_config busy_hw 1 test_ext BOOT_DEVICE_SPINAND [] =
      Ret (- EINVAL) t' /\
    t' = [] ++ d1 ++ deinit_events h3_config /\
    length (filter (is_disable h3_config) (d1 ++ deinit_events h3_config)) = 1%nat.
Proof.
  assert (Hs : supported h3_config BOOT_DEVICE_SPINAND)
    by (split; [reflexivity | split; reflexivity]).
  split; [exact Hs|]. split; [apply busy_hw_responsive|].
  destruct (teardown_once h3_config busy_hw 1 test_ext BOOT_DEVICE_SPINAND [] Hs)
    as (_ & Hret).
  assert (E : exists t',
    spl_spi_load_image h3_config busy_hw 1 test_ext BOOT_DEVICE_SPINAND [] =
    Ret (- EINVAL) t') by (vm_compute; eexists; reflexivity).
  destruct E as (t' & E).
  destruct (Hret _ t' E) as (load & raw & t0 & d1 & _ & _ & _ & Et & _ & Hone).
  exists t', d1. split; [exact E|]. split; [exact Et | exact Hone].
Defined.


(** * Where the specification and the code part *)

(** C1 as stated fails: on SPI NAND raw loading is not permitted, and a
    flash that holds a legacy image is loaded all the same; the load does
    not fail with [-EINVAL]. *)
Lemma legacy_image_loads_without_raw :
  snd (fst (match select_load h3_config legacy_nand_hw 1 BOOT_DEVICE_SPINAND [] with
            | Ret sel t => (sel, t)
            | _ => ((None, true), [])
            end)) = false /\
  image_get_magic test_ext (CONFIG_TEXT_BASE h3_config)
    (trace_of (spi_load_read_nand h3_config legacy_nand_hw 1 0x8000 0x40
                 (CONFIG_TEXT_BASE h3_config) [])) =
    Ret (IH_MAGIC test_ext)
        (trace_of (spi_load_read_nand h3_config legacy_nand_hw 1 0x8000 0x40
                     (CONFIG_TEXT_BASE h3_config) [])) /\
  spl_spi_try_load h3_config test_ext BOOT_DEVICE_SPINAND
    (spi_load_read_nand h3_config legacy_nand_hw 1) 0x8000 false [] =
    Ret 0 (trace_of (spl_spi_try_load h3_config test_ext BOOT_DEVICE_SPINAND
                       (spi_load_read_nand h3_config legacy_nand_hw 1) 0x8000 false [])) /\
  spl_spi_load_image h3_config legacy_nand_hw 1 test_ext BOOT_DEVICE_SPINAND [] =
    Ret 0 (trace_of (spl_spi_load_image h3_config legacy_nand_hw 1 test_ext
                       BOOT_DEVICE_SPINAND [])) /\
  0 <> - EINVAL.
Proof.
  split; [vm_compute; reflexivity|]. split; [vm_compute; reflexivity|].
  split; [vm_compute; reflexivity|]. split; [vm_compute; reflexivity|].
  discriminate.
Qed.

(** C2 as stated fails: when the NAND chip stays busy, the page switch ends
    with [-ETIMEDOUT], but the NAND read returns the count 0 and no status,
    and the status of the load is [-EINVAL]: no Timeout is reported. *)
Lemma nand_timeout_not_reported :
  spi0_nand_switch_page h3_config busy_hw 1 16 [] =
    Ret (- ETIMEDOUT) (trace_of (spi0_nand_switch_page h3_config busy_hw 1 16 [])) /\
  spi_load_read_nand h3_config busy_hw 1 0x8000 0x40 0x4a000000 [] =
    Ret 0 (trace_of (spi_load_read_nand h3_config busy_hw 1 0x8000 0x40 0x4a000000 [])) /\
  spl_spi_load_image h3_config busy_hw 1 test_ext BOOT_DEVICE_SPINAND [] =
    Ret (- EINVAL)
        (trace_of (spl_spi_load_image h3_config busy_hw 1 test_ext
                     BOOT_DEVICE_SPINAND [])) /\
  - EINVAL <> - ETIMEDOUT.
Proof.
  split; [vm_compute; reflexivity|]. split; [vm_compute; reflexivity|].
  split; [vm_compute; reflexivity|]. discriminate.
Qed.

(** * Instances of the further properties *)

Lemma xfer_beyond_fifo_level_hangs_witness :
  127 < u32 (4 + 124) /\
  spi0_xfer h3_config ready_hw 1000 [0x03; 0; 0; 0] 4 (RxRam 0x1000) 124 [] = Hang.
Proof.
  assert (H : 127 < u32 (4 + 124)) by reflexivity.
  split; [exact H|].
  exact (xfer_beyond_fifo_level_hangs h3_config ready_hw 1000 [0x03; 0; 0; 0] 4
           (RxRam 0x1000) 124 [] H).
Defined.

Lemma pinmux_pins_distinct_witness :
  spi0_pins h3_config = [0; 2; 1; 3] /\ spi0_pins a10_config = [0; 2; 1; 23] /\
  NoDup (spi0_pins h3_config).
Proof.
  split; [reflexivity|]. split; [reflexivity|].
  exact (proj1 (proj2 (pinmux_pins_distinct h3_config SUNXI_GPC_SPI0 []))).
Defined.

Lemma init_waits_for_soft_reset_witness :
  responsive ready_hw 1 /\
  (exists polls,
     spi0_init h3_config ready_hw 1 [] = Ret tt (init_events h3_config polls) /\
     reset_polls h3_config polls) /\
  is_sun6i_gen_spi a10_config = false /\
  spi0_init a10_config busy_hw 0 [] = Ret tt (init_events a10_config []).
Proof.
  split; [apply ready_hw_responsive|]. split.
  - destruct (init_waits_for_soft_reset h3_config ready_hw 1 [])
      as (Hprog & Hret & _).
    destruct (Hprog ready_hw_responsive) as (t' & E).
    destruct (Hret t' E) as (polls & Et & Hp).
    exists polls. split; [|exact Hp]. rewrite E, Et. reflexivity.
  - split; [reflexivity|].
    exact (proj2 (proj2 (init_waits_for_soft_reset a10_config busy_hw 0 []))
                 eq_refl).
Defined.

Lemma deinit_undoes_init_witness :
  spi0_init h3_config ready_hw 1 [] =
    Ret tt (trace_of (spi0_init h3_config ready_hw 1 [])) /\
  exists di dd,
    trace_of (spi0_init h3_config ready_hw 1 []) = [] ++ di /\
    spi0_deinit h3_config [] = Ret tt ([] ++ dd) /\
    pins dd = [0; 2; 1; 3] /\ pins di = [0; 2; 1; 3] /\
    In (EvClrbits (CCM_AHB_GATING0 h3_config) (Z.shiftl 1 AHB_GATE_OFFSET_SPI0)) dd.
Proof.
  assert (E : spi0_init h3_config ready_hw 1 [] =
              Ret tt (trace_of (spi0_init h3_config ready_hw 1 [])))
    by (vm_compute; reflexivity).
  split; [exact E|].
  destruct (deinit_undoes_init h3_config ready_hw 1 [] _ [] E)
    as (di & dd & Hi & Hd & Hp & _ & Hg & _).
  exists di, dd. split; [exact Hi|]. split; [exact Hd|].
  cbn [app] in Hi. subst di.
  assert (Hpi : pins (trace_of (spi0_init h3_config ready_hw 1 [])) = [0; 2; 1; 3])
    by (vm_compute; reflexivity).
  split; [now rewrite Hp|]. split; [exact Hpi|].
  apply Hg; [|now left].
  vm_compute. tauto.
Defined.

Lemma spinand_init_resets_chip_witness :
  responsive ready_hw 1 /\
  exists t',
    spinand_init h3_config ready_hw 1 [] = Ret tt t' /\
    frames h3_config t' = [reset_frame] /\
    last t' (EvUdelay 0) = EvUdelay 10.
Proof.
  split; [apply ready_hw_responsive|].
  destruct (spinand_init_resets_chip h3_config ready_hw 1 []) as (Hprog & Hret).
  destruct (Hprog ready_hw_responsive) as (t' & E).
  destruct (Hret t' E) as (polls & d & Et & _ & Hf & _).
  exists t'. split; [exact E|]. cbn [app] in Et. subst t'.
  split; [exact Hf|].
  rewrite !app_assoc. apply last_last.
Defined.

Lemma read_block_reports_no_failure_witness :
  0 < CONFIG_SPL_SPINAND_PAGE_SIZE h3_config < 2 ^ 32 /\ 0 <= 100 < 2 ^ 31 /\
  int_range (1 * 0x20000) = true /\ int_range (1 * 0x20000 + 0) = true /\
  responsive busy_hw 1 /\
  exists t',
    spinand_spl_read_block h3_config busy_hw 1 0x20000 1 0 100 0x1000 [] = Ret 0 t' /\
    spi_load_read_nand h3_config busy_hw 1 0x20000 100 0x1000 [] = Ret 0 t' /\
    Z.of_nat (length (stores t')) < 100.
Proof.
  assert (Hps : 0 < CONFIG_SPL_SPINAND_PAGE_SIZE h3_config < 2 ^ 32)
    by (split; reflexivity).
  assert (Hlen : 0 <= 100 < 2 ^ 31) by (split; [lia | reflexivity]).
  assert (Hb1 : int_range (1 * 0x20000) = true) by reflexivity.
  assert (Hb2 : int_range (1 * 0x20000 + 0) = true) by reflexivity.
  repeat (split; [assumption|]). split; [apply busy_hw_responsive|].
  destruct (read_block_reports_no_failure h3_config busy_hw 1 0x20000 1 0 100
              0x1000 [] Hps Hlen Hb1 Hb2) as (Hprog & Hret).
  destruct (Hprog busy_hw_responsive) as (t' & E).
  destruct (Hret 0 t' E) as (_ & n & d & En & Et & _ & Hlt).
  assert (E0 : exists t0,
             spi_load_read_nand h3_config busy_hw 1 0x20000 100 0x1000 [] = Ret 0 t0)
    by (vm_compute; eexists; reflexivity).
  destruct E0 as (t0 & E0).
  change (ulong h3_config (1 * 131072 + 0)) with 131072 in En.
  rewrite E0 in En. inversion En; subst n t0.
  exists t'. split; [exact E|]. split; [exact E0|].
  cbn [app] in Et. subst d. apply Hlt; [reflexivity | lia].
Defined.

Lemma nor_load_fails_only_on_empty_image_witness :
  exists t1,
    spi_load_read_nor a10_config ready_hw 1 0x8000 0x40
      (CONFIG_TEXT_BASE a10_config) [] = Ret 0x40 t1 /\
    spl_parse_image_header test_ext BOOT_DEVICE_SPI
      (ram (ram0 test_ext) t1) (CONFIG_TEXT_BASE a10_config) =
      (-1, {| size := 0; load_addr := 0 |}) /\
    spl_spi_try_load a10_config test_ext BOOT_DEVICE_SPI
      (spi_load_read_nor a10_config ready_hw 1) 0x8000 true [] = Ret (-1) t1.
Proof.
  set (t1c := trace_of (spi_load_read_nor a10_config ready_hw 1 0x8000 0x40
                          (CONFIG_TEXT_BASE a10_config) [])).
  assert (Ehc : spi_load_read_nor a10_config ready_hw 1 0x8000 0x40
                  (CONFIG_TEXT_BASE a10_config) [] = Ret 0x40 t1c)
    by (vm_compute; reflexivity).
  assert (Hparse : spl_parse_image_header test_ext BOOT_DEVICE_SPI
                     (ram (ram0 test_ext) t1c) (CONFIG_TEXT_BASE a10_config) =
                   (-1, {| size := 0; load_addr := 0 |}))
    by (vm_compute; reflexivity).
  set (t' := trace_of (spl_spi_try_load a10_config test_ext BOOT_DEVICE_SPI
                         (spi_load_read_nor a10_config ready_hw 1) 0x8000 true [])).
  assert (E : spl_spi_try_load a10_config test_ext BOOT_DEVICE_SPI
                (spi_load_read_nor a10_config ready_hw 1) 0x8000 true [] = Ret (-1) t')
    by (vm_compute; reflexivity).
  exists t1c. split; [exact Ehc|]. split; [exact Hparse|].
  destruct (nor_load_fails_only_on_empty_image a10_config ready_hw 1 test_ext
              BOOT_DEVICE_SPI 0x8000 [] (-1) t' E)
    as (t1 & magic & Eh & Em & Hp).
  assert (Ht : t1 = t1c) by congruence.
  rewrite Ht in Hp.
  destruct (Hp eq_refl _ _ Hparse) as (Hst & _).
  destruct (Hst ltac:(discriminate)) as (_ & Et).
  rewrite E. exact (f_equal (Ret (-1)) Et).
Defined.

Lemma nor_read_truncates_witness :
  exists t',
    spi_load_read_nor h3_config ready_hw 1 0x1000010 5 0x2000 [] = Ret 5 t' /\
    frames h3_config t' = [{| f_tx := [0x03; 0; 0; 0x10]; f_rxlen := 5 |}] /\
    map fst (stores t') = [0x2000; 0x2001; 0x2002; 0x2003; 0x2004].
Proof.
  assert (E : exists t',
             spi_load_read_nor h3_config ready_hw 1 0x1000010 5 0x2000 [] = Ret 5 t')
    by (vm_compute; eexists; reflexivity).
  destruct E as (t' & E). exists t'. split; [exact E|].
  destruct (nor_read_truncates h3_config ready_hw 1 0x1000010 5 0x2000 [] 5 t' E)
    as (_ & d & Et & Hf & Hs).
  cbn [app] in Et. subst d. split; [exact Hf | exact Hs].
Defined.



Lemma reads_stay_in_buffer_witness :
  0 < CONFIG_SPL_SPINAND_PAGE_SIZE h3_config < 2 ^ 32 /\ 0 <= 200 /\
  (exists t',
     spi_load_read_nor h3_config ready_hw 1 0x8000 70 0x1000 [] = Ret 70 t' /\
     ram (fun _ => 0x55) t' 0x0fff = 0x55 /\
     ram (fun _ => 0x55) t' 0x1046 = 0x55 /\
     ram (fun _ => 0x55) t' (0x1000 + Z.of_nat 69) = 0x40) /\
  (exists t',
     spi_load_read_nand h3_config second_page_stuck_hw 1 2000 200 0x1000 [] =
       Ret 0 t' /\
     ram (fun _ => 0x55) t' 0x0fff = 0x55 /\
     ram (fun _ => 0x55) t' 0x10c8 = 0x55).
Proof.
  assert (Hps : 0 < CONFIG_SPL_SPINAND_PAGE_SIZE h3_config < 2 ^ 32)
    by (split; reflexivity).
  assert (Hc : 0 <= 200) by lia.
  split; [exact Hps|]. split; [exact Hc|]. split.
  - set (t' := trace_of (spi_load_read_nor h3_config ready_hw 1 0x8000 70 0x1000 [])).
    assert (E : spi_load_read_nor h3_config ready_hw 1 0x8000 70 0x1000 [] = Ret 70 t')
      by (vm_compute; reflexivity).
    exists t'. split; [exact E|].
    destruct (proj1 (reads_stay_in_buffer h3_config ready_hw 1 0x8000 70 0x1000 []
                       70 t' (fun _ => 0x55)) E) as (d & Ed & Hl & Hout & Hin).
    split; [apply (Hout 0x0fff); change (u32 70) with 70; lia|].
    split; [apply (Hout 0x1046); change (u32 70) with 70; lia|].
    rewrite (Hin 69%nat) by (change (u32 70) with 70 in Hl; lia).
    cbn [app] in Ed. rewrite <- Ed. vm_compute. reflexivity.
  - set (t' := trace_of (spi_load_read_nand h3_config second_page_stuck_hw 1 2000
                           200 0x1000 [])).
    assert (E : spi_load_read_nand h3_config second_page_stuck_hw 1 2000 200 0x1000 [] =
                Ret 0 t') by (vm_compute; reflexivity).
    exists t'. split; [exact E|].
    destruct (proj2 (reads_stay_in_buffer h3_config second_page_stuck_hw 1 2000 200
                       0x1000 [] 0 t' (fun _ => 0x55)) Hps Hc E)
      as (d & _ & _ & Hout & _).
    split; [apply (Hout 0x0fff); lia | apply (Hout 0x10c8); lia].
Defined.

Lemma nand_read_delivers_count_witness :
  0 < CONFIG_SPL_SPINAND_PAGE_SIZE h3_config < 2 ^ 32 /\ 0 <= 200 /\
  (exists t',
     spi_load_read_nand h3_config ready_hw 1 2000 200 0x1000 [] = Ret 200 t' /\
     length (stores t') = 200%nat /\
     map fst (stores t') = Zseq 0x1000 200) /\
  (exists t',
     spi_load_read_nand h3_config second_page_stuck_hw 1 2000 200 0x1000 [] =
       Ret 0 t' /\
     (length (stores t') < 200)%nat).
Proof.
  assert (Hps : 0 < CONFIG_SPL_SPINAND_PAGE_SIZE h3_config < 2 ^ 32)
    by (split; reflexivity).
  assert (Hc : 0 <= 200) by lia.
  split; [exact Hps|]. split; [exact Hc|]. split.
  - set (t' := trace_of (spi_load_read_nand h3_config ready_hw 1 2000 200 0x1000 [])).
    assert (E : spi_load_read_nand h3_config ready_hw 1 2000 200 0x1000 [] = Ret 200 t')
      by (vm_compute; reflexivity).
    exists t'. split; [exact E|].
    destruct (nand_read_delivers_count h3_config ready_hw 1 2000 200 0x1000 []
                200 t' Hps Hc E) as (d & Ed & _ & Hs & Hfull & _).
    cbn [app] in Ed. rewrite <- Ed in Hs, Hfull.
    assert (Hl : length (stores t') = 200%nat)
      by (rewrite Hfull by discriminate; reflexivity).
    split; [exact Hl|]. rewrite Hs, Hl. reflexivity.
  - set (t' := trace_of (spi_load_read_nand h3_config second_page_stuck_hw 1 2000
                           200 0x1000 [])).
    assert (E : spi_load_read_nand h3_config second_page_stuck_hw 1 2000 200 0x1000 [] =
                Ret 0 t') by (vm_compute; reflexivity).
    exists t'. split; [exact E|].
    destruct (nand_read_delivers_count h3_config second_page_stuck_hw 1 2000 200
                0x1000 [] 0 t' Hps Hc E) as (d & Ed & _ & _ & _ & Hpart).
    cbn [app] in Ed. rewrite <- Ed in Hpart.
    specialize (Hpart eq_refl ltac:(lia)). change (Z.to_nat 200) with 200%nat in Hpart.
    exact Hpart.
Defined.



Lemma boot_device_selection_witness :
  (exists t0,
     (spi0_init h3_config ready_hw 1 ;;;
      select_load h3_config ready_hw 1 BOOT_DEVICE_SPINAND) [] =
       Ret (Some (spi_load_read_nand h3_config ready_hw 1), false) t0 /\
     frames h3_config t0 = [reset_frame]) /\
  (exists t0,
     (spi0_init a10_config ready_hw 1 ;;;
      select_load a10_config ready_hw 1 BOOT_DEVICE_SPI) [] =
       Ret (Some (spi_load_read_nor a10_config ready_hw 1), true) t0 /\
     frames a10_config t0 = []).
Proof.
  split.
  - set (ti := trace_of (spi0_init h3_config ready_hw 1 [])).
    set (t0 := trace_of (spi0_nand_reset h3_config ready_hw 1 ti)).
    assert (Ei : spi0_init h3_config ready_hw 1 [] = Ret tt ti)
      by (vm_compute; reflexivity).
    assert (Er : spi0_nand_reset h3_config ready_hw 1 ti = Ret tt t0)
      by (vm_compute; reflexivity).
    assert (E : (spi0_init h3_config ready_hw 1 ;;;
                 select_load h3_config ready_hw 1 BOOT_DEVICE_SPINAND) [] =
                Ret (Some (spi_load_read_nand h3_config ready_hw 1), false) t0).
    { unfold bind at 1. rewrite Ei. cbn [select_load].
      change (CONFIG_SPL_SPINAND_SUPPORT h3_config) with true. cbv iota.
      unfold bind at 1. rewrite Er. reflexivity. }
    exists t0. split; [exact E|].
    destruct (boot_device_selection h3_config ready_hw 1 BOOT_DEVICE_SPINAND [] _ t0 E)
      as (d & Ed & _ & _ & Hm).
    cbn [app] in Ed. rewrite <- Ed in Hm.
    change (CONFIG_SPL_SPINAND_SUPPORT h3_config) with true in Hm. apply Hm.
  - set (t0 := trace_of (spi0_init a10_config ready_hw 1 [])).
    assert (Ei : spi0_init a10_config ready_hw 1 [] = Ret tt t0)
      by (vm_compute; reflexivity).
    assert (E : (spi0_init a10_config ready_hw 1 ;;;
                 select_load a10_config ready_hw 1 BOOT_DEVICE_SPI) [] =
                Ret (Some (spi_load_read_nor a10_config ready_hw 1), true) t0).
    { unfold bind at 1. rewrite Ei. reflexivity. }
    exists t0. split; [exact E|].
    destruct (boot_device_selection a10_config ready_hw 1 BOOT_DEVICE_SPI [] _ t0 E)
      as (d & Ed & _ & _ & Hm).
    cbn [app] in Ed. rewrite <- Ed in Hm. apply Hm.
Defined.
